(** * Campus scheduler: the client code against its specification

    A shallow embedding of the scheduler's client-side JavaScript:

    - [LocalApp]: the localStorage-based application (the [APP] object,
      login, sample data, event creation, approve and decline);
    - [Api]: the REST clients [OverlapDetector] and [ApprovalManager];
    - [DragDrop]: the drag-and-drop module with its stand-in
      [OverlapDetector] and the two rescheduling handlers;
    - [LocalPages], [OverlapPage], [Approvals], [AdminPanel], [Dashboard]
      and [Colors]: the rest of the pages, as far as they compute;
    - [Engine]: the overlap checker of the server, whose code is not among
      the sources, taken from the specification.

    Conventions of the embedding.  JavaScript strings are [string]s.  An
    ISO-8601 timestamp string is represented by the time value (milliseconds
    since the epoch) it denotes, wrapped in [ISOString]: [toISOString] and
    the [Date] parser are inverse to each other on valid dates.  A [Date]
    object is [JSDate]: a time value or the invalid date.  Code that can
    throw returns an [Outcome], which keeps the state reached when the
    exception escaped.  The Numbers of the rescheduling arithmetic are
    IEEE 754 binary64 values ([spec_float] at precision 53), so that the
    rounding of the handlers is the rounding of the code.  HTML rendering
    is left out. *)

From Stdlib Require Import ZArith String Ascii List Bool Lia.
From Stdlib Require Import Floats.SpecFloat.
From stdpp Require Import base list strings pretty gmap.

Local Open Scope string_scope.
Local Open Scope Z_scope.

(** ** JavaScript values shared by the modules *)

#[warnings="-register-all"]
Inductive json : Type :=
| JNull
| JBool (b : bool)
| JNum (n : Z)
| JStr (s : string)
| JArr (items : list json)
| JObj (fields : list (string * json)).

(** Property read [o.key]: the first field of that name, [None] for
    [undefined]. *)
Fixpoint assoc (key : string) (fields : list (string * json)) : option json :=
  match fields with
  | [] => None
  | (k, v) :: rest => if String.eqb k key then Some v else assoc key rest
  end.

Definition get (key : string) (o : json) : option json :=
  match o with
  | JObj fields => assoc key fields
  | _ => None
  end.

(** The integral Numbers that a template literal prints with all their
    decimal digits, those of magnitude at most [2^53].  Beyond that
    Number::toString gives the shortest digits that read back as the same
    Number, and an exponent from [1e21] on; the definitions below print a
    Number with [pretty] and stand for the code on safe integers. *)
Definition safeInteger (n : Z) : bool := Z.abs n <=? 2 ^ 53.

Inductive JsError := TypeError | RangeError.

Inductive JSDate := InvalidDate | DateAt (tv : Z).

Record ISOString := Iso { timeValue : Z }.

(** The largest time value a [Date] holds (ECMAScript TimeClip). *)
Definition maxTime : Z := 8640000000000000.

Definition inDateRange (t : Z) : bool := Z.abs t <=? maxTime.

(** [Date.prototype.toISOString]: a RangeError on the invalid date. *)
Definition toISOString (d : JSDate) : JsError + ISOString :=
  match d with
  | InvalidDate => inl RangeError
  | DateAt t => inr (Iso t)
  end.

(** [new Date(isoString)] on a string produced by [toISOString]. *)
Definition parseISO (s : ISOString) : JSDate := DateAt (timeValue s).

(** [String.prototype.includes]. *)
Fixpoint startsWith (needle s : string) : bool :=
  match needle, s with
  | EmptyString, _ => true
  | String a needle', String b s' => Ascii.eqb a b && startsWith needle' s'
  | String _ _, EmptyString => false
  end.

Fixpoint includes (s needle : string) : bool :=
  startsWith needle s ||
  match s with
  | EmptyString => false
  | String _ s' => includes s' needle
  end.

(** ** The localStorage-based application *)

Module LocalApp.

Record User := mkUser {
  u_id : string;
  u_email : string;
  u_role : string;
  u_first_name : string;
  u_last_name : string
}.

Record Schedule := mkSchedule {
  s_id : Z;
  s_title : string;
  s_description : string;
  s_color : string;
  s_is_public : bool;
  s_user_id : string
}.

(** [schedule_id] is the result of [Number.parseInt]: [None] is NaN. *)
Record Event := mkEvent {
  id : Z;
  schedule_id : option Z;
  title : string;
  start_time : ISOString;
  end_time : ISOString;
  location : string;
  status : string
}.

(** The global [APP] object. *)
Record APP := mkAPP {
  currentUser : option User;
  schedules : list Schedule;
  events : list Event;
  approvals : list json
}.

(** The four localStorage keys the application writes; [None] is an absent
    key.  A stored JSON text is represented by the value it encodes. *)
Record Storage := mkStorage {
  ls_currentUser : option (option User);
  ls_schedules : option (list Schedule);
  ls_events : option (list Event);
  ls_approvals : option (list json)
}.

Record World := mkWorld {
  app : APP;
  storage : Storage;
  alerts : list string
}.

Inductive Outcome :=
| Done (w : World)
| Threw (e : JsError) (w : World).

Definition bind (o : Outcome) (k : World -> Outcome) : Outcome :=
  match o with
  | Done w => k w
  | Threw e w => Threw e w
  end.

Definition stateOf (o : Outcome) : World :=
  match o with
  | Done w => w
  | Threw _ w => w
  end.

Definition isFailure (o : Outcome) : Prop :=
  match o with
  | Done _ => False
  | Threw _ _ => True
  end.

Definition initialAPP : APP := mkAPP None [] [] [].

Definition emptyStorage : Storage := mkStorage None None None None.

Definition setEvents (evs : list Event) (a : APP) : APP :=
  mkAPP (currentUser a) (schedules a) evs (approvals a).

Definition setSchedules (ss : list Schedule) (a : APP) : APP :=
  mkAPP (currentUser a) ss (events a) (approvals a).

Definition setCurrentUser (u : option User) (a : APP) : APP :=
  mkAPP u (schedules a) (events a) (approvals a).

Definition setStatus (s : string) (e : Event) : Event :=
  mkEvent (id e) (schedule_id e) (title e) (start_time e) (end_time e)
          (location e) s.

Definition alert (msg : string) (w : World) : World :=
  mkWorld (app w) (storage w) (alerts w ++ [msg]).

Definition saveUserData (w : World) : World :=
  mkWorld (app w)
          (mkStorage (Some (currentUser (app w))) (Some (schedules (app w)))
                     (Some (events (app w))) (Some (approvals (app w))))
          (alerts w).

(** [showDashboard] reads [APP.currentUser.role] while it builds the page:
    a TypeError when nobody is logged in. *)
Definition showDashboard (w : World) : Outcome :=
  match currentUser (app w) with
  | None => Threw TypeError w
  | Some _ => Done w
  end.

(** The "Pending Event Approvals" list of the dashboard: one Approve and one
    Decline button per event whose status is "pending", each bound to the
    event's id. *)
Definition isPending (e : Event) : bool := String.eqb (status e) "pending".

Definition adminApprovalButtons (a : APP) : list Z :=
  map id (filter (fun e => isPending e = true) (events a)).

(** The sidebar shows the Admin Panel entry to admins only. *)
Definition adminMenuShown (u : User) : bool := String.eqb (u_role u) "admin".

(** *** Login *)

Definition extractRole (email : string) : string :=
  if includes email "admin" then "admin"
  else if includes email "teacher" then "teacher"
  else "student".

Definition toUpperAscii (c : ascii) : ascii :=
  let n := nat_of_ascii c in
  if ((97 <=? n) && (n <=? 122))%nat then ascii_of_nat (n - 32) else c.

(** [role.charAt(0).toUpperCase() + role.slice(1)], for ASCII letters. *)
Definition capitalize (role : string) : string :=
  match role with
  | EmptyString => EmptyString
  | String c rest => String (toUpperAscii c) rest
  end.

(** The four readings of [Date.now()] that [loadSampleData] takes. *)
Record Clock := mkClock { now1 : Z; now2 : Z; now3 : Z; now4 : Z }.

(** [new Date(ms)] for an integral number of milliseconds. *)
Definition newDate (ms : Z) : JSDate :=
  if inDateRange ms then DateAt ms else InvalidDate.

Definition sampleSchedules (uid : string) : list Schedule :=
  [ mkSchedule 1 "Spring 2025 Classes" "All spring classes" "#3b82f6" true uid;
    mkSchedule 2 "Lab Schedule" "Weekly lab sessions" "#10b981" false uid ].

Definition sampleEvents (c : Clock) : JsError + list Event :=
  match toISOString (newDate (now1 c + 86400000)),
        toISOString (newDate (now2 c + 90000000)),
        toISOString (newDate (now3 c + 172800000)),
        toISOString (newDate (now4 c + 176400000)) with
  | inr a, inr b, inr c', inr d =>
      inr [ mkEvent 1 (Some 1) "Math 101" a b "Room 101" "approved";
            mkEvent 2 (Some 1) "Physics Lab" c' d "Lab B" "pending" ]
  | _, _, _, _ => inl RangeError
  end.

(** [loadSampleData]: the array of schedules is built (reading
    [APP.currentUser.id]) and assigned before the array of events is built,
    so an exception in the second leaves the first assignment in place. *)
Definition loadSampleData (c : Clock) (w : World) : Outcome :=
  match schedules (app w) with
  | [] =>
      match currentUser (app w) with
      | None => Threw TypeError w
      | Some u =>
          let w1 := mkWorld (setSchedules (sampleSchedules (u_id u)) (app w))
                            (storage w) (alerts w) in
          match sampleEvents c with
          | inl e => Threw e w1
          | inr evs =>
              Done (saveUserData
                      (mkWorld (setEvents evs (app w1)) (storage w1) (alerts w1)))
          end
      end
  | _ :: _ => Done w
  end.

(** [quickLogin]; [rnd] is the identifier drawn from [Math.random()]. *)
Definition quickLogin (rnd : string) (c : Clock) (email role : string)
    (w : World) : Outcome :=
  let u := mkUser rnd email role (capitalize role) "User" in
  let w1 := saveUserData
              (mkWorld (setCurrentUser (Some u) (app w)) (storage w) (alerts w)) in
  bind (loadSampleData c w1) showDashboard.

(** [handleLogin]; [email] and [password] are the values of the two input
    fields. *)
Definition handleLogin (rnd : string) (c : Clock) (email password : string)
    (w : World) : Outcome :=
  if String.eqb email "" || String.eqb password "" then
    Done (alert "Please enter email and password" w)
  else quickLogin rnd c email (extractRole email) w.

(** *** Creating events *)

(** The fields of the "Add Event to Schedule" form as [createEvent] reads
    them: [f_schedule_id] is [Number.parseInt(form.schedule_id.value)],
    [f_start_time] and [f_end_time] are [new Date(...)] of the two
    datetime-local values. *)
Record EventForm := mkEventForm {
  f_schedule_id : option Z;
  f_title : string;
  f_start_time : JSDate;
  f_end_time : JSDate;
  f_location : string
}.

(** [createEvent]; [now] is the reading of [Date.now()] used as the id.  The
    object literal is evaluated field by field, so an invalid start or end
    date raises before [APP.currentUser.role] is read. *)
Definition createEvent (now : Z) (form : EventForm) (w : World) : Outcome :=
  match toISOString (f_start_time form) with
  | inl e => Threw e w
  | inr start =>
      match toISOString (f_end_time form) with
      | inl e => Threw e w
      | inr stop =>
          match currentUser (app w) with
          | None => Threw TypeError w
          | Some u =>
              let event :=
                mkEvent now (f_schedule_id form) (f_title form) start stop
                        (f_location form)
                        (if String.eqb (u_role u) "admin" then "approved"
                         else "pending") in
              let w1 := mkWorld (setEvents (events (app w) ++ [event]) (app w))
                                (storage w) (alerts w) in
              showDashboard (alert "Event created!" (saveUserData w1))
          end
      end
  end.

(** *** Approving and declining *)

(** [APP.events.find((e) => e.id === id)] followed by the assignment to the
    found object's [status]: the first event with that id is updated in
    place; a missing event makes the assignment a TypeError. *)
Definition transitionTo (target msg : string) (i : Z) (w : World) : Outcome :=
  match list_find (fun e => id e = i) (events (app w)) with
  | None => Threw TypeError w
  | Some (k, e) =>
      let w1 := mkWorld (setEvents (<[k := setStatus target e]> (events (app w)))
                                   (app w))
                        (storage w) (alerts w) in
      showDashboard (alert msg (saveUserData w1))
  end.

Definition approveEvent (i : Z) (w : World) : Outcome :=
  transitionTo "approved" "Event approved!" i w.

Definition declineEvent (i : Z) (w : World) : Outcome :=
  transitionTo "declined" "Event declined!" i w.

(** The status of the event that [find] returns for an id. *)
Definition statusOf (i : Z) (w : World) : option string :=
  match list_find (fun e => id e = i) (events (app w)) with
  | None => None
  | Some (_, e) => Some (status e)
  end.

End LocalApp.

(** ** The REST clients *)

Module Api.

Inductive Method := GET | POST | PUT.

(** A request as [fetch] receives it; [body] is the value that
    [JSON.stringify] serialises. *)
Record Request := mkRequest {
  url : string;
  method : Method;
  body : json
}.

(** What [response.json()] yields: the parsed body, or a rejection with the
    parser's message. *)
Inductive Payload :=
| Json (j : json)
| NotJson (message : string).

(** What awaiting [fetch] yields: a response with its [ok] flag, or a
    rejection (the network failed) with the error's message. *)
Inductive FetchOutcome :=
| Resolved (ok : bool) (payload : Payload)
| Rejected (message : string).

(** The server and the network between the page and it. *)
Definition Network := Request -> FetchOutcome.

Record Browser := mkBrowser {
  sent : list Request;
  alerts : list string;
  consoleErrors : list string
}.

Definition freshBrowser : Browser := mkBrowser [] [] [].

Definition send (r : Request) (b : Browser) : Browser :=
  mkBrowser (sent b ++ [r]) (alerts b) (consoleErrors b).

Definition alert (msg : string) (b : Browser) : Browser :=
  mkBrowser (sent b) (alerts b ++ [msg]) (consoleErrors b).

Definition consoleError (label msg : string) (b : Browser) : Browser :=
  mkBrowser (sent b) (alerts b) (consoleErrors b ++ [label +:+ " " +:+ msg]).

Module OverlapDetector.

Definition API_BASE : string := "https://api.example.com".

(** The shared shape of the three methods: POST the body, return the parsed
    response whatever its status, and on any exception log it and return
    the method's fallback object. *)
Definition post (net : Network) (path label : string) (payload : json)
    (fallback : string -> json) (b : Browser) : json * Browser :=
  let req := mkRequest (API_BASE +:+ path) POST payload in
  let b1 := send req b in
  match net req with
  | Resolved _ (Json j) => (j, b1)
  | Resolved _ (NotJson msg) => (fallback msg, consoleError label msg b1)
  | Rejected msg => (fallback msg, consoleError label msg b1)
  end.

Definition checkEventOverlap (net : Network)
    (scheduleId startTime endTime excludeEventId : json) (b : Browser)
    : json * Browser :=
  post net "/scheduling/check-overlap" "Error checking overlap:"
       (JObj [("schedule_id", scheduleId); ("start_time", startTime);
              ("end_time", endTime); ("exclude_event_id", excludeEventId)])
       (fun msg => JObj [("has_overlap", JBool false); ("error", JStr msg)])
       b.

Definition checkFacilityAvailability (net : Network)
    (building roomNumber startTime endTime : json) (b : Browser)
    : json * Browser :=
  post net "/scheduling/facility-availability" "Error checking facility:"
       (JObj [("building", building); ("room_number", roomNumber);
              ("start_time", startTime); ("end_time", endTime)])
       (fun msg => JObj [("available", JBool true); ("error", JStr msg)])
       b.

Definition getSuggestedTimes (net : Network)
    (scheduleId startTime endTime durationMinutes : json) (b : Browser)
    : json * Browser :=
  post net "/scheduling/suggest-times" "Error getting suggestions:"
       (JObj [("schedule_id", scheduleId); ("start_time", startTime);
              ("end_time", endTime); ("duration_minutes", durationMinutes)])
       (fun _ => JObj [("alternatives", JArr [])])
       b.

End OverlapDetector.

Module ApprovalManager.

Definition API_BASE : string := "https://example.com/api".

(** [declineEvent(approvalId, reason)]; a [reason] of [None] is
    [undefined].  The guard [!reason] holds for [undefined] and for the
    empty string.  The id is printed into the address as a safe integer
    is. *)
Definition declineEvent (net : Network) (approvalId : Z)
    (reason : option string) (b : Browser) : bool * Browser :=
  match reason with
  | None => (false, alert "Please provide a reason for decline" b)
  | Some r =>
      if String.eqb r "" then
        (false, alert "Please provide a reason for decline" b)
      else
        let req := mkRequest
                     (API_BASE +:+ "/approvals/" +:+ pretty approvalId
                               +:+ "/decline")
                     POST (JObj [("reason", JStr r)]) in
        let b1 := send req b in
        match net req with
        | Resolved true _ => (true, alert "Event declined successfully" b1)
        | Resolved false _ => (false, alert "Error declining event" b1)
        | Rejected msg => (false, consoleError "Error declining event:" msg b1)
        end
  end.

End ApprovalManager.

End Api.

(** ** The drag-and-drop module *)

Module DragDrop.

(** JavaScript Numbers are IEEE 754 binary64 values, here the executable
    specification of the standard library at precision 53. *)
Definition prec : Z := 53.
Definition emax : Z := 1024.

Definition Number := spec_float.

Definition ofZ (z : Z) : Number := binary_normalize prec emax z 0 false.

Definition nadd (x y : Number) : Number := SFadd prec emax x y.
Definition nsub (x y : Number) : Number := SFsub prec emax x y.
Definition nmul (x y : Number) : Number := SFmul prec emax x y.
Definition ndiv (x y : Number) : Number := SFdiv prec emax x y.

(** The Number a [Date] converts to in arithmetic: its time value, NaN for
    the invalid date. *)
Definition valueOf (d : JSDate) : Number :=
  match d with
  | InvalidDate => S754_nan
  | DateAt t => ofZ t
  end.

(** ToIntegerOrInfinity on a finite non-zero Number: truncation towards
    zero of [(-1)^s * m * 2^e]. *)
Definition truncate (s : bool) (m : positive) (e : Z) : Z :=
  let magnitude := Z.shiftl (Zpos m) e in
  if s then - magnitude else magnitude.

(** [new Date(number)]: TimeClip of the Number. *)
Definition TimeClip (x : Number) : JSDate :=
  match x with
  | S754_zero _ => DateAt 0
  | S754_finite s m e =>
      let t := truncate s m e in
      if inDateRange t then DateAt t else InvalidDate
  | S754_infinity _ => InvalidDate
  | S754_nan => InvalidDate
  end.

(** The local-time methods of [Date], which depend on the browser's time
    zone: [getHours t] and [getMinutes t] at time value [t]; [setHours t h m
    sec] is the date that [setHours(h, m)] ([sec = None]) or
    [setHours(h, m, sec)] leaves in a [Date] that held [t]. *)
Record Host := mkHost {
  getHours : Z -> Z;
  getMinutes : Z -> Z;
  setHours : Z -> Z -> Z -> option Z -> JSDate
}.

(** A browser whose local time is UTC. *)
Definition utcHost : Host :=
  mkHost (fun t => (t / 3600000) mod 24)
         (fun t => (t / 60000) mod 60)
         (fun t h m sec =>
            let day := t / 86400000 in
            let s := match sec with
                     | Some s => s
                     | None => (t / 1000) mod 60
                     end in
            let tv := day * 86400000 + h * 3600000 + m * 60000 + s * 1000
                      + t mod 1000 in
            if inDateRange tv then DateAt tv else InvalidDate).

(** The event carried by a drag: [start_time] and [end_time] are
    [new Date(event.start_time)] and [new Date(event.end_time)]. *)
Record DragEvent := mkDragEvent {
  id : Z;
  schedule_id : json;
  title : string;
  start_time : JSDate;
  end_time : JSDate
}.

(** The drag payload [dataTransfer.getData("application/json")]: empty, not
    parseable (with the parser's message), or an event. *)
Inductive DragData :=
| NoData
| Malformed (message : string)
| EventData (ev : DragEvent).

(** The PUT request to [/events/<id>] with its body. *)
Record EventUpdate := mkEventUpdate {
  eventId : Z;
  new_start_time : ISOString;
  new_end_time : ISOString
}.

(** The answer to a PUT: a response with its [ok] flag, or none (the
    [fetch] promise rejects with an error of that message). *)
Inductive FetchResult :=
| Responded (ok : bool)
| Failed (message : string).

Definition Network := EventUpdate -> FetchResult.

Record Page := mkPage {
  sent : list EventUpdate;
  alerts : list string;
  consoleErrors : list string;
  unhandledRejections : list string
}.

Definition freshPage : Page := mkPage [] [] [] [].

Definition send (u : EventUpdate) (p : Page) : Page :=
  mkPage (sent p ++ [u]) (alerts p) (consoleErrors p) (unhandledRejections p).

Definition alert (msg : string) (p : Page) : Page :=
  mkPage (sent p) (alerts p ++ [msg]) (consoleErrors p) (unhandledRejections p).

Definition consoleError (label msg : string) (p : Page) : Page :=
  mkPage (sent p) (alerts p) (consoleErrors p ++ [label +:+ " " +:+ msg])
         (unhandledRejections p).

Definition reject (msg : string) (p : Page) : Page :=
  mkPage (sent p) (alerts p) (consoleErrors p) (unhandledRejections p ++ [msg]).

(** The module's own [OverlapDetector]: its [checkEventOverlap] ignores its
    four arguments. *)
Module OverlapDetector.

Definition checkEventOverlap {A B C D : Type}
    (scheduleId : A) (startTime : B) (endTime : C) (eventId : D) : json :=
  JObj [("has_overlap", JBool false)].

End OverlapDetector.

(** Truthiness of a property read. *)
Definition truthy (v : option json) : bool :=
  match v with
  | None => false
  | Some JNull => false
  | Some (JBool b) => b
  | Some (JNum n) => negb (n =? 0)
  | Some (JStr s) => negb (String.eqb s "")
  | Some (JArr _) => true
  | Some (JObj _) => true
  end.

(** The double-quote character. *)
Definition quote : ascii := ascii_of_nat 34.

(** A value inside a template literal (ToString): an array is its elements
    joined by commas, [null] elements left empty; a Number is printed as a
    safe integer is. *)
Fixpoint render (j : json) : string :=
  match j with
  | JNull => "null"
  | JBool true => "true"
  | JBool false => "false"
  | JNum n => pretty n
  | JStr s => s
  | JArr items =>
      (fix join (l : list json) : string :=
         match l with
         | [] => ""
         | x :: rest =>
             let shown := match x with
                          | JNull => ""
                          | _ => render x
                          end in
             match rest with
             | [] => shown
             | _ :: _ => shown +:+ "," +:+ join rest
             end
         end) items
  | JObj _ => "[object Object]"
  end.

Definition display (v : option json) : string :=
  match v with
  | None => "undefined"
  | Some j => render j
  end.

(** [(new Date(end_time) - new Date(start_time)) / (1000 * 60)]. *)
Definition durationMinutes (start stop : JSDate) : Number :=
  ndiv (nsub (valueOf stop) (valueOf start)) (ofZ 60000).

(** [new Date(newStartTime.getTime() + duration * 60 * 1000)]. *)
Definition shiftedEnd (newStartTime : JSDate) (duration : Number) : JSDate :=
  TimeClip (nadd (valueOf newStartTime)
                 (nmul (nmul duration (ofZ 60)) (ofZ 1000))).

(** The tail shared by the two handlers: send the PUT and report. *)
Definition putEvent (net : Network) (label okMsg : string) (u : EventUpdate)
    (p : Page) : Page :=
  let p1 := send u p in
  match net u with
  | Responded true => alert okMsg p1
  | Responded false => p1
  | Failed msg => consoleError label msg p1
  end.

(** [DragDropManager.handleEventDroppedOnDate(e, newDate)]. *)
Definition handleEventDroppedOnDate (host : Host) (net : Network)
    (data : DragData) (newDate : JSDate) (p : Page) : Page :=
  match data with
  | NoData => p
  | Malformed msg => consoleError "Error moving event:" msg p
  | EventData event =>
      let newStartTime :=
        match start_time event, newDate with
        | DateAt old, DateAt target =>
            let timeDiff := getHours host old * 60 + getMinutes host old in
            setHours host target (timeDiff / 60) (Z.rem timeDiff 60) None
        | _, _ => InvalidDate
        end in
      let duration := durationMinutes (start_time event) (end_time event) in
      let newEndTime := shiftedEnd newStartTime duration in
      match toISOString newStartTime, toISOString newEndTime with
      | inr start, inr stop =>
          let overlapResult :=
            OverlapDetector.checkEventOverlap (schedule_id event) start stop
                                              (id event) in
          if truthy (get "has_overlap" overlapResult) then
            match get "conflicting_event" overlapResult with
            | Some c =>
                alert ("Cannot move event: conflicts with " +:+
                       String quote (display (get "title" c)) +:+
                       String quote "") p
            | None =>
                consoleError "Error moving event:"
                             "Cannot read properties of undefined" p
            end
          else
            putEvent net "Error moving event:" "Event moved successfully"
                     (mkEventUpdate (id event) start stop) p
      | _, _ => consoleError "Error moving event:" "Invalid time value" p
      end
  end.

(** [TimeblockDragDrop.rescheduleEvent(eventDataStr, newTime)].  [now] is
    the time value of [new Date()]; [hours] and [minutes] are the two
    Numbers read from the slot label, [None] for NaN.  [JSON.parse] runs
    outside the [try], so a payload that does not parse rejects the
    promise. *)
Definition rescheduleEvent (host : Host) (net : Network) (now : Z)
    (data : DragData) (hours minutes : option Z) (p : Page) : Page :=
  match data with
  | NoData => reject "Unexpected end of JSON input" p
  | Malformed msg => reject msg p
  | EventData eventData =>
      let newStartTime :=
        match hours, minutes with
        | Some h, Some m => setHours host now h m (Some 0)
        | _, _ => InvalidDate
        end in
      let duration :=
        durationMinutes (start_time eventData) (end_time eventData) in
      let newEndTime := shiftedEnd newStartTime duration in
      match toISOString newStartTime, toISOString newEndTime with
      | inr start, inr stop =>
          putEvent net "Error rescheduling event:"
                   "Event rescheduled successfully"
                   (mkEventUpdate (id eventData) start stop) p
      | _, _ => consoleError "Error rescheduling event:" "Invalid time value" p
      end
  end.

(** The duration, in minutes, of the interval a PUT carries. *)
Definition updateDuration (u : EventUpdate) : Number :=
  durationMinutes (parseISO (new_start_time u)) (parseISO (new_end_time u)).

End DragDrop.

(** ** Sequences of approve and decline clicks *)

Module Clicks.
Import LocalApp.

Inductive Action := Approve | Decline.

Definition target (a : Action) : string :=
  match a with
  | Approve => "approved"
  | Decline => "declined"
  end.

Definition perform (a : Action) (i : Z) (w : World) : Outcome :=
  match a with
  | Approve => approveEvent i w
  | Decline => declineEvent i w
  end.

(** The calls made one after the other, stopping at the first exception. *)
Fixpoint performAll (steps : list (Action * Z)) (w : World) : Outcome :=
  match steps with
  | [] => Done w
  | (a, i) :: rest => bind (perform a i w) (performAll rest)
  end.


End Clicks.

(** ** The rule of the specification for the initial status

    Kept for comparison with what [createEvent] computes: "approved" when
    the creator's role bypasses review or the event does not require
    approval, "pending" otherwise. *)
Definition specInitialStatus (role : string) (requiresApproval : bool) : string :=
  if String.eqb role "admin" || negb requiresApproval then "approved"
  else "pending".

(** [needle] occurs in [s] as a substring. *)
Definition occursIn (needle s : string) : Prop :=
  exists before after, s = before +:+ needle +:+ after.

(** ** Concrete states used in the examples *)

Module Samples.
Import LocalApp.

Definition admin : User :=
  mkUser "k3x9a1b2c" "admin@campus.edu" "admin" "Admin" "User".

Definition teacher : User :=
  mkUser "p0q8r7s6t" "teacher@campus.edu" "teacher" "Teacher" "User".


Definition mathEvent : Event :=
  mkEvent 1 (Some 1) "Math 101" (Iso 1793664000000) (Iso 1793667600000)
          "Room 101" "approved".

Definition labEvent : Event :=
  mkEvent 2 (Some 1) "Physics Lab" (Iso 1793750400000) (Iso 1793754000000)
          "Lab B" "pending".

Definition worldOf (u : User) : World :=
  mkWorld (mkAPP (Some u) (sampleSchedules (u_id u)) [mathEvent; labEvent] [])
          emptyStorage [].

(** A form whose end precedes its start. *)
Definition backwardsForm : EventForm :=
  mkEventForm (Some 1) "Seminar" (DateAt 1793700000000) (DateAt 1793696400000)
              "Room 7".

Definition seminarForm : EventForm :=
  mkEventForm (Some 1) "Seminar" (DateAt 1793696400000) (DateAt 1793700000000)
              "Room 7".

Definition noon : Clock :=
  mkClock 1793620800000 1793620800000 1793620800001 1793620800001.

(** A dragged event of two minutes and three seconds, and a network that
    accepts every update. *)
Definition quiz : DragDrop.DragEvent :=
  DragDrop.mkDragEvent 7 (JNum 1) "Quiz" (DateAt 1793577600000)
                       (DateAt 1793577723000).

Definition lecture : DragDrop.DragEvent :=
  DragDrop.mkDragEvent 8 (JNum 1) "Lecture" (DateAt 1793613600000)
                       (DateAt 1793617200000).

Definition accepting : DragDrop.Network := fun _ => DragDrop.Responded true.

Definition offline : Api.Network := fun _ => Api.Rejected "Failed to fetch".

Definition noAlternatives : Api.Network :=
  fun _ => Api.Resolved true (Api.Json (JObj [("alternatives", JArr [])])).

End Samples.

(** ** The rest of the local application *)

Module LocalPages.
Import LocalApp.

(** What [saveUserData] leaves under the four keys. *)
Definition snapshot (a : APP) : Storage :=
  mkStorage (Some (currentUser a)) (Some (schedules a)) (Some (events a))
            (Some (approvals a)).

(** [loadUserData]: nothing is read unless the key "currentUser" is there; a
    missing key among the other three reads as the empty array.  JSON
    writes a NaN [schedule_id] as [null]; the properties about reloading
    are stated for events whose [schedule_id] is a number. *)
Definition loadUserData (w : World) : World :=
  match ls_currentUser (storage w) with
  | None => w
  | Some u =>
      mkWorld (mkAPP u
                     (default [] (ls_schedules (storage w)))
                     (default [] (ls_events (storage w)))
                     (default [] (ls_approvals (storage w))))
              (storage w) (alerts w)
  end.

Inductive Screen := LoginPage | Dashboard.

(** [initApp]: the screen it shows and the state it leaves. *)
Definition initApp (w : World) : Screen * World :=
  let w1 := loadUserData w in
  match currentUser (app w1) with
  | None => (LoginPage, w1)
  | Some _ => (Dashboard, w1)
  end.

(** [logout]: [APP.schedules] and [APP.events] are not reset. *)
Definition logout (w : World) : Screen * World :=
  initApp (mkWorld (setCurrentUser None (app w)) emptyStorage (alerts w)).

(** The fields of the "Create New Schedule" form. *)
Record ScheduleForm := mkScheduleForm {
  sf_title : string;
  sf_description : string;
  sf_color : string;
  sf_is_public : bool
}.

(** [createSchedule]; [now] is the reading of [Date.now()] used as the id.
    [APP.currentUser.id] is read while the object is built, before the
    push. *)
Definition createSchedule (now : Z) (form : ScheduleForm) (w : World) : Outcome :=
  match currentUser (app w) with
  | None => Threw TypeError w
  | Some u =>
      let schedule :=
        mkSchedule now (sf_title form) (sf_description form) (sf_color form)
                   (sf_is_public form) (u_id u) in
      let w1 := mkWorld (setSchedules (schedules (app w) ++ [schedule]) (app w))
                        (storage w) (alerts w) in
      showDashboard (alert "Schedule created!" (saveUserData w1))
  end.

(** [APP.events.filter((e) => e.schedule_id === id)], as [viewSchedule] and
    the schedule cards of the dashboard compute it. *)
Definition eventsOfSchedule (i : Z) (a : APP) : list Event :=
  filter (fun e => schedule_id e = Some i) (events a).

(** [viewSchedule(id)]: the schedule and the events the page lists; reading
    the title of a schedule that [find] did not return is a TypeError. *)
Definition viewSchedule (i : Z) (a : APP) : JsError + (Schedule * list Event) :=
  match list_find (fun s => s_id s = i) (schedules a) with
  | None => inl TypeError
  | Some (_, s) => inr (s, eventsOfSchedule i a)
  end.

(** The "Upcoming Events" of the dashboard: [APP.events.slice(0, 5)]. *)
Definition upcomingEvents (a : APP) : list Event := take 5 (events a).

(** Storage and [APP] agree. *)
Definition synced (w : World) : Prop := storage w = snapshot (app w).

End LocalPages.

(** ** The status lines of the event form *)

Module OverlapPage.

(** The status element: its class and the text of its message, without the
    markup and the icon. *)
Record StatusEl := mkStatusEl {
  className : string;
  message : string
}.

(** [updateOverlapStatus(result)]. *)
Definition updateOverlapStatus (result : json) : JsError + StatusEl :=
  match result with
  | JNull => inl TypeError
  | _ =>
      if DragDrop.truthy (get "has_overlap" result) then
        match get "conflicting_event" result with
        | None => inl TypeError
        | Some JNull => inl TypeError
        | Some c =>
            inr (mkStatusEl "status-warning"
                   ("Overlaps with " +:+
                    String DragDrop.quote
                      (DragDrop.display (get "title" c)) +:+
                    String DragDrop.quote ""))
        end
      else if DragDrop.truthy (get "error" result) then
        inr (mkStatusEl "status-error" "Error checking availability")
      else
        inr (mkStatusEl "status-success" "No conflicts")
  end.

(** [updateFacilityStatus(result)]: the [error] of the result is not read. *)
Definition updateFacilityStatus (result : json) : JsError + StatusEl :=
  match result with
  | JNull => inl TypeError
  | _ =>
      if DragDrop.truthy (get "available" result) then
        inr (mkStatusEl "status-success" "Room available")
      else
        inr (mkStatusEl "status-warning"
               ("Room has " +:+ DragDrop.display (get "conflict_count" result)
                            +:+ " conflict(s)"))
  end.

End OverlapPage.

(** ** The other actions of [ApprovalManager] *)

Module Approvals.
Import Api.

Definition API_BASE : string := ApprovalManager.API_BASE.

(** What the actions return: [Some b] for a boolean, [None] for
    [undefined]. *)
Definition Result := option bool.

Definition truthyResult (r : Result) : bool :=
  match r with
  | Some b => b
  | None => false
  end.

(** [requestApproval(eventId, reason = "")]. *)
Definition requestApproval (net : Network) (eventId : Z)
    (reason : option string) (b : Browser) : Result * Browser :=
  let req := mkRequest (API_BASE +:+ "/approvals/") POST
               (JObj [("event_id", JNum eventId);
                      ("reason", JStr (default "" reason))]) in
  let b1 := send req b in
  match net req with
  | Resolved true _ => (Some true, alert "Approval requested successfully" b1)
  | Resolved false _ => (Some false, alert "Error requesting approval" b1)
  | Rejected msg => (Some false, consoleError "Error requesting approval:" msg b1)
  end.

(** [approveEvent(approvalId, reason = "")]; here and in the two actions
    below the id is printed into the address as a safe integer is. *)
Definition approveEvent (net : Network) (approvalId : Z)
    (reason : option string) (b : Browser) : Result * Browser :=
  let req := mkRequest
               (API_BASE +:+ "/approvals/" +:+ pretty approvalId +:+ "/approve")
               POST (JObj [("reason", JStr (default "" reason))]) in
  let b1 := send req b in
  match net req with
  | Resolved true _ => (Some true, alert "Event approved successfully" b1)
  | Resolved false _ => (Some false, alert "Error approving event" b1)
  | Rejected msg => (Some false, consoleError "Error approving event:" msg b1)
  end.

(** [requestChanges(approvalId, reason)]: no default and no guard; an
    undefined reason is left out of the serialised body.  A response that
    is not ok falls through the [if]: nothing is shown and nothing is
    returned. *)
Definition requestChanges (net : Network) (approvalId : Z)
    (reason : option string) (b : Browser) : Result * Browser :=
  let req := mkRequest
               (API_BASE +:+ "/approvals/" +:+ pretty approvalId
                         +:+ "/request-changes")
               POST (JObj match reason with
                          | Some r => [("reason", JStr r)]
                          | None => []
                          end) in
  let b1 := send req b in
  match net req with
  | Resolved true _ => (Some true, alert "Change request sent to organizer" b1)
  | Resolved false _ => (None, b1)
  | Rejected msg => (Some false, consoleError "Error requesting changes:" msg b1)
  end.

(** [resubmitForApproval(approvalId)]: a POST without a body, written
    [JNull]. *)
Definition resubmitForApproval (net : Network) (approvalId : Z) (b : Browser)
    : Result * Browser :=
  let req := mkRequest
               (API_BASE +:+ "/approvals/" +:+ pretty approvalId +:+ "/resubmit")
               POST JNull in
  let b1 := send req b in
  match net req with
  | Resolved true _ => (Some true, alert "Event resubmitted for approval" b1)
  | Resolved false _ => (None, b1)
  | Rejected msg => (Some false, consoleError "Error resubmitting event:" msg b1)
  end.

(** The four actions under one name. *)
Inductive Action :=
| RequestApproval (eventId : Z) (reason : option string)
| ApproveEvent (approvalId : Z) (reason : option string)
| RequestChanges (approvalId : Z) (reason : option string)
| Resubmit (approvalId : Z).

Definition run (net : Network) (a : Action) (b : Browser) : Result * Browser :=
  match a with
  | RequestApproval i r => requestApproval net i r b
  | ApproveEvent i r => approveEvent net i r b
  | RequestChanges i r => requestChanges net i r b
  | Resubmit i => resubmitForApproval net i b
  end.

(** Whether the server accepted the one request of the action. *)
Definition accepted (o : FetchOutcome) : bool :=
  match o with
  | Resolved ok _ => ok
  | Rejected _ => false
  end.

End Approvals.

(** ** The admin panel *)

Module AdminPanel.
Import Api.

Definition API_BASE : string := "http://localhost:5000/api".

(** The entries that [loadUsers] appends to its [URLSearchParams], from the
    values of the role filter, the active filter and the search box. *)
Definition loadUsersParams (role active search : string)
    : list (string * string) :=
  (if String.eqb role "" then [] else [("role", role)]) ++
  (if String.eqb active "" then [] else [("is_active", active)]) ++
  [("page", "1"); ("per_page", "20")].

(** The page: the address it was sent to, if any, and its traffic. *)
Record Page := mkPage {
  location : option string;
  browser : Browser
}.

(** [currentUser.role] is truthy and is "admin". *)
Definition isAdmin (currentUser : json) : bool :=
  match get "role" currentUser with
  | Some (JStr r) => String.eqb r "admin"
  | _ => false
  end.

(** [initializeAdmin()] over the parsed item "current_user"; reading the
    role of [null] is a TypeError. *)
Definition initializeAdmin (currentUser : json) (pg : Page) : JsError + Page :=
  match currentUser with
  | JNull => inl TypeError
  | _ =>
      if isAdmin currentUser then inr pg
      else inr (mkPage (Some "/login.html") (browser pg))
  end.

(** A property that can be read further: neither [undefined] nor [null]. *)
Definition readable (v : option json) : bool :=
  match v with
  | None => false
  | Some JNull => false
  | Some _ => true
  end.

(** Whether the nine statistics can be read off the response:
    [data.users], [data.schedules], [data.events] and [data.users.by_role]
    are dereferenced. *)
Definition statisticsReadable (data : json) : bool :=
  match data with
  | JNull => false
  | _ =>
      readable (get "users" data) && readable (get "schedules" data) &&
      readable (get "events" data) &&
      match get "users" data with
      | Some users => readable (get "by_role" users)
      | None => false
      end
  end.

(** [loadDashboardData()]: the request for the statistics; any exception is
    logged. *)
Definition loadDashboardData (net : Network) (b : Browser) : Browser :=
  let req := mkRequest (API_BASE +:+ "/admin/statistics") GET JNull in
  let b1 := send req b in
  match net req with
  | Resolved _ (Json data) =>
      if statisticsReadable data then b1
      else consoleError "Error loading dashboard data:"
                        "Cannot read properties of undefined" b1
  | Resolved _ (NotJson msg) =>
      consoleError "Error loading dashboard data:" msg b1
  | Rejected msg => consoleError "Error loading dashboard data:" msg b1
  end.

(** The listener of [DOMContentLoaded]: [initializeAdmin()],
    [setupEventListeners()] (which registers listeners only) and
    [loadDashboardData()], one after the other. *)
Definition onDOMContentLoaded (currentUser : json) (net : Network) (pg : Page)
    : JsError + Page :=
  match initializeAdmin currentUser pg with
  | inl e => inl e
  | inr pg1 => inr (mkPage (location pg1) (loadDashboardData net (browser pg1)))
  end.

End AdminPanel.

(** ** The dashboard of students and teachers *)

Module Dashboard.

(** The object that [createEvent] posts, [start_time] and [end_time] being
    the results of [toISOString]. *)
Record EventData := mkEventData {
  schedule_id : option Z;
  title : option string;
  description : option string;
  start_time : ISOString;
  end_time : ISOString;
  building : option string;
  room_number : option string;
  location : option string;
  is_recurring : bool;
  recurrence_pattern : option string;
  recurrence_end_date : option string;
  requires_approval : bool
}.

Inductive Request :=
| GetSchedules
| PostEvent (data : EventData).

(** The answer to a request: a response with its status and body, or none
    (the [fetch] promise rejects). *)
Inductive Answer :=
| Answered (status : Z) (payload : Api.Payload)
| Unreachable (message : string).

(** [response.ok]. *)
Definition ok (status : Z) : bool := (200 <=? status) && (status <=? 299).

Definition Network := Request -> Answer.

Record Page := mkPage {
  address : option string;
  creationShown : bool;
  currentView : string;
  userSchedules : option json;
  sent : list Request;
  alerts : list string;
  consoleErrors : list string
}.

(** The page as its script starts: the calendar view, no schedules. *)
Definition freshPage : Page :=
  mkPage None false "calendar" (Some (JArr [])) [] [] [].

Definition redirect (to : string) (pg : Page) : Page :=
  mkPage (Some to) (creationShown pg) (currentView pg) (userSchedules pg)
         (sent pg) (alerts pg) (consoleErrors pg).

Definition showCreation (pg : Page) : Page :=
  mkPage (address pg) true (currentView pg) (userSchedules pg)
         (sent pg) (alerts pg) (consoleErrors pg).

Definition setView (view : string) (pg : Page) : Page :=
  mkPage (address pg) (creationShown pg) view (userSchedules pg)
         (sent pg) (alerts pg) (consoleErrors pg).

Definition setUserSchedules (v : option json) (pg : Page) : Page :=
  mkPage (address pg) (creationShown pg) (currentView pg) v
         (sent pg) (alerts pg) (consoleErrors pg).

Definition send (r : Request) (pg : Page) : Page :=
  mkPage (address pg) (creationShown pg) (currentView pg) (userSchedules pg)
         (sent pg ++ [r]) (alerts pg) (consoleErrors pg).

Definition alert (msg : string) (pg : Page) : Page :=
  mkPage (address pg) (creationShown pg) (currentView pg) (userSchedules pg)
         (sent pg) (alerts pg ++ [msg]) (consoleErrors pg).

Definition consoleError (label msg : string) (pg : Page) : Page :=
  mkPage (address pg) (creationShown pg) (currentView pg) (userSchedules pg)
         (sent pg) (alerts pg) (consoleErrors pg ++ [label +:+ " " +:+ msg]).

(** [initializeDashboard()] over the items "auth_token" ([None] for [null])
    and "current_user".  Without a token it redirects and returns; with
    one it writes the user's name and [currentUser.role.toUpperCase()],
    a TypeError unless the role is a string. *)
Definition initializeDashboard (currentToken : option string)
    (currentUser : json) (pg : Page) : JsError + Page :=
  match currentToken with
  | None => inr (redirect "/login.html" pg)
  | Some token =>
      if String.eqb token "" then inr (redirect "/login.html" pg)
      else
        match currentUser with
        | JNull => inl TypeError
        | _ =>
            match get "role" currentUser with
            | Some (JStr role) =>
                if String.eqb role "teacher" || String.eqb role "admin"
                then inr (showCreation pg)
                else inr pg
            | _ => inl TypeError
            end
        end
  end.

(** Whether [displaySchedules(schedules)] returns: [schedules.length] and
    [schedules.forEach] are read, then [schedule.color] of each element and
    [currentUser.id]. *)
Definition displays (currentUser : json) (schedules : option json) : bool :=
  match schedules with
  | Some (JArr []) => true
  | Some (JArr items) =>
      forallb (fun s => match s with JNull => false | _ => true end) items &&
      match currentUser with JNull => false | _ => true end
  | Some (JStr s) => String.eqb s ""
  | Some (JObj fields) =>
      match assoc "length" fields with
      | Some (JNum 0) => true
      | _ => false
      end
  | _ => false
  end.

(** [loadMySchedules()]. *)
Definition loadMySchedules (currentUser : json) (net : Network) (pg : Page)
    : Page :=
  let pg1 := send GetSchedules pg in
  match net GetSchedules with
  | Unreachable msg => consoleError "Error loading schedules:" msg pg1
  | Answered _ (Api.NotJson msg) =>
      consoleError "Error loading schedules:" msg pg1
  | Answered _ (Api.Json JNull) =>
      consoleError "Error loading schedules:"
                   "Cannot read properties of null" pg1
  | Answered _ (Api.Json data) =>
      let pg2 := setUserSchedules (get "schedules" data) pg1 in
      if String.eqb (currentView pg2) "schedules" &&
         negb (displays currentUser (get "schedules" data))
      then consoleError "Error loading schedules:"
                        "Cannot read properties of undefined" pg2
      else pg2
  end.

(** [loadDashboardData()]: [loadMySchedules()], then the calendar and the
    notifications, which send nothing. *)
Definition loadDashboardData (currentUser : json) (net : Network) (pg : Page)
    : Page :=
  loadMySchedules currentUser net pg.

(** The listener of [DOMContentLoaded]. *)
Definition onDOMContentLoaded (currentToken : option string)
    (currentUser : json) (net : Network) (pg : Page) : JsError + Page :=
  match initializeDashboard currentToken currentUser pg with
  | inl e => inl e
  | inr pg1 => inr (loadDashboardData currentUser net pg1)
  end.

(** The fields of the event form as [createEvent] reads them:
    [f_schedule_id] is [Number.parseInt] of the choice ([None] for NaN),
    [f_start_time] and [f_end_time] are [new Date(...)] of the two inputs,
    the others are the values [formData.get] returns ([None] for
    [null]). *)
Record EventForm := mkEventForm {
  f_schedule_id : option Z;
  f_title : option string;
  f_description : option string;
  f_start_time : JSDate;
  f_end_time : JSDate;
  f_building : option string;
  f_room_number : option string;
  f_location : option string;
  f_is_recurring : option string;
  f_recurrence_pattern : option string;
  f_recurrence_end_date : option string;
  f_requires_approval : option string
}.

(** [formData.get(name) === "on"]. *)
Definition isOn (v : option string) : bool :=
  match v with
  | Some s => String.eqb s "on"
  | None => false
  end.

(** [createEvent(e)].  The object is built before the [try]: an invalid
    date makes [toISOString] throw out of the handler. *)
Definition createEvent (currentUser : json) (net : Network) (form : EventForm)
    (pg : Page) : JsError + Page :=
  match toISOString (f_start_time form) with
  | inl e => inl e
  | inr start =>
      match toISOString (f_end_time form) with
      | inl e => inl e
      | inr stop =>
          let data :=
            mkEventData (f_schedule_id form) (f_title form)
                        (f_description form) start stop (f_building form)
                        (f_room_number form) (f_location form)
                        (isOn (f_is_recurring form))
                        (f_recurrence_pattern form)
                        (f_recurrence_end_date form)
                        (isOn (f_requires_approval form)) in
          let pg1 := send (PostEvent data) pg in
          inr match net (PostEvent data) with
              | Unreachable msg => consoleError "Error creating event:" msg pg1
              | Answered status payload =>
                  if status =? 409 then
                    match payload with
                    | Api.Json _ =>
                        alert "Overlap detected! This event conflicts with another event."
                              pg1
                    | Api.NotJson msg =>
                        consoleError "Error creating event:" msg pg1
                    end
                  else if ok status then
                    loadDashboardData currentUser net
                      (setView "calendar"
                               (alert "Event created successfully" pg1))
                  else alert "Error creating event" pg1
              end
      end
  end.




End Dashboard.

(** ** The colour system *)

Module Colors.

Record Color := mkColor {
  hex : string;
  name : string;
  category : string
}.

Definition blue : Color := mkColor "#3b82f6" "Blue" "primary".

Definition colors : list Color :=
  [ blue;
    mkColor "#10b981" "Green" "success";
    mkColor "#f59e0b" "Amber" "warning";
    mkColor "#ef4444" "Red" "danger";
    mkColor "#a855f7" "Purple" "secondary";
    mkColor "#06b6d4" "Cyan" "info";
    mkColor "#ec4899" "Pink" "accent";
    mkColor "#f97316" "Orange" "secondary" ].

(** [getColor(hex)]: [find], or the first colour of the palette. *)
Definition getColor (h : string) : Color :=
  match list_find (fun c => hex c = h) colors with
  | Some (_, c) => c
  | None => blue
  end.

(** [ScheduleColorManager]: the [Map] from schedule ids to colours. *)
Definition ScheduleColors := gmap Z string.

Definition setScheduleColor (scheduleId : Z) (h : string) (m : ScheduleColors)
    : ScheduleColors :=
  <[scheduleId := h]> m.

(** [this.scheduleColors.get(scheduleId) || "#3b82f6"]: the empty string
    is falsy. *)
Definition getScheduleColor (scheduleId : Z) (m : ScheduleColors) : string :=
  match m !! scheduleId with
  | Some h => if String.eqb h "" then "#3b82f6" else h
  | None => "#3b82f6"
  end.

(** The loop of [loadScheduleColors] over the schedules of the response,
    each given by its id and its colour. *)
Definition loadScheduleColors (schedules : list (Z * string))
    (m : ScheduleColors) : ScheduleColors :=
  foldl (fun acc s => setScheduleColor (fst s) (snd s) acc) m schedules.

End Colors.

(** ** Further concrete states *)

Module Cases.
Import LocalApp LocalPages Samples.

(** Two events created in the same millisecond share their id. *)
Definition firstTwin : Event :=
  mkEvent 1793620800000 (Some 1) "Seminar" (Iso 1793696400000)
          (Iso 1793700000000) "Room 7" "pending".

Definition secondTwin : Event :=
  mkEvent 1793620800000 (Some 2) "Lab tour" (Iso 1793782800000)
          (Iso 1793786400000) "Lab B" "pending".

Definition twinWorld : World :=
  mkWorld (mkAPP (Some admin) (sampleSchedules (u_id admin))
                 [firstTwin; secondTwin] [])
          emptyStorage [].

(** The admin's world as [saveUserData] leaves it. *)
Definition savedWorld : World := saveUserData (worldOf admin).

(** A page opened anew over the storage of [savedWorld]. *)
Definition reopened : World := mkWorld initialAPP (storage savedWorld) [].

Definition labForm : ScheduleForm :=
  mkScheduleForm "Robotics" "Robotics club" "#f59e0b" true.

(** A form whose schedule was not chosen: [Number.parseInt("")] is NaN. *)
Definition orphanForm : EventForm :=
  mkEventForm None "Seminar" (DateAt 1793696400000) (DateAt 1793700000000)
              "Room 7".

(** Seven events, more than the dashboard lists. *)
Definition busyWorld : World :=
  mkWorld (mkAPP (Some teacher) (sampleSchedules (u_id admin))
                 [mathEvent; labEvent; mathEvent; labEvent; mathEvent;
                  labEvent; mathEvent] [])
          emptyStorage [].

End Cases.

(** ** Failures of a request, and what the form shows after a check *)

Module Checks.
Import Api.

(** The message of the exception that the [catch] of a method receives:
    [fetch] rejected, or the body of the response was not JSON. *)
Definition failure (o : FetchOutcome) : option string :=
  match o with
  | Resolved _ (Json _) => None
  | Resolved _ (NotJson msg) => Some msg
  | Rejected msg => Some msg
  end.

(** The change handlers of [setupOverlapDetection]: the check, then the
    status line. *)
Definition overlapStatusAfterCheck (net : Network)
    (scheduleId startTime endTime : json) (b : Browser)
    : JsError + OverlapPage.StatusEl :=
  OverlapPage.updateOverlapStatus
    (fst (OverlapDetector.checkEventOverlap net scheduleId startTime endTime
                                            JNull b)).

Definition facilityStatusAfterCheck (net : Network)
    (building roomNumber startTime endTime : json) (b : Browser)
    : JsError + OverlapPage.StatusEl :=
  OverlapPage.updateFacilityStatus
    (fst (OverlapDetector.checkFacilityAvailability net building roomNumber
                                                    startTime endTime b)).


(** A server that answers every request with the status 401 and a JSON
    body that describes the error. *)
Definition unauthorized : Network :=
  fun _ => Resolved false (Json (JObj [("detail", JStr "Invalid token")])).

End Checks.

(** ** Further dragged events *)

Module Drags.

(** An event whose start was never a date. *)
Definition undated : DragDrop.DragEvent :=
  DragDrop.mkDragEvent 9 (JNum 1) "Excursion" InvalidDate
                       (DateAt 1793617200000).

End Drags.

(** ** Further users, forms and answers *)

Module Visitors.

(** What the item "current_user" holds for a student. *)
Definition studentUser : json :=
  JObj [("id", JNum 3); ("email", JStr "student@campus.edu");
        ("role", JStr "student")].


(** A server that answers every request of the dashboard with 200 and an
    empty list of schedules. *)
Definition serving : Dashboard.Network :=
  fun _ => Dashboard.Answered 200 (Api.Json (JObj [("schedules", JArr [])])).

(** An event form whose end lies before its start. *)
Definition backwards : Dashboard.EventForm :=
  Dashboard.mkEventForm (Some 1) (Some "Seminar") (Some "")
    (DateAt 1793700000000) (DateAt 1793696400000)
    (Some "Main") (Some "101") (Some "") None (Some "") (Some "") (Some "on").


End Visitors.

(** ** The overlap checker behind [/scheduling/check-overlap] *)

(** The check itself runs on the server, whose code is not among the
    sources; the client posts the candidate and reads the answer.  The
    checker is taken from sections 3 and 4.2 of the specification. *)
Module Engine.

(** Modelled from the spec: the server's [TimeInterval], [{start, end}] as
    two instants. *)
Record TimeInterval := mkTimeInterval {
  i_start : Z;
  i_end : Z
}.

(** Modelled from the spec: the server's [overlaps]; two intervals overlap
    iff [a.start < b.end && b.start < a.end]. *)
Definition overlaps (a b : TimeInterval) : bool :=
  (i_start a <? i_end b) && (i_start b <? i_end a).

(** Modelled from the spec: the server's [ApprovalStatus], an enum of five
    values. *)
Inductive ApprovalStatus :=
| draft
| pending
| approved
| declined
| changes_requested.

(** Modelled from the spec: the server's [Event], with the fields that the
    checker reads and the title that the client shows. *)
Record Event := mkEvent {
  e_id : Z;
  e_title : string;
  e_interval : TimeInterval;
  e_status : ApprovalStatus
}.

(** Modelled from the spec: the server's notion of a booked event; only
    events with status in [{pending, approved}] occupy a scope. *)
Definition booked (e : Event) : bool :=
  match e_status e with
  | pending => true
  | approved => true
  | _ => false
  end.

(** Modelled from the spec: the server's [OverlapResult],
    [{hasOverlap, conflictingEvent?}]. *)
Record OverlapResult := mkOverlapResult {
  hasOverlap : bool;
  conflictingEvent : option Event
}.

(** Modelled from the spec: the server's [checkEventOverlap(scopeEvents,
    candidate, excludeEventId?)]: filter the scope to exclude
    [excludeEventId] and to the booked events, then scan for the first
    event whose interval overlaps the candidate. *)
Definition checkEventOverlap (scopeEvents : list Event)
    (candidate : TimeInterval) (excludeEventId : option Z) : OverlapResult :=
  let others :=
    filter (fun e => excludeEventId <> Some (e_id e) /\ booked e = true)
           scopeEvents in
  match list_find (fun e => overlaps (e_interval e) candidate = true) others with
  | Some (_, e) => mkOverlapResult true (Some e)
  | None => mkOverlapResult false None
  end.

(** Modelled from the spec: the server's answer as the client reads it,
    [has_overlap] and, on a conflict, [conflicting_event] with its id and
    title. *)
Definition toJson (r : OverlapResult) : json :=
  JObj (("has_overlap", JBool (hasOverlap r)) ::
        match conflictingEvent r with
        | Some e => [("conflicting_event",
                      JObj [("id", JNum (e_id e)); ("title", JStr (e_title e))])]
        | None => []
        end).

(** A server that answers every request with the result of the check of
    [candidate] against [scopeEvents]. *)
Definition answering (scopeEvents : list Event) (candidate : TimeInterval)
    (excludeEventId : option Z) : Api.Network :=
  fun _ => Api.Resolved true
             (Api.Json (toJson (checkEventOverlap scopeEvents candidate
                                                  excludeEventId))).

(** Event A of the specification's scenario, booked from 10:00 to 11:00, and
    the candidate B from 10:30 to 11:30. *)
Definition eventA : Event :=
  mkEvent 1 "A" (mkTimeInterval 1793613600000 1793617200000) approved.

Definition candidateB : TimeInterval :=
  mkTimeInterval 1793615400000 1793619000000.

(** A declined event in the slot of A. *)
Definition declinedA : Event :=
  mkEvent 2 "A" (mkTimeInterval 1793613600000 1793617200000) declined.

End Engine.

(** ** Devices for reasoning about binary64 rounding *)

(** A shift record of the rounding algorithm read as a quotient with a
    classified remainder: the mantissa is [N / U], the round bit tells
    whether the remainder reaches half of [U], and the sticky bit whether
    it is anything but zero or exactly half. *)
Definition Inv (N U : Z) (r : shr_record) : Prop :=
  0 < U /\ 0 <= N /\ shr_m r = N / U /\
  shr_r r = (U <=? 2 * (N mod U)) /\
  shr_s r = negb ((N mod U =? 0) || (2 * (N mod U) =? U)).

(** Values are compared on a common scale: [pw e] is [2^e] counted in units
    of [2^-1200]. *)
Definition pw (e : Z) : Z := 2 ^ (e + 1200).

(** * Properties *)

(** ** Lists updated in place *)

Section ListFind.
Context {A : Type} (P : A -> Prop) `{forall x, Decision (P x)}.

Lemma list_find_insert_hit (l : list A) (k : nat) (x y : A) :
  list_find P l = Some (k, x) -> P y ->
  list_find P (<[k := y]> l) = Some (k, y).
Proof.
  intros Hfind Hy.
  apply list_find_Some in Hfind as (Hk & _ & Hbefore).
  apply list_find_Some. split; [|split]; [|assumption|].
  - apply list_lookup_insert_eq. eapply lookup_lt_Some; eassumption.
  - intros j z Hj Hlt.
    rewrite list_lookup_insert_ne in Hj by lia.
    eapply Hbefore; eassumption.
Qed.

End ListFind.

(** ** The local application *)

Section LocalAppFacts.
Import LocalApp.

Lemma showDashboard_logged_in (w : World) (u : User) :
  currentUser (app w) = Some u -> showDashboard w = Done w.
Proof. intros Hu. unfold showDashboard. rewrite Hu. reflexivity. Qed.

Lemma stateOf_showDashboard (w : World) : stateOf (showDashboard w) = w.
Proof. unfold showDashboard. destruct (currentUser (app w)); reflexivity. Qed.

(** What [createEvent] does for a logged-in user and two valid dates. *)
Lemma createEvent_done (now : Z) (form : EventForm) (w : World) (u : User)
    (s e : Z) :
  currentUser (app w) = Some u ->
  f_start_time form = DateAt s ->
  f_end_time form = DateAt e ->
  createEvent now form w =
    Done (alert "Event created!"
           (saveUserData
              (mkWorld
                 (setEvents
                    (events (app w) ++
                     [mkEvent now (f_schedule_id form) (f_title form)
                              (Iso s) (Iso e) (f_location form)
                              (if String.eqb (u_role u) "admin"
                               then "approved" else "pending")])
                    (app w))
                 (storage w) (alerts w)))).
Proof.
  intros Hu Hs He. unfold createEvent. rewrite Hs, He. simpl. rewrite Hu.
  apply showDashboard_logged_in with (u := u). exact Hu.
Qed.

(** What a transition does when [find] returns an event. *)
Lemma transitionTo_found (tgt msg : string) (i : Z) (w : World) (k : nat)
    (e : Event) :
  list_find (fun x => id x = i) (events (app w)) = Some (k, e) ->
  stateOf (transitionTo tgt msg i w) =
    alert msg
      (saveUserData
         (mkWorld (setEvents (<[k := setStatus tgt e]> (events (app w))) (app w))
                  (storage w) (alerts w))).
Proof.
  intros Hfind. unfold transitionTo. rewrite Hfind.
  apply stateOf_showDashboard.
Qed.

Lemma transitionTo_missing (tgt msg : string) (i : Z) (w : World) :
  list_find (fun x => id x = i) (events (app w)) = None ->
  transitionTo tgt msg i w = Threw TypeError w.
Proof. intros Hfind. unfold transitionTo. rewrite Hfind. reflexivity. Qed.

Lemma transitionTo_approvals (tgt msg : string) (i : Z) (w : World) :
  approvals (app (stateOf (transitionTo tgt msg i w))) = approvals (app w).
Proof.
  destruct (list_find (fun x => id x = i) (events (app w))) as [[k e]|] eqn:Hfind.
  - rewrite (transitionTo_found _ _ _ _ _ _ Hfind). reflexivity.
  - rewrite (transitionTo_missing _ _ _ _ Hfind). reflexivity.
Qed.

(** A transition that returns normally found its event and had a user. *)
Lemma transitionTo_Done_inv (tgt msg : string) (i : Z) (w w' : World) :
  transitionTo tgt msg i w = Done w' ->
  exists k e, list_find (fun x => id x = i) (events (app w)) = Some (k, e).
Proof.
  unfold transitionTo.
  destruct (list_find _ _) as [[k e]|]; [eauto|discriminate].
Qed.

Lemma statusOf_transition_same (tgt msg : string) (i : Z) (w : World)
    (k : nat) (e : Event) :
  list_find (fun x => id x = i) (events (app w)) = Some (k, e) ->
  statusOf i (stateOf (transitionTo tgt msg i w)) = Some tgt.
Proof.
  intros Hfind. rewrite (transitionTo_found _ _ _ _ _ _ Hfind).
  unfold statusOf. simpl.
  assert (Hid : id (setStatus tgt e) = i).
  { apply list_find_Some in Hfind as (_ & Hid & _). exact Hid. }
  rewrite (list_find_insert_hit (fun x => id x = i) _ _ _ _ Hfind Hid).
  reflexivity.
Qed.


End LocalAppFacts.

Section InitialStatus.
Import LocalApp Samples.

(** C1, as stated, fails: a teacher who creates an event gets "pending"
    whatever the event requires, where the rule of the specification gives
    "approved" for an event that does not require approval. *)
Lemma createEvent_ignores_approval_requirement :
  exists ev w',
    createEvent 1793620800000 seminarForm (worldOf teacher) = Done w' /\
    last (events (app w')) = Some ev /\
    status ev = "pending" /\
    status ev <> specInitialStatus (u_role teacher) false.
Proof.
  eexists. eexists. split; [reflexivity|].
  split; [reflexivity|]. split; [reflexivity|]. discriminate.
Qed.

(** C1, amended: for every event creation by a logged-in user with two
    valid dates, the new event's initial status is "approved" if the
    creating user's role is "admin" and "pending" otherwise; the form
    carries no approval requirement, so a non-admin always gets
    "pending". *)
Theorem createEvent_initial_status (now : Z) (form : EventForm) (w : World)
    (u : User) (s e : Z) :
  currentUser (app w) = Some u ->
  f_start_time form = DateAt s ->
  f_end_time form = DateAt e ->
  exists ev w',
    createEvent now form w = Done w' /\
    events (app w') = (events (app w) ++ [ev])%list /\
    (u_role u = "admin" -> status ev = "approved") /\
    (u_role u <> "admin" -> status ev = "pending").
Proof.
  intros Hu Hs He.
  rewrite (createEvent_done now form w u s e Hu Hs He).
  eexists. eexists. split; [reflexivity|]. split; [reflexivity|].
  simpl. split; intros Hrole.
  - rewrite Hrole. reflexivity.
  - apply String.eqb_neq in Hrole. rewrite Hrole. reflexivity.
Qed.

Lemma createEvent_initial_status_witness :
  currentUser (app (worldOf teacher)) = Some teacher /\
  f_start_time seminarForm = DateAt 1793696400000 /\
  f_end_time seminarForm = DateAt 1793700000000 /\
  exists ev w',
    createEvent 1793620800000 seminarForm (worldOf teacher) = Done w' /\
    events (app w') = (events (app (worldOf teacher)) ++ [ev])%list /\
    (u_role teacher = "admin" -> status ev = "approved") /\
    (u_role teacher <> "admin" -> status ev = "pending").
Proof.
  split; [reflexivity|]. split; [reflexivity|]. split; [reflexivity|].
  apply (createEvent_initial_status 1793620800000 seminarForm (worldOf teacher)
           teacher 1793696400000 1793700000000); reflexivity.
Defined.

End InitialStatus.

Section Intervals.
Import LocalApp Samples.

(** C5, as stated, fails: an event whose start is later than its end is
    created without any failure and stored as it is. *)
Lemma createEvent_accepts_backwards_interval :
  ~ isFailure (createEvent 1793620800000 backwardsForm (worldOf teacher)) /\
  exists ev,
    last (events (app (stateOf (createEvent 1793620800000 backwardsForm
                                            (worldOf teacher))))) = Some ev /\
    timeValue (start_time ev) >= timeValue (end_time ev).
Proof.
  split.
  - simpl. tauto.
  - eexists. split; [reflexivity|]. simpl. lia.
Qed.

(** C5, amended: [createEvent] never compares the start with the end.  For
    a logged-in user and any two valid dates, also with start >= end, it
    succeeds and stores the event with exactly those two times; it fails,
    with a RangeError and the state unchanged, when one of the two dates
    is invalid. *)
Theorem createEvent_no_interval_check (now : Z) (form : EventForm)
    (w : World) (u : User) :
  currentUser (app w) = Some u ->
  (forall s e : Z,
      f_start_time form = DateAt s -> f_end_time form = DateAt e ->
      exists ev w',
        createEvent now form w = Done w' /\
        events (app w') = (events (app w) ++ [ev])%list /\
        start_time ev = Iso s /\ end_time ev = Iso e) /\
  (f_start_time form = InvalidDate \/ f_end_time form = InvalidDate ->
   createEvent now form w = Threw RangeError w).
Proof.
  intros Hu. split.
  - intros s e Hs He.
    rewrite (createEvent_done now form w u s e Hu Hs He).
    eexists. eexists. repeat split; reflexivity.
  - intros [Hs|He]; unfold createEvent.
    + rewrite Hs. reflexivity.
    + rewrite He. destruct (f_start_time form); reflexivity.
Qed.

Lemma createEvent_no_interval_check_witness :
  currentUser (app (worldOf teacher)) = Some teacher /\
  exists ev w',
    createEvent 1793620800000 backwardsForm (worldOf teacher) = Done w' /\
    events (app w') = (events (app (worldOf teacher)) ++ [ev])%list /\
    start_time ev = Iso 1793700000000 /\ end_time ev = Iso 1793696400000.
Proof.
  split; [reflexivity|].
  apply (createEvent_no_interval_check 1793620800000 backwardsForm
           (worldOf teacher) teacher); reflexivity.
Defined.

End Intervals.

Section Transitions.
Import LocalApp Clicks Samples.









Lemma perform_transitionTo (a : Action) (i : Z) (w : World) :
  exists msg, perform a i w = transitionTo (target a) msg i w.
Proof. destruct a; eexists; reflexivity. Qed.

(** The events after a transition: the same list, or the first event with
    the id replaced by its copy with the new status. *)
Lemma perform_events (a : Action) (i : Z) (w : World) :
  (list_find (fun x => id x = i) (events (app w)) = None /\
   stateOf (perform a i w) = w) \/
  (exists k e,
      list_find (fun x => id x = i) (events (app w)) = Some (k, e) /\
      events (app (stateOf (perform a i w)))
        = <[k := setStatus (target a) e]> (events (app w)) /\
      schedules (app (stateOf (perform a i w))) = schedules (app w) /\
      currentUser (app (stateOf (perform a i w))) = currentUser (app w)).
Proof.
  destruct (perform_transitionTo a i w) as [msg ->].
  destruct (list_find (fun x => id x = i) (events (app w))) as [[k e]|] eqn:Hfind.
  - right. exists k, e. split; [reflexivity|].
    rewrite (transitionTo_found _ _ _ _ _ _ Hfind). repeat split.
  - left. split; [reflexivity|].
    rewrite (transitionTo_missing _ _ _ _ Hfind). reflexivity.
Qed.

(** Every position other than the one [find] returns is untouched. *)
Lemma perform_lookup_other (a : Action) (i : Z) (w : World) (n : nat) :
  fst <$> list_find (fun x => id x = i) (events (app w)) <> Some n ->
  events (app (stateOf (perform a i w))) !! n = events (app w) !! n.
Proof.
  intros Hn.
  destruct (perform_events a i w) as [[Hnone ->]|(k & e & Hfind & Hev & _)].
  - reflexivity.
  - rewrite Hev. apply list_lookup_insert_ne.
    intros ->. apply Hn. rewrite Hfind. reflexivity.
Qed.

(** The events are the same up to their statuses. *)
Lemma perform_same_up_to_status (a : Action) (i : Z) (w : World) :
  map (setStatus "") (events (app (stateOf (perform a i w))))
    = map (setStatus "") (events (app w)).
Proof.
  destruct (perform_events a i w) as [[Hnone ->]|(k & e & Hfind & Hev & _)].
  - reflexivity.
  - rewrite Hev.
    pose proof (proj1 (list_find_Some _ _ _ _) Hfind) as (Hk & _ & _).
    apply list_eq. intros n. rewrite !list_lookup_fmap.
    destruct (decide (n = k)) as [->|Hne].
    + rewrite list_lookup_insert_eq by (eapply lookup_lt_Some; eassumption).
      rewrite Hk. reflexivity.
    + rewrite list_lookup_insert_ne by congruence. reflexivity.
Qed.

(** The ids stay where they are. *)
Lemma perform_lookup_id (a : Action) (i : Z) (w : World) (n : nat) :
  id <$> (events (app (stateOf (perform a i w))) !! n)
    = id <$> (events (app w) !! n).
Proof.
  pose proof (perform_same_up_to_status a i w) as Hmap.
  apply (f_equal (fun l => id <$> (l !! n))) in Hmap.
  rewrite !list_lookup_fmap in Hmap.
  destruct (events (app (stateOf (perform a i w))) !! n),
           (events (app w) !! n); simpl in *; congruence.
Qed.






End Transitions.

Section Declining.
Import Samples.

(** C2, as stated, fails: the local [declineEvent] takes no reason, and
    declining the pending event without one does not fail and does not
    leave the event unchanged; nothing is recorded in [APP.approvals]. *)
Lemma declineEvent_without_reason_succeeds :
  LocalApp.statusOf 2 (worldOf admin) = Some "pending" /\
  ~ LocalApp.isFailure (LocalApp.declineEvent 2 (worldOf admin)) /\
  LocalApp.statusOf 2 (LocalApp.stateOf
                         (LocalApp.declineEvent 2 (worldOf admin)))
    = Some "declined" /\
  LocalApp.approvals
    (LocalApp.app (LocalApp.stateOf
                     (LocalApp.declineEvent 2 (worldOf admin)))) = [].
Proof.
  split; [reflexivity|]. split; [simpl; tauto|].
  split; reflexivity.
Qed.

(** C2, amended: [ApprovalManager.declineEvent] without a reason
    (undefined or empty) fails by returning false after an alert and sends
    no request, so the event is unchanged; with a reason it sends exactly
    one POST to the approval's decline endpoint (the approval's id, a safe
    integer, printed in decimal) whose body carries that reason, and
    returns true exactly when the server answers ok (the status and the
    history are the server's).  The local
    [declineEvent(id)] takes no reason: whenever it returns, the event's
    status is "declined" and [APP.approvals] is as before. *)
Theorem decline_reason_handling (net : Api.Network) (approvalId : Z)
    (b : Api.Browser) :
  (forall reason, reason = None \/ reason = Some "" ->
     Api.ApprovalManager.declineEvent net approvalId reason b =
       (false, Api.alert "Please provide a reason for decline" b)) /\
  (forall r, r <> "" -> safeInteger approvalId = true ->
     let req := Api.mkRequest
                  (Api.ApprovalManager.API_BASE +:+ "/approvals/" +:+
                   pretty approvalId +:+ "/decline")
                  Api.POST (JObj [("reason", JStr r)]) in
     let result := Api.ApprovalManager.declineEvent net approvalId (Some r) b in
     Api.sent (snd result) = (Api.sent b ++ [req])%list /\
     fst result = match net req with
                  | Api.Resolved ok _ => ok
                  | Api.Rejected _ => false
                  end) /\
  (forall i w w', LocalApp.declineEvent i w = LocalApp.Done w' ->
     LocalApp.statusOf i w' = Some "declined" /\
     LocalApp.approvals (LocalApp.app w') = LocalApp.approvals (LocalApp.app w)).
Proof.
  split; [|split].
  - intros reason [-> | ->]; reflexivity.
  - intros r Hr _ req result. subst result.
    unfold Api.ApprovalManager.declineEvent.
    apply String.eqb_neq in Hr. rewrite Hr. fold req.
    destruct (net req) as [[|] payload|msg]; split; reflexivity.
  - intros i w w' Hdone.
    assert (Hstate : w' = LocalApp.stateOf (LocalApp.declineEvent i w))
      by (rewrite Hdone; reflexivity).
    destruct (transitionTo_Done_inv _ _ _ _ _ Hdone) as (k & e & Hfind).
    subst w'. split.
    + eapply statusOf_transition_same. exact Hfind.
    + apply transitionTo_approvals.
Qed.

Lemma decline_reason_handling_witness :
  ("room unavailable" <> "") /\ safeInteger 12 = true /\
  Api.sent (snd (Api.ApprovalManager.declineEvent
                   (fun _ => Api.Resolved true (Api.Json JNull)) 12
                   (Some "room unavailable") Api.freshBrowser))
    = [Api.mkRequest "https://example.com/api/approvals/12/decline" Api.POST
                     (JObj [("reason", JStr "room unavailable")])] /\
  fst (Api.ApprovalManager.declineEvent
         (fun _ => Api.Resolved true (Api.Json JNull)) 12
         (Some "room unavailable") Api.freshBrowser) = true.
Proof.
  split; [discriminate|]. split; [reflexivity|].
  destruct (decline_reason_handling
              (fun _ => Api.Resolved true (Api.Json JNull)) 12 Api.freshBrowser)
    as (_ & Hsend & _).
  exact (Hsend "room unavailable" ltac:(discriminate) eq_refl).
Defined.

End Declining.

Section Failures.
Import Api Samples.

(** The two sibling methods put the error's message in their fallback
    object, under the key "error". *)
Lemma checks_report_failure (scheduleId startTime endTime other : json)
    (b : Browser) (msg : string) :
  get "error" (fst (OverlapDetector.checkEventOverlap
                      (fun _ => Rejected msg)
                      scheduleId startTime endTime other b))
    = Some (JStr msg) /\
  get "error" (fst (OverlapDetector.checkFacilityAvailability
                      (fun _ => Rejected msg)
                      scheduleId startTime endTime other b))
    = Some (JStr msg).
Proof. split; reflexivity. Qed.

(** C6: the code departs from the claim.  When the request of
    [getSuggestedTimes] fails, whatever the failure, the method returns
    [{alternatives: []}] with no error kind: the very object it returns
    when the server answers that there is no alternative. *)
Theorem getSuggestedTimes_swallows_failure
    (scheduleId startTime endTime durationMinutes : json) (b : Browser)
    (ok : bool) (msg : string) :
  fst (OverlapDetector.getSuggestedTimes (fun _ => Rejected msg)
         scheduleId startTime endTime durationMinutes b)
    = JObj [("alternatives", JArr [])] /\
  fst (OverlapDetector.getSuggestedTimes (fun _ => Resolved ok (NotJson msg))
         scheduleId startTime endTime durationMinutes b)
    = JObj [("alternatives", JArr [])] /\
  get "error" (fst (OverlapDetector.getSuggestedTimes (fun _ => Rejected msg)
                      scheduleId startTime endTime durationMinutes b))
    = None /\
  fst (OverlapDetector.getSuggestedTimes (fun _ => Rejected msg)
         scheduleId startTime endTime durationMinutes b)
    = fst (OverlapDetector.getSuggestedTimes noAlternatives
             scheduleId startTime endTime durationMinutes b).
Proof. repeat split. Qed.

(** The page is offline: the suggestions look like an empty answer. *)
Example getSuggestedTimes_offline :
  fst (OverlapDetector.getSuggestedTimes offline (JNum 1)
         (JStr "2026-11-03T09:00:00.000Z") (JStr "2026-11-03T10:00:00.000Z")
         JNull freshBrowser)
    = JObj [("alternatives", JArr [])] /\
  fst (OverlapDetector.checkEventOverlap offline (JNum 1)
         (JStr "2026-11-03T09:00:00.000Z") (JStr "2026-11-03T10:00:00.000Z")
         JNull freshBrowser)
    = JObj [("has_overlap", JBool false); ("error", JStr "Failed to fetch")].
Proof. split; reflexivity. Qed.

End Failures.

(** ** The overlap check over a scope without bookings *)

Section EmptyScope.
Import Api.

(** The checker reports a conflict exactly when some booked event of the
    scope, other than the excluded one, overlaps the candidate. *)
Lemma checkEventOverlap_conflict (scope : list Engine.Event)
    (candidate : Engine.TimeInterval) (excludeEventId : option Z) :
  Engine.hasOverlap (Engine.checkEventOverlap scope candidate excludeEventId)
    = true <->
  exists e, e ∈ scope /\ Engine.booked e = true /\
            excludeEventId <> Some (Engine.e_id e) /\
            Engine.overlaps (Engine.e_interval e) candidate = true.
Proof.
  unfold Engine.checkEventOverlap.
  destruct (list_find _ _) as [[k e]|] eqn:Hfind; simpl; split.
  - intros _. apply list_find_Some in Hfind as (Hk & Hover & _).
    apply list_elem_of_lookup_2 in Hk.
    apply list_elem_of_filter in Hk as ([Hex Hb] & Hin).
    exists e. auto.
  - reflexivity.
  - discriminate.
  - intros (e & Hin & Hb & Hex & Hover). exfalso.
    apply list_find_None in Hfind.
    assert (He : e ∈ filter (fun e => excludeEventId <> Some (Engine.e_id e) /\
                                      Engine.booked e = true) scope)
      by (apply list_elem_of_filter; auto).
    exact (proj1 (Forall_forall _ _) Hfind e He Hover).
Qed.

(** The scenario of the specification: B conflicts with the booked A. *)
Example scenario_conflict :
  Engine.checkEventOverlap [Engine.eventA] Engine.candidateB None
    = Engine.mkOverlapResult true (Some Engine.eventA) /\
  get "has_overlap"
      (fst (OverlapDetector.checkEventOverlap
              (Engine.answering [Engine.eventA] Engine.candidateB None)
              (JNum 1) (JStr "2026-11-02T10:30:00.000Z")
              (JStr "2026-11-02T11:30:00.000Z") JNull freshBrowser))
    = Some (JBool true).
Proof. split; reflexivity. Qed.

(** C9: over a scope with no booked event, and so over an empty one, the
    check finds no conflict for any candidate interval and any excluded id,
    and its result is no error: the client that asks a server running the
    check receives [has_overlap: false] without an [error], logs nothing and
    shows "No conflicts".  The stand-in of the drag-and-drop module gives
    the same answer. *)
Theorem checkEventOverlap_empty_scope (scope : list Engine.Event)
    (candidate : Engine.TimeInterval) (excludeEventId : option Z)
    (net : Network) (scheduleId startTime endTime exclude : json)
    (b : Browser) :
  Forall (fun e => Engine.booked e = false) scope ->
  (forall req, exists ok,
      net req = Resolved ok
                  (Json (Engine.toJson
                           (Engine.checkEventOverlap scope candidate
                                                     excludeEventId)))) ->
  Engine.checkEventOverlap scope candidate excludeEventId
    = Engine.mkOverlapResult false None /\
  let answer := OverlapDetector.checkEventOverlap net scheduleId startTime
                                                  endTime exclude b in
  get "has_overlap" (fst answer) = Some (JBool false) /\
  get "error" (fst answer) = None /\
  consoleErrors (snd answer) = consoleErrors b /\
  OverlapPage.updateOverlapStatus (fst answer)
    = inr (OverlapPage.mkStatusEl "status-success" "No conflicts") /\
  get "has_overlap"
      (DragDrop.OverlapDetector.checkEventOverlap scheduleId startTime endTime
                                                  exclude)
    = get "has_overlap" (fst answer).
Proof.
  intros Hempty Hnet.
  assert (Hresult : Engine.checkEventOverlap scope candidate excludeEventId
                    = Engine.mkOverlapResult false None).
  { pose proof (checkEventOverlap_conflict scope candidate excludeEventId)
      as Hconflict.
    unfold Engine.checkEventOverlap in *.
    destruct (list_find _ _) as [[k e]|]; [|reflexivity].
    exfalso. destruct (proj1 Hconflict eq_refl) as (x & Hin & Hb & _).
    rewrite (proj1 (Forall_forall _ _) Hempty x Hin) in Hb. discriminate. }
  split; [exact Hresult|].
  intros answer. unfold answer, OverlapDetector.checkEventOverlap,
    OverlapDetector.post.
  match goal with
  | |- context [net ?req] => destruct (Hnet req) as [ok ->]
  end.
  rewrite Hresult. repeat split.
Qed.

Lemma checkEventOverlap_empty_scope_witness :
  Forall (fun e => Engine.booked e = false) [Engine.declinedA] /\
  Engine.checkEventOverlap [Engine.declinedA] Engine.candidateB None
    = Engine.mkOverlapResult false None /\
  get "has_overlap"
      (fst (OverlapDetector.checkEventOverlap
              (Engine.answering [Engine.declinedA] Engine.candidateB None)
              (JNum 1) (JStr "2026-11-02T10:30:00.000Z")
              (JStr "2026-11-02T11:30:00.000Z") JNull freshBrowser))
    = Some (JBool false).
Proof.
  assert (Hempty : Forall (fun e => Engine.booked e = false) [Engine.declinedA])
    by (repeat constructor).
  assert (Hnet : forall req, exists ok,
             Engine.answering [Engine.declinedA] Engine.candidateB None req
             = Resolved ok
                 (Json (Engine.toJson
                          (Engine.checkEventOverlap [Engine.declinedA]
                                                    Engine.candidateB None))))
    by (intros req; exists true; reflexivity).
  split; [exact Hempty|].
  destruct (checkEventOverlap_empty_scope [Engine.declinedA] Engine.candidateB
              None (Engine.answering [Engine.declinedA] Engine.candidateB None)
              (JNum 1) (JStr "2026-11-02T10:30:00.000Z")
              (JStr "2026-11-02T11:30:00.000Z") JNull freshBrowser Hempty Hnet)
    as (Hresult & Hfalse & _).
  split; [exact Hresult|exact Hfalse].
Defined.

End EmptyScope.

Section Login.
Import LocalApp Samples.

Lemma startsWith_spec (needle s : string) :
  startsWith needle s = true <-> exists after, s = needle +:+ after.
Proof.
  revert s. induction needle as [|a needle IH]; intros s; simpl.
  - split; [intros _; exists s; reflexivity|reflexivity].
  - destruct s as [|c s].
    + split; [discriminate|intros [after Heq]; discriminate].
    + rewrite andb_true_iff, Ascii.eqb_eq, IH. split.
      * intros [-> [after ->]]. exists after. reflexivity.
      * intros [after Heq]. injection Heq as -> ->. eauto.
Qed.

Lemma includes_spec (s needle : string) :
  includes s needle = true <-> occursIn needle s.
Proof.
  unfold occursIn. induction s as [|c s IH]; simpl.
  - rewrite orb_false_r, startsWith_spec. split.
    + intros [after Heq]. exists "", after. exact Heq.
    + intros ([|b before] & after & Heq); [eauto|discriminate].
  - rewrite orb_true_iff, startsWith_spec, IH. split.
    + intros [[after Heq]|(before & after & ->)].
      * exists "", after. exact Heq.
      * exists (String c before), after. reflexivity.
    + intros ([|b before] & after & Heq).
      * left. exists after. exact Heq.
      * right. injection Heq as -> ->. eauto.
Qed.

Lemma includes_false (s needle : string) :
  includes s needle = false <-> ~ occursIn needle s.
Proof.
  rewrite <- includes_spec. destruct (includes s needle); split;
    congruence || (intros Hn; exfalso; apply Hn; reflexivity) || auto.
Qed.

Lemma loadSampleData_user (c : Clock) (w : World) :
  currentUser (app (stateOf (loadSampleData c w))) = currentUser (app w).
Proof.
  unfold loadSampleData.
  destruct (schedules (app w)); [|reflexivity].
  destruct (currentUser (app w)) eqn:Hu; [|simpl; rewrite Hu; reflexivity].
  destruct (sampleEvents c); simpl; rewrite ?Hu; reflexivity.
Qed.

Lemma quickLogin_user (rnd : string) (c : Clock) (email role : string)
    (w : World) :
  currentUser (app (stateOf (quickLogin rnd c email role w)))
    = Some (mkUser rnd email role (capitalize role) "User").
Proof.
  unfold quickLogin.
  match goal with
  | |- context [loadSampleData c ?w1] =>
      pose proof (loadSampleData_user c w1) as Hu;
      destruct (loadSampleData c w1) as [w2|err w2]
  end; simpl in *.
  - rewrite stateOf_showDashboard. exact Hu.
  - exact Hu.
Qed.

(** C8: the role given at login is decided by substring tests on the email
    alone.  It is "admin" when the email contains "admin" (also when it
    contains "teacher"), else "teacher" when it contains "teacher", else
    "student"; it is always one of the three.  [handleLogin] reads the
    password only to see that it is not empty: for a non-empty email and
    any non-empty password it logs in with that role. *)
Theorem extractRole_by_substring (email : string) :
  (occursIn "admin" email -> extractRole email = "admin") /\
  (~ occursIn "admin" email -> occursIn "teacher" email ->
   extractRole email = "teacher") /\
  (~ occursIn "admin" email -> ~ occursIn "teacher" email ->
   extractRole email = "student") /\
  (extractRole email = "admin" \/ extractRole email = "teacher" \/
   extractRole email = "student") /\
  (forall rnd c password w,
      email <> "" -> password <> "" ->
      handleLogin rnd c email password w
        = quickLogin rnd c email (extractRole email) w /\
      currentUser (app (stateOf (handleLogin rnd c email password w)))
        = Some (mkUser rnd email (extractRole email)
                       (capitalize (extractRole email)) "User")).
Proof.
  split; [|split; [|split; [|split]]].
  - intros Ha. unfold extractRole.
    apply includes_spec in Ha. rewrite Ha. reflexivity.
  - intros Ha Ht. unfold extractRole.
    apply includes_false in Ha. apply includes_spec in Ht.
    rewrite Ha, Ht. reflexivity.
  - intros Ha Ht. unfold extractRole.
    apply includes_false in Ha. apply includes_false in Ht.
    rewrite Ha, Ht. reflexivity.
  - unfold extractRole. destruct (includes email "admin"); [auto|].
    destruct (includes email "teacher"); auto.
  - intros rnd c password w Hemail Hpassword.
    assert (Hlogin : handleLogin rnd c email password w
                     = quickLogin rnd c email (extractRole email) w).
    { unfold handleLogin.
      apply String.eqb_neq in Hemail. apply String.eqb_neq in Hpassword.
      rewrite Hemail, Hpassword. reflexivity. }
    split; [exact Hlogin|]. rewrite Hlogin. apply quickLogin_user.
Qed.

Lemma extractRole_by_substring_witness :
  occursIn "admin" "admin.teacher@campus.edu" /\
  extractRole "admin.teacher@campus.edu" = "admin".
Proof.
  assert (Hocc : occursIn "admin" "admin.teacher@campus.edu")
    by (exists "", ".teacher@campus.edu"; reflexivity).
  split; [exact Hocc|].
  apply (extractRole_by_substring "admin.teacher@campus.edu"). exact Hocc.
Defined.

End Login.

Section SampleData.
Import LocalApp Samples.

(** C10: [loadSampleData] does nothing when [APP.schedules] is not empty,
    so a second call, at any later time, leaves the state in which the
    first call left it. *)
Theorem loadSampleData_idempotent (c1 c2 : Clock) (w : World) :
  (schedules (app w) <> [] -> loadSampleData c1 w = Done w) /\
  (forall w', loadSampleData c1 w = Done w' -> loadSampleData c2 w' = Done w') /\
  stateOf (loadSampleData c2 (stateOf (loadSampleData c1 w)))
    = stateOf (loadSampleData c1 w).
Proof.
  unfold loadSampleData. split; [|split].
  - destruct (schedules (app w)); [congruence|reflexivity].
  - intros w'. destruct (schedules (app w)) eqn:Hs.
    + destruct (currentUser (app w)); [|discriminate].
      destruct (sampleEvents c1); [discriminate|].
      intros [= <-]. reflexivity.
    + intros [= <-]. rewrite Hs. reflexivity.
  - destruct (schedules (app w)) eqn:Hs.
    + destruct (currentUser (app w)) eqn:Hu.
      * destruct (sampleEvents c1); reflexivity.
      * simpl. rewrite Hs, Hu. reflexivity.
    + simpl. rewrite Hs. reflexivity.
Qed.

Lemma loadSampleData_idempotent_witness :
  schedules (app (worldOf teacher)) <> [] /\
  loadSampleData noon (worldOf teacher) = Done (worldOf teacher).
Proof.
  split; [discriminate|].
  destruct (loadSampleData_idempotent noon noon (worldOf teacher)) as [Hskip _].
  apply Hskip. discriminate.
Defined.

End SampleData.

(** ** Binary64 arithmetic of the rescheduling handlers *)

Section Binary64.
Import DragDrop.

Lemma digits2_pos_bounds (p : positive) :
  2 ^ (Zpos (digits2_pos p) - 1) <= Zpos p < 2 ^ Zpos (digits2_pos p).
Proof.
  induction p as [p IH|p IH|]; simpl digits2_pos.
  - rewrite Pos2Z.inj_succ, Z.pow_succ_r by lia.
    replace (Z.succ (Zpos (digits2_pos p)) - 1) with (Z.succ (Zpos (digits2_pos p) - 1)) by lia.
    rewrite Z.pow_succ_r by lia. lia.
  - rewrite Pos2Z.inj_succ, Z.pow_succ_r by lia.
    replace (Z.succ (Zpos (digits2_pos p)) - 1) with (Z.succ (Zpos (digits2_pos p) - 1)) by lia.
    rewrite Z.pow_succ_r by lia. lia.
  - simpl. lia.
Qed.

Lemma digits2_pos_unique (p : positive) (n : Z) :
  2 ^ (n - 1) <= Zpos p < 2 ^ n -> Zpos (digits2_pos p) = n.
Proof.
  intros [Hlo Hhi]. pose proof (digits2_pos_bounds p) as [Hlo' Hhi'].
  assert (Hn : 0 < n).
  { destruct (Z_lt_le_dec 0 n) as [|Hle]; [assumption|].
    assert (2 ^ n <= 1); [|lia].
    destruct (Z.eq_dec n 0) as [->|]; [simpl; lia|].
    rewrite Z.pow_neg_r by lia. lia. }
  destruct (Z.lt_trichotomy (Zpos (digits2_pos p)) n) as [Hlt|[Heq|Hgt]];
    [|exact Heq|].
  - assert (2 ^ Zpos (digits2_pos p) <= 2 ^ (n - 1))
      by (apply Z.pow_le_mono_r; lia). lia.
  - assert (2 ^ n <= 2 ^ (Zpos (digits2_pos p) - 1))
      by (apply Z.pow_le_mono_r; lia). lia.
Qed.

Lemma shr_1_nonneg (m : Z) (r s : bool) :
  0 <= m ->
  shr_1 (Build_shr_record m r s) = Build_shr_record (m / 2) (Z.odd m) (r || s).
Proof.
  intros Hm. rewrite <- Z.div2_div.
  destruct m as [|[p|p|]|p]; try reflexivity. lia.
Qed.

(** One more shifted bit doubles the unit. *)
Lemma shr_1_Inv (N U : Z) (r : shr_record) :
  Inv N U r -> Inv N (2 * U) (shr_1 r).
Proof.
  destruct r as [m r s]. intros (HU & HN & Hm & Hr & Hs).
  cbn [shr_m shr_r shr_s] in *.
  assert (Hm0 : 0 <= m) by (subst m; apply Z.div_pos; lia).
  rewrite shr_1_nonneg by exact Hm0.
  pose proof (Z.mod_pos_bound N U HU) as HR.
  assert (Hmod : N mod (U * 2) = N mod U + U * ((N / U) mod 2))
    by (apply Z.rem_mul_r; lia).
  assert (Hdiv : N / (U * 2) = N / U / 2) by (symmetry; apply Z.div_div; lia).
  replace (2 * U) with (U * 2) by lia.
  pose proof (Z.mod_pos_bound (N / U) 2 ltac:(lia)) as Hbit.
  assert (Hodd : Z.odd m = negb (m mod 2 =? 0)).
  { rewrite Zmod_odd. destruct (Z.odd m); reflexivity. }
  unfold Inv. cbn [shr_m shr_r shr_s]. rewrite Hmod, Hdiv, <- Hm.
  split; [lia|]. split; [lia|]. split; [reflexivity|].
  rewrite Hodd, Hr, Hs. rewrite <- Hm in Hbit.
  assert (Hb : m mod 2 = 0 \/ m mod 2 = 1) by lia.
  destruct Hb as [Hb|Hb]; rewrite Hb, ?Z.mul_0_r, ?Z.mul_1_r, ?Z.add_0_r;
    destruct (Z.leb_spec U (2 * (N mod U)));
    destruct (Z.eqb_spec (N mod U) 0);
    destruct (Z.eqb_spec (2 * (N mod U)) U);
    simpl; split;
      repeat match goal with
        | |- context [Z.leb ?a ?b] => destruct (Z.leb_spec a b)
        | |- context [Z.eqb ?a ?b] => destruct (Z.eqb_spec a b)
        end; simpl; try reflexivity; try lia.
Qed.

Lemma pow2_double (a : Z) : 0 <= a -> 2 ^ (2 * a) = 2 ^ a * 2 ^ a.
Proof.
  intros Ha. replace (2 * a) with (a + a) by lia.
  apply Z.pow_add_r; lia.
Qed.

Lemma iter_shr_1_Inv (p : positive) (N U : Z) (r : shr_record) :
  Inv N U r -> Inv N (2 ^ Zpos p * U) (SpecFloat.iter_pos shr_1 p r).
Proof.
  revert U r. induction p as [p IH|p IH|]; intros U r Hinv;
    simpl SpecFloat.iter_pos.
  - apply shr_1_Inv in Hinv. apply IH in Hinv. apply IH in Hinv.
    replace (2 ^ Zpos p~1 * U) with (2 ^ Zpos p * (2 ^ Zpos p * (2 * U))).
    + exact Hinv.
    + rewrite Pos2Z.inj_xI, Z.pow_add_r by lia.
      rewrite (pow2_double (Zpos p)) by lia.
      change (2 ^ 1) with 2. lia.
  - apply IH in Hinv. apply IH in Hinv.
    replace (2 ^ Zpos p~0 * U) with (2 ^ Zpos p * (2 ^ Zpos p * U)).
    + exact Hinv.
    + pose proof (pow2_double (Zpos p) ltac:(lia)) as Hp.
      change (2 * Zpos p) with (Zpos p~0) in Hp. rewrite Hp. lia.
  - apply shr_1_Inv in Hinv. exact Hinv.
Qed.

(** Rounding to nearest: the rounded mantissa is within half a unit of the
    exact quotient. *)
Lemma round_nearest_even_Inv (N U : Z) (r : shr_record) :
  Inv N U r ->
  let m := round_nearest_even (shr_m r) (loc_of_shr_record r) in
  shr_m r <= m <= shr_m r + 1 /\ - U <= 2 * (m * U - N) <= U.
Proof.
  destruct r as [m r s]. intros (HU & HN & Hm & Hr & Hs). simpl in *.
  pose proof (Z.mod_pos_bound N U HU) as HR.
  pose proof (Z.div_mod N U ltac:(lia)) as Hdm.
  rewrite <- Hm in Hdm.
  destruct r, s; simpl;
    destruct (Z.leb_spec U (2 * (N mod U))); try discriminate;
    destruct (Z.eqb_spec (N mod U) 0); try discriminate;
    destruct (Z.eqb_spec (2 * (N mod U)) U); try discriminate;
    try destruct (Z.even m); split; try lia; nia.
Qed.


Lemma fexp_normal (e : Z) : -1074 <= e - 53 -> fexp prec emax e = e - 53.
Proof. unfold fexp, emin, prec, emax. lia. Qed.

Lemma shr_Inv (N U : Z) (r : shr_record) (e k : Z) :
  0 <= k -> Inv N U r ->
  exists r', shr r e k = (r', e + k) /\ Inv N (2 ^ k * U) r'.
Proof.
  intros Hk Hinv. destruct k as [|p|p]; [| |lia].
  - exists r. rewrite Z.add_0_r. split; [reflexivity|].
    change (2 ^ 0) with 1. rewrite Z.mul_1_l. exact Hinv.
  - exists (SpecFloat.iter_pos shr_1 p r). split; [reflexivity|].
    apply iter_shr_1_Inv. exact Hinv.
Qed.

Lemma shr_fexp_Inv (m : positive) (e : Z) (l : location) (N U k : Z) :
  Zpos (digits2_pos m) = 53 + k -> 0 <= k -> -1074 <= e + k ->
  Inv N U (shr_record_of_loc (Zpos m) l) ->
  exists r', shr_fexp prec emax (Zpos m) e l = (r', e + k) /\
             Inv N (2 ^ k * U) r'.
Proof.
  intros Hd Hk He Hinv. unfold shr_fexp. simpl Zdigits2. rewrite Hd.
  rewrite fexp_normal by lia.
  replace (53 + k + e - 53 - e) with k by lia.
  apply shr_Inv; assumption.
Qed.

Lemma Inv_exact (M : Z) : 0 <= M -> Inv M 1 (shr_record_of_loc M loc_Exact).
Proof.
  intros HM. unfold Inv. simpl.
  rewrite Z.div_1_r, Z.mod_1_r. repeat split; lia.
Qed.

Lemma shr_fexp_carry (e : Z) :
  -1074 <= e ->
  shr_fexp prec emax (2 ^ 53) e loc_Exact
    = (Build_shr_record 4503599627370496 false false, e + 1).
Proof.
  intros He. unfold shr_fexp.
  change (Zdigits2 (2 ^ 53)) with 54. rewrite fexp_normal by lia.
  replace (54 + e - 53 - e) with 1 by lia. reflexivity.
Qed.

(** The rounding of a mantissa of [53 + k] digits, away from overflow and
    underflow: a mantissa of 53 digits, at an exponent raised by [k] or by
    [k + 1], within half a unit of the last place of the exact value. *)
Lemma binary_round_aux_spec (sx : bool) (mx : positive) (ex : Z)
    (lx : location) (N U k : Z) :
  Zpos (digits2_pos mx) = 53 + k -> 0 <= k ->
  -1074 <= ex + k -> ex + k + 1 <= 971 ->
  Inv N U (shr_record_of_loc (Zpos mx) lx) ->
  exists (m : positive) (j : Z),
    binary_round_aux prec emax sx (Zpos mx) ex lx
      = S754_finite sx m (ex + k + j) /\
    (j = 0 \/ j = 1) /\
    2 ^ 52 <= Zpos m < 2 ^ 53 /\
    - (2 ^ k * U) <= 2 * (Zpos m * 2 ^ j * (2 ^ k * U) - N) <= 2 ^ k * U.
Proof.
  intros Hd Hk Hlo Hhi Hinv.
  assert (Hmx : Zpos mx = N / U).
  { destruct Hinv as (_ & _ & Hm & _). destruct lx as [|[| |]]; exact Hm. }
  assert (HU : 0 < U) by (destruct Hinv as (HU & _); exact HU).
  destruct (shr_fexp_Inv mx ex lx N U k Hd Hk Hlo Hinv) as (r1 & Hshr & Hinv1).
  pose proof (round_nearest_even_Inv _ _ _ Hinv1) as [Hround Herr].
  cbv zeta in Hround, Herr.
  set (m2 := round_nearest_even (shr_m r1) (loc_of_shr_record r1)) in *.
  assert (Hpow : 0 < 2 ^ k) by (apply Z.pow_pos_nonneg; lia).
  assert (Hm1 : 2 ^ 52 <= shr_m r1 < 2 ^ 53).
  { destruct Hinv1 as (_ & _ & Hm1 & _). rewrite Hm1.
    replace (2 ^ k * U) with (U * 2 ^ k) by lia.
    rewrite <- Z.div_div by lia. rewrite <- Hmx.
    pose proof (digits2_pos_bounds mx) as [Hl Hh]. rewrite Hd in Hl, Hh.
    replace (53 + k - 1) with (52 + k) in Hl by lia.
    rewrite Z.pow_add_r in Hl, Hh by lia. split.
    - apply Z.div_le_lower_bound; lia.
    - apply Z.div_lt_upper_bound; lia. }
  unfold binary_round_aux. rewrite Hshr. fold m2.
  destruct (Z.eq_dec m2 (2 ^ 53)) as [Heq|Hne].
  - exists (4503599627370496%positive), 1. rewrite Heq in *.
    split; [|split; [right; reflexivity|split; [simpl; lia|]]].
    + rewrite shr_fexp_carry by lia. cbn [shr_m].
      destruct (Z.leb_spec (ex + k + 1) (emax - prec)) as [_|Hbad];
        [reflexivity|unfold emax, prec in Hbad; lia].
    + change (Zpos 4503599627370496 * 2 ^ 1) with (2 ^ 53). lia.
  - assert (Hm2 : 2 ^ 52 <= m2 < 2 ^ 53) by lia.
    destruct m2 as [|q|q] eqn:Hq; [simpl in Hm2; lia| |lia].
    exists q, 0. split; [|split; [left; reflexivity|split; [exact Hm2|]]].
    + unfold shr_fexp, shr. simpl Zdigits2.
      rewrite (digits2_pos_unique q 53) by exact Hm2.
      rewrite fexp_normal by lia.
      replace (53 + (ex + k) - 53 - (ex + k)) with 0 by lia.
      simpl. rewrite Z.add_0_r.
      destruct (Z.leb_spec (ex + k) (emax - prec)) as [_|Hbad];
        [reflexivity|unfold emax, prec in Hbad; lia].
    + rewrite Z.mul_1_r. exact Herr.
Qed.


Lemma pw_pos (e : Z) : -1200 <= e -> 0 < pw e.
Proof. intros He. unfold pw. apply Z.pow_pos_nonneg; lia. Qed.

Lemma pw_shift (a e : Z) : 0 <= a -> -1200 <= e -> pw (e + a) = 2 ^ a * pw e.
Proof.
  intros Ha He. unfold pw.
  replace (e + a + 1200) with (a + (e + 1200)) by lia.
  apply Z.pow_add_r; lia.
Qed.

Lemma pw_le (e e' : Z) : -1200 <= e -> e <= e' -> pw e <= pw e'.
Proof. intros He Hle. unfold pw. apply Z.pow_le_mono_r; lia. Qed.

(** Comparing two binades. *)
Lemma pow_pw_lt (a e c e' : Z) :
  0 <= a -> 0 <= c -> -1200 <= e -> -1200 <= e' ->
  2 ^ a * pw e < 2 ^ c * pw e' -> a + e < c + e'.
Proof.
  intros Ha Hc He He' Hlt.
  rewrite <- !pw_shift in Hlt by lia. unfold pw in Hlt.
  apply Z.pow_lt_mono_r_iff in Hlt; lia.
Qed.

Lemma multiple_close (x y P : Z) :
  0 < P -> - P < x * P - y * P < P -> x * P = y * P.
Proof. intros HP H. assert (x = y) by nia. subst. reflexivity. Qed.

Lemma canonical_unique (m m' : positive) (e e' : Z) :
  2 ^ 52 <= Zpos m < 2 ^ 53 -> 2 ^ 52 <= Zpos m' < 2 ^ 53 ->
  -1200 <= e -> -1200 <= e' ->
  Zpos m * pw e = Zpos m' * pw e' ->
  m = m' /\ e = e'.
Proof.
  assert (Hstep : forall (a b : positive) (x y : Z),
             2 ^ 52 <= Zpos a < 2 ^ 53 -> 2 ^ 52 <= Zpos b < 2 ^ 53 ->
             -1200 <= x -> x < y -> Zpos a * pw x = Zpos b * pw y -> False).
  { intros a b x y Ha Hb Hx Hxy Heq.
    replace y with (x + (y - x)) in Heq by lia.
    rewrite pw_shift in Heq by lia.
    pose proof (pw_pos x Hx) as HP.
    assert (Ht : 2 <= 2 ^ (y - x)).
    { change 2 with (2 ^ 1) at 1. apply Z.pow_le_mono_r; lia. }
    assert (Hab : Zpos a = Zpos b * 2 ^ (y - x)).
    { apply (Z.mul_cancel_r _ _ (pw x)); lia. }
    nia. }
  intros Hm Hm' He He' Heq.
  assert (Hee : e = e').
  { destruct (Z.lt_trichotomy e e') as [Hlt|[Heq'|Hgt]]; [|exact Heq'|].
    - exfalso. exact (Hstep m m' e e' Hm Hm' He Hlt Heq).
    - exfalso. exact (Hstep m' m e' e Hm' Hm He' Hgt (eq_sym Heq)). }
  subst e'. split; [|reflexivity].
  pose proof (pw_pos e He).
  assert (Zpos m = Zpos m') by (apply (Z.mul_cancel_r _ _ (pw e)); lia).
  congruence.
Qed.

Lemma iter_xO (p : positive) (c : positive) :
  Zpos (Pos.iter xO p c) = Zpos p * 2 ^ Zpos c.
Proof.
  induction c as [|c IH] using Pos.peano_ind.
  - simpl Pos.iter. change (2 ^ 1) with 2. lia.
  - rewrite Pos.iter_succ, Pos2Z.inj_succ, Z.pow_succ_r by lia.
    rewrite Pos2Z.inj_xO, IH. lia.
Qed.

Lemma shl_align_spec (m : positive) (e e0 : Z) :
  e0 <= e -> -1200 <= e0 ->
  Zpos (fst (shl_align m e e0)) * pw e0 = Zpos m * pw e.
Proof.
  intros Hle He0. unfold shl_align.
  destruct (e0 - e) as [|c|c] eqn:Hc; simpl fst.
  - replace e0 with e by lia. reflexivity.
  - lia.
  - rewrite iter_xO. replace e with (e0 + Zpos c) by lia.
    rewrite pw_shift by lia. lia.
Qed.

Lemma binary_normalize_spec (p : positive) (e0 : Z) :
  let e1 := Zpos (digits2_pos p) + e0 - 53 in
  -1074 <= e1 -> e1 + 1 <= 971 -> -1200 <= e0 ->
  exists (m : positive) (e : Z),
    binary_normalize prec emax (Zpos p) e0 false = S754_finite false m e /\
    2 ^ 52 <= Zpos m < 2 ^ 53 /\ e1 <= e <= e1 + 1 /\
    - pw e1 <= 2 * (Zpos m * pw e - Zpos p * pw e0) <= pw e1.
Proof.
  intros e1 Hlo Hhi He0.
  pose proof (digits2_pos_bounds p) as [Hpl Hph].
  set (n := Zpos (digits2_pos p)) in *.
  unfold binary_normalize, binary_round. fold n.
  rewrite fexp_normal by (unfold n, e1 in *; lia).
  replace (n + e0 - 53) with e1 by (unfold e1; lia).
  unfold shl_align.
  destruct (e1 - e0) as [|c|c] eqn:Hc.
  - (* exactly 53 digits *)
    destruct (binary_round_aux_spec false p e0 loc_Exact (Zpos p) 1 0)
      as (m & j & Hres & Hj & Hm & Herr);
      [fold n; unfold e1 in *; lia|lia|lia|lia|apply Inv_exact; lia|].
    rewrite Z.add_0_r in Hres.
    exists m, (e0 + j). split; [exact Hres|]. split; [exact Hm|].
    split; [lia|].
    change (2 ^ 0) with 1 in Herr. rewrite !Z.mul_1_r in Herr.
    replace e1 with e0 by lia.
    pose proof (pw_pos e0 He0) as HP.
    destruct Hj as [-> | ->].
    + rewrite Z.add_0_r. change (2 ^ 0) with 1 in Herr. nia.
    + rewrite (pw_shift 1 e0) by lia. change (2 ^ 1) with 2 in *. nia.
  - (* more than 53 digits: the mantissa is rounded *)
    destruct (binary_round_aux_spec false p e0 loc_Exact (Zpos p) 1 (Zpos c))
      as (m & j & Hres & Hj & Hm & Herr);
      [fold n; unfold e1 in *; lia|lia|lia|lia|apply Inv_exact; lia|].
    exists m, (e0 + Zpos c + j). split; [exact Hres|]. split; [exact Hm|].
    split; [lia|].
    rewrite !Z.mul_1_r in Herr.
    replace e1 with (e0 + Zpos c) by lia.
    rewrite (pw_shift (Zpos c) e0) by lia.
    pose proof (pw_pos e0 He0) as HP.
    assert (Hc0 : 0 < 2 ^ Zpos c) by (apply Z.pow_pos_nonneg; lia).
    destruct Hj as [-> | ->].
    + rewrite Z.add_0_r, (pw_shift (Zpos c) e0) by lia.
      change (2 ^ 0) with 1 in Herr. nia.
    + replace (e0 + Zpos c + 1) with (e0 + (Zpos c + 1)) by lia.
      rewrite (pw_shift (Zpos c + 1) e0) by lia.
      rewrite Z.pow_add_r by lia. change (2 ^ 1) with 2 in *. nia.
  - (* fewer than 53 digits: the mantissa is shifted left, exactly *)
    assert (Hmz : 2 ^ 52 <= Zpos (Pos.iter xO p c) < 2 ^ 53).
    { rewrite iter_xO.
      replace 52 with ((n - 1) + Zpos c) by (unfold e1 in *; lia).
      replace 53 with (n + Zpos c) by (unfold e1 in *; lia).
      rewrite !Z.pow_add_r by lia.
      assert (0 < 2 ^ Zpos c) by (apply Z.pow_pos_nonneg; lia). nia. }
    destruct (binary_round_aux_spec false (Pos.iter xO p c) e1 loc_Exact
                (Zpos (Pos.iter xO p c)) 1 0)
      as (m & j & Hres & Hj & Hm & Herr);
      [rewrite (digits2_pos_unique _ 53 Hmz); lia|lia|lia|lia
      |apply Inv_exact; lia|].
    rewrite Z.add_0_r in Hres.
    change (2 ^ 0) with 1 in Herr. rewrite !Z.mul_1_r in Herr.
    assert (Hj0 : j = 0).
    { destruct Hj as [-> | ->]; [reflexivity|]. change (2 ^ 1) with 2 in Herr. lia. }
    subst j. change (2 ^ 0) with 1 in Herr. rewrite Z.add_0_r in Hres.
    exists m, e1. split; [exact Hres|]. split; [exact Hm|]. split; [lia|].
    assert (Hval : Zpos m = Zpos p * 2 ^ Zpos c) by (rewrite <- iter_xO; lia).
    replace e0 with (e1 + Zpos c) by lia.
    rewrite (pw_shift (Zpos c) e1) by lia. rewrite Hval.
    pose proof (pw_pos e1 ltac:(lia)). nia.
Qed.

(** Integers below [2^53] are represented exactly. *)
Lemma ofZ_spec (T : Z) :
  0 < T < 2 ^ 53 ->
  exists (m : positive) (e : Z),
    ofZ T = S754_finite false m e /\
    2 ^ 52 <= Zpos m < 2 ^ 53 /\ -52 <= e <= 0 /\
    Zpos m * pw e = T * pw 0.
Proof.
  intros HT. destruct T as [|p|p]; try lia.
  pose proof (digits2_pos_bounds p) as [Hpl Hph].
  assert (Hn : 1 <= Zpos (digits2_pos p) <= 53).
  { split; [lia|].
    destruct (Z_le_gt_dec (Zpos (digits2_pos p)) 53) as [|Hgt]; [assumption|].
    assert (2 ^ 53 <= 2 ^ (Zpos (digits2_pos p) - 1))
      by (apply Z.pow_le_mono_r; lia). lia. }
  destruct (binary_normalize_spec p 0) as (m & e & Hres & Hm & He & Herr);
    [lia|lia|lia|].
  set (e1 := Zpos (digits2_pos p) + 0 - 53) in *.
  assert (Hval : Zpos m * pw e = Zpos p * pw 0).
  { replace e with (e1 + (e - e1)) in * by lia.
    replace 0 with (e1 + (0 - e1)) in Herr |- * by lia.
    rewrite (pw_shift (e - e1) e1), (pw_shift (0 - e1) e1) in * by lia.
    pose proof (pw_pos e1 ltac:(lia)) as HP.
    replace (Zpos m * (2 ^ (e - e1) * pw e1))
      with (Zpos m * 2 ^ (e - e1) * pw e1) in * by lia.
    replace (Zpos p * (2 ^ (0 - e1) * pw e1))
      with (Zpos p * 2 ^ (0 - e1) * pw e1) in * by lia.
    apply multiple_close; lia. }
  exists m, e. split; [exact Hres|]. split; [exact Hm|]. split; [|exact Hval].
  split; [lia|].
  destruct (Z_le_gt_dec e 0) as [|Hgt]; [assumption|exfalso].
  assert (e = 1) by lia. subst e.
  change (pw 1) with (pw (0 + 1)) in Hval.
  rewrite (pw_shift 1 0) in Hval by lia. change (2 ^ 1) with 2 in Hval.
  pose proof (pw_pos 0 ltac:(lia)). nia.
Qed.

Lemma float_of_value (m : positive) (e T : Z) :
  2 ^ 52 <= Zpos m < 2 ^ 53 -> -1200 <= e -> 0 < T < 2 ^ 53 ->
  Zpos m * pw e = T * pw 0 ->
  S754_finite false m e = ofZ T.
Proof.
  intros Hm He HT Hval.
  destruct (ofZ_spec T HT) as (m' & e' & Hres & Hm' & He' & Hval').
  rewrite Hres.
  destruct (canonical_unique m m' e e' Hm Hm' He ltac:(lia)) as [-> ->];
    [congruence|reflexivity].
Qed.

(** A value closer to an integer than half a unit of the last place is
    rounded to that integer. *)
Lemma normalize_near_integer (p : positive) (e0 T : Z) :
  let e1 := Zpos (digits2_pos p) + e0 - 53 in
  -1074 <= e1 <= 0 -> -1200 <= e0 -> 0 < T < 2 ^ 53 ->
  - pw e1 < 2 * (Zpos p * pw e0 - T * pw 0) < pw e1 ->
  binary_normalize prec emax (Zpos p) e0 false = ofZ T.
Proof.
  intros e1 He1 He0 HT Hnear.
  destruct (binary_normalize_spec p e0) as (m & e & Hres & Hm & He & Herr);
    [fold e1; lia|fold e1; lia|lia|].
  fold e1 in He, Herr. rewrite Hres.
  apply float_of_value; [exact Hm|lia|exact HT|].
  replace e with (e1 + (e - e1)) in * by lia.
  replace 0 with (e1 + (0 - e1)) in Hnear |- * by lia.
  rewrite (pw_shift (e - e1) e1), (pw_shift (0 - e1) e1) in * by lia.
  pose proof (pw_pos e1 ltac:(lia)) as HP.
  replace (Zpos m * (2 ^ (e - e1) * pw e1))
    with (Zpos m * 2 ^ (e - e1) * pw e1) in * by lia.
  replace (T * (2 ^ (0 - e1) * pw e1))
    with (T * 2 ^ (0 - e1) * pw e1) in * by lia.
  apply multiple_close; lia.
Qed.


(** The difference of two time values is exact. *)
Lemma nsub_exact (a b : Z) :
  0 < a < b -> b < 2 ^ 53 -> nsub (ofZ b) (ofZ a) = ofZ (b - a).
Proof.
  intros Hab Hb.
  destruct (ofZ_spec b ltac:(lia)) as (mb & eb & Hrb & Hmb & Heb & Hvb).
  destruct (ofZ_spec a ltac:(lia)) as (ma & ea & Hra & Hma & Hea & Hva).
  rewrite Hrb, Hra. unfold nsub, SFsub, cond_Zopp.
  set (e0 := Z.min eb ea).
  pose proof (shl_align_spec mb eb e0 ltac:(lia) ltac:(lia)) as Hsb.
  pose proof (shl_align_spec ma ea e0 ltac:(lia) ltac:(lia)) as Hsa.
  set (Mb := Zpos (fst (shl_align mb eb e0))) in *.
  set (Ma := Zpos (fst (shl_align ma ea e0))) in *.
  pose proof (pw_pos e0 ltac:(lia)) as HP0.
  pose proof (pw_pos 0 ltac:(lia)) as HP.
  assert (Hval : (Mb - Ma) * pw e0 = (b - a) * pw 0) by lia.
  destruct (Mb - Ma) as [|p|p] eqn:HM; [nia| |nia].
  pose proof (digits2_pos_bounds p) as [Hpl Hph].
  pose proof (pw_pos (Zpos (digits2_pos p) + e0 - 53) ltac:(lia)) as HP1.
  apply normalize_near_integer; [|lia|lia|lia].
  split; [lia|].
  assert (Hlt : 2 ^ (Zpos (digits2_pos p) - 1) * pw e0 < 2 ^ 53 * pw 0) by nia.
  apply pow_pw_lt in Hlt; lia.
Qed.

Lemma nadd_near_integer (s d : Z) (mz : positive) (ez : Z) :
  2 ^ 40 <= s -> 0 < d -> s + d + 1 < 2 ^ 53 ->
  2 ^ 52 <= Zpos mz < 2 ^ 53 -> -1100 <= ez <= 0 ->
  - pw (-13) < Zpos mz * pw ez - d * pw 0 < pw (-13) ->
  nadd (ofZ s) (S754_finite false mz ez) = ofZ (s + d).
Proof.
  intros Hs Hd Hsd Hmz Hez Hnear.
  assert (H40 : 2 ^ 40 < 2 ^ 53) by (apply Z.pow_lt_mono_r; lia).
  destruct (ofZ_spec s ltac:(lia)) as (ms & es & Hrs & Hms & Hes & Hvs).
  rewrite Hrs. unfold nadd, SFadd, cond_Zopp.
  set (e0 := Z.min es ez).
  pose proof (shl_align_spec ms es e0 ltac:(lia) ltac:(lia)) as Hss.
  pose proof (shl_align_spec mz ez e0 ltac:(lia) ltac:(lia)) as Hsz.
  cbn [Z.add].
  set (Ms := fst (shl_align ms es e0)) in *.
  set (Mz := fst (shl_align mz ez e0)) in *.
  pose proof (pw_pos e0 ltac:(lia)) as HP0.
  pose proof (pw_pos 0 ltac:(lia)) as HP.
  pose proof (pw_pos (-13) ltac:(lia)) as HP13.
  assert (H13 : pw 0 = 2 ^ 13 * pw (-13)) by (rewrite <- pw_shift by lia; reflexivity).
  assert (H12 : pw (-12) = 2 * pw (-13)).
  { change (-12) with (-13 + 1). rewrite pw_shift by lia. reflexivity. }
  assert (Hval : Zpos (Ms + Mz) * pw e0 = s * pw 0 + Zpos mz * pw ez)
    by (rewrite Pos2Z.inj_add; lia).
  pose proof (digits2_pos_bounds (Ms + Mz)) as [Hpl Hph].
  set (n := Zpos (digits2_pos (Ms + Mz))) in *.
  assert (Hlow : 40 + 0 < n + e0).
  { apply pow_pw_lt; [lia|lia|lia|lia|].
    pose proof (pw_pos ez ltac:(lia)). nia. }
  assert (Hup : (n - 1) + e0 < 53 + 0).
  { apply pow_pw_lt; [lia|lia|lia|lia|].
    assert (2 ^ 13 >= 1) by (change (2 ^ 13) with 8192; lia). nia. }
  apply normalize_near_integer; fold n; [lia|lia|lia|].
  pose proof (pw_le (-12) (n + e0 - 53) ltac:(lia) ltac:(lia)). nia.
Qed.

(** A product and a quotient of two normal Numbers, on the mantissas. *)
Lemma nmul_spec (mx : positive) (ex : Z) (my : positive) (ey : Z) :
  2 ^ 52 <= Zpos mx < 2 ^ 53 -> 2 ^ 52 <= Zpos my < 2 ^ 53 ->
  -1074 <= ex + ey + 52 -> ex + ey + 54 <= 971 ->
  exists (m : positive) (k j : Z),
    nmul (S754_finite false mx ex) (S754_finite false my ey)
      = S754_finite false m (ex + ey + k + j) /\
    (k = 52 \/ k = 53) /\ (j = 0 \/ j = 1) /\
    2 ^ 52 <= Zpos m < 2 ^ 53 /\
    - 2 ^ k <= 2 * (Zpos m * 2 ^ j * 2 ^ k - Zpos mx * Zpos my) <= 2 ^ k.
Proof.
  intros Hmx Hmy Hlo Hhi. unfold nmul, SFmul. cbn [xorb].
  assert (Hprod : 2 ^ 104 <= Zpos (mx * my) < 2 ^ 106).
  { rewrite Pos2Z.inj_mul. change (2 ^ 104) with (2 ^ 52 * 2 ^ 52).
    change (2 ^ 106) with (2 ^ 53 * 2 ^ 53). nia. }
  assert (Hk : Zpos (digits2_pos (mx * my)) = 53 + 52 \/
               Zpos (digits2_pos (mx * my)) = 53 + 53).
  { destruct (Z_lt_le_dec (Zpos (mx * my)) (2 ^ 105)).
    - left. apply digits2_pos_unique. simpl Z.sub. lia.
    - right. apply digits2_pos_unique. simpl Z.sub. lia. }
  destruct Hk as [Hk|Hk].
  - destruct (binary_round_aux_spec false (mx * my) (ex + ey) loc_Exact
                (Zpos (mx * my)) 1 52 Hk)
      as (m & j & Hres & Hj & Hm & Herr);
      [lia|lia|lia|apply Inv_exact; lia|].
    exists m, 52, j. rewrite Z.mul_1_r in Herr. rewrite Pos2Z.inj_mul in Herr.
    repeat split; try tauto; try lia.
  - destruct (binary_round_aux_spec false (mx * my) (ex + ey) loc_Exact
                (Zpos (mx * my)) 1 53 Hk)
      as (m & j & Hres & Hj & Hm & Herr);
      [lia|lia|lia|apply Inv_exact; lia|].
    exists m, 53, j. rewrite Z.mul_1_r in Herr. rewrite Pos2Z.inj_mul in Herr.
    repeat split; try tauto; try lia.
Qed.

Lemma new_location_Inv (N U : Z) :
  0 < U -> 0 <= N ->
  Inv N U (shr_record_of_loc (N / U) (new_location U (N mod U))).
Proof.
  intros HU HN. pose proof (Z.mod_pos_bound N U HU) as HR.
  assert (Hgoal : forall l,
             (l = loc_Exact /\ N mod U = 0) \/
             (l = loc_Inexact Lt /\ 0 < 2 * (N mod U) < U) \/
             (l = loc_Inexact Eq /\ 2 * (N mod U) = U) \/
             (l = loc_Inexact Gt /\ U < 2 * (N mod U)) ->
             Inv N U (shr_record_of_loc (N / U) l)).
  { intros l Hl. unfold Inv.
    destruct Hl as [[-> H]|[[-> H]|[[-> H]|[-> H]]]]; cbn;
      (split; [exact HU|]); (split; [exact HN|]); (split; [reflexivity|]);
      destruct (Z.leb_spec U (2 * (N mod U)));
      destruct (Z.eqb_spec (N mod U) 0);
      destruct (Z.eqb_spec (2 * (N mod U)) U); simpl; split;
        try reflexivity; lia. }
  apply Hgoal. unfold new_location.
  destruct (Z.even U) eqn:Heven.
  - unfold new_location_even. destruct (Z.eqb_spec (N mod U) 0); [tauto|].
    destruct (Z.compare_spec (2 * (N mod U)) U); [| |]; right.
    + right; left. tauto.
    + left. split; [reflexivity|lia].
    + right; right. tauto.
  - unfold new_location_odd. destruct (Z.eqb_spec (N mod U) 0); [tauto|].
    assert (Hodd : Z.odd U = true) by (rewrite <- Z.negb_even, Heven; reflexivity).
    apply Z.odd_spec in Hodd as [c Hc].
    destruct (Z.compare_spec (2 * (N mod U) + 1) U); right.
    + left. split; [reflexivity|lia].
    + left. split; [reflexivity|lia].
    + right; right. split; [reflexivity|lia].
Qed.

Lemma ndiv_spec (mx : positive) (ex : Z) (my : positive) (ey : Z) :
  2 ^ 52 <= Zpos mx < 2 ^ 53 -> 2 ^ 52 <= Zpos my < 2 ^ 53 ->
  -1074 <= ex - ey - 53 -> ex - ey - 53 + 2 <= 971 ->
  exists (m : positive) (k j : Z),
    ndiv (S754_finite false mx ex) (S754_finite false my ey)
      = S754_finite false m (ex - ey - 53 + k + j) /\
    (k = 0 \/ k = 1) /\ (j = 0 \/ j = 1) /\
    2 ^ 52 <= Zpos m < 2 ^ 53 /\
    - (2 ^ k * Zpos my)
      <= 2 * (Zpos m * 2 ^ j * (2 ^ k * Zpos my) - Zpos mx * 2 ^ 53)
      <= 2 ^ k * Zpos my.
Proof.
  intros Hmx Hmy Hlo Hhi.
  set (N := Zpos mx * 2 ^ 53).
  assert (Hcore : SFdiv_core_binary prec emax (Zpos mx) ex (Zpos my) ey
                  = (N / Zpos my, ex - ey - 53,
                     new_location (Zpos my) (N mod Zpos my))).
  { unfold SFdiv_core_binary. simpl Zdigits2.
    rewrite (digits2_pos_unique mx 53 Hmx), (digits2_pos_unique my 53 Hmy).
    rewrite fexp_normal by lia.
    replace (Z.min (53 + ex - (53 + ey) - 53) (ex - ey)) with (ex - ey - 53) by lia.
    replace (ex - ey - (ex - ey - 53)) with 53 by lia.
    rewrite Z.shiftl_mul_pow2 by lia. fold N.
    unfold Z.div, Z.modulo. destruct (Z.div_eucl N (Zpos my)). reflexivity. }
  unfold ndiv, SFdiv. rewrite Hcore. cbn [xorb].
  assert (HN : 2 ^ 52 * Zpos my < N < 2 ^ 54 * Zpos my).
  { unfold N. change (2 ^ 54) with (2 ^ 53 * 2). nia. }
  assert (Hq : 2 ^ 52 <= N / Zpos my < 2 ^ 54).
  { split.
    - apply Z.div_le_lower_bound; lia.
    - apply Z.div_lt_upper_bound; lia. }
  destruct (N / Zpos my) as [|q|q] eqn:Hqv; [simpl in Hq; lia| |lia].
  pose proof (new_location_Inv N (Zpos my) ltac:(lia) ltac:(lia)) as Hinv.
  rewrite Hqv in Hinv.
  assert (Hk : Zpos (digits2_pos q) = 53 + 0 \/ Zpos (digits2_pos q) = 53 + 1).
  { destruct (Z_lt_le_dec (Zpos q) (2 ^ 53)).
    - left. apply digits2_pos_unique. simpl Z.sub. lia.
    - right. apply digits2_pos_unique. simpl Z.sub. lia. }
  destruct Hk as [Hk|Hk].
  - destruct (binary_round_aux_spec false q (ex - ey - 53)
                (new_location (Zpos my) (N mod Zpos my)) N (Zpos my) 0 Hk)
      as (m & j & Hres & Hj & Hm & Herr); [lia|lia|lia|exact Hinv|].
    exists m, 0, j. fold N. repeat split; try tauto; try lia.
  - destruct (binary_round_aux_spec false q (ex - ey - 53)
                (new_location (Zpos my) (N mod Zpos my)) N (Zpos my) 1 Hk)
      as (m & j & Hres & Hj & Hm & Herr); [lia|lia|lia|exact Hinv|].
    exists m, 1, j. fold N. repeat split; try tauto; try lia.
Qed.


Lemma ofZ_60000 : ofZ 60000 = S754_finite false 8246337208320000 (-37).
Proof. reflexivity. Qed.

Lemma ofZ_60 : ofZ 60 = S754_finite false 8444249301319680 (-47).
Proof. reflexivity. Qed.

Lemma ofZ_1000 : ofZ 1000 = S754_finite false 8796093022208000 (-43).
Proof. reflexivity. Qed.

(** The three roundings of the round trip, on the mantissas. *)
Lemma mantissa_chain (md mx my mz k1 j1 k2 j2 k3 j3 : Z) :
  2 ^ 52 <= md < 2 ^ 53 -> 2 ^ 52 <= mx < 2 ^ 53 ->
  2 ^ 52 <= my < 2 ^ 53 -> 2 ^ 52 <= mz < 2 ^ 53 ->
  k1 = 0 \/ k1 = 1 -> j1 = 0 \/ j1 = 1 ->
  k2 = 52 \/ k2 = 53 -> j2 = 0 \/ j2 = 1 ->
  k3 = 52 \/ k3 = 53 -> j3 = 0 \/ j3 = 1 ->
  - (2 ^ k1 * 8246337208320000)
    <= 2 * (mx * 2 ^ j1 * (2 ^ k1 * 8246337208320000) - md * 2 ^ 53)
    <= 2 ^ k1 * 8246337208320000 ->
  - 2 ^ k2 <= 2 * (my * 2 ^ j2 * 2 ^ k2 - mx * 8444249301319680) <= 2 ^ k2 ->
  - 2 ^ k3 <= 2 * (mz * 2 ^ j3 * 2 ^ k3 - my * 8796093022208000) <= 2 ^ k3 ->
  -16 < mz * 2 ^ (k1 + j1 + k2 + j2 + k3 + j3 - 104) - 4 * md < 16.
Proof.
  intros Hmd Hmx Hmy Hmz Hk1 Hj1 Hk2 Hj2 Hk3 Hj3 H1 H2 H3.
  destruct Hk1 as [-> | ->], Hj1 as [-> | ->], Hk2 as [-> | ->],
           Hj2 as [-> | ->], Hk3 as [-> | ->], Hj3 as [-> | ->];
    change (2 ^ 0) with 1 in *; change (2 ^ 1) with 2 in *;
    change (2 ^ 52) with 4503599627370496 in *;
    change (2 ^ 53) with 9007199254740992 in *;
    match goal with
    | |- context [2 ^ ?e] =>
        let v := eval vm_compute in (2 ^ e) in change (2 ^ e) with v
    end; lia.
Qed.

(** The duration in minutes multiplied back into milliseconds is within
    [2^-13] of the number of milliseconds. *)
Lemma minutes_round_trip (d : Z) :
  0 < d < 2 ^ 38 ->
  exists (mz : positive) (ez : Z),
    nmul (nmul (ndiv (ofZ d) (ofZ 60000)) (ofZ 60)) (ofZ 1000)
      = S754_finite false mz ez /\
    2 ^ 52 <= Zpos mz < 2 ^ 53 /\ -1100 <= ez <= 0 /\
    - pw (-13) < Zpos mz * pw ez - d * pw 0 < pw (-13).
Proof.
  intros Hd.
  assert (H38 : 2 ^ 38 < 2 ^ 53) by (apply Z.pow_lt_mono_r; lia).
  destruct (ofZ_spec d ltac:(lia)) as (md & ed & Hrd & Hmd & Hed & Hvd).
  assert (Hed' : ed <= -15).
  { pose proof (pw_pos ed ltac:(lia)). pose proof (pw_pos 0 ltac:(lia)).
    assert (Hlt : 2 ^ 52 * pw ed < 2 ^ 38 * pw 0) by nia.
    apply pow_pw_lt in Hlt; lia. }
  rewrite Hrd, ofZ_60000, ofZ_60, ofZ_1000.
  destruct (ndiv_spec md ed 8246337208320000 (-37) Hmd)
    as (mx & k1 & j1 & Hx & Hk1 & Hj1 & Hmx & Herr1);
    [simpl; lia|lia|lia|].
  rewrite Hx.
  destruct (nmul_spec mx (ed - -37 - 53 + k1 + j1) 8444249301319680 (-47) Hmx)
    as (my & k2 & j2 & Hy & Hk2 & Hj2 & Hmy & Herr2);
    [simpl; lia|lia|lia|].
  rewrite Hy.
  destruct (nmul_spec my (ed - -37 - 53 + k1 + j1 + -47 + k2 + j2)
              8796093022208000 (-43) Hmy)
    as (mz & k3 & j3 & Hz & Hk3 & Hj3 & Hmz & Herr3);
    [simpl; lia|lia|lia|].
  rewrite Hz.
  eexists. eexists. split; [reflexivity|]. split; [exact Hmz|].
  split; [lia|].
  set (t := k1 + j1 + k2 + j2 + k3 + j3 - 104).
  replace (ed - -37 - 53 + k1 + j1 + -47 + k2 + j2 + -43 + k3 + j3)
    with ((ed - 2) + t) by (unfold t; lia).
  assert (Ht : 0 <= t) by (unfold t; lia).
  rewrite pw_shift by lia.
  pose proof (pw_pos (ed - 2) ltac:(lia)) as HP.
  assert (Hd4 : d * pw 0 = (4 * Zpos md) * pw (ed - 2)).
  { rewrite <- Hvd. replace ed with ((ed - 2) + 2) at 1 by lia.
    rewrite pw_shift by lia. change (2 ^ 2) with 4. lia. }
  assert (H17 : pw (-13) = 2 ^ (-15 - ed) * (16 * pw (ed - 2))).
  { replace (-13) with ((ed - 2) + ((-15 - ed) + 4)) by lia.
    rewrite pw_shift, Z.pow_add_r by lia. change (2 ^ 4) with 16. lia. }
  assert (Hone : 1 <= 2 ^ (-15 - ed)).
  { change 1 with (2 ^ 0). apply Z.pow_le_mono_r; lia. }
  assert (Hmant : -16 < Zpos mz * 2 ^ t - 4 * Zpos md < 16).
  { unfold t.
    apply (mantissa_chain (Zpos md) (Zpos mx) (Zpos my) (Zpos mz)
             k1 j1 k2 j2 k3 j3); assumption. }
  rewrite Hd4, H17.
  replace (Zpos mz * (2 ^ t * pw (ed - 2)) - 4 * Zpos md * pw (ed - 2))
    with ((Zpos mz * 2 ^ t - 4 * Zpos md) * pw (ed - 2)) by lia.
  set (W := Zpos mz * 2 ^ t - 4 * Zpos md) in *.
  set (P := pw (ed - 2)) in *. set (c := 2 ^ (-15 - ed)) in *.
  assert (Hhi : W * P < 16 * P) by (apply Z.mul_lt_mono_pos_r; lia).
  assert (Hlo : -16 * P < W * P) by (apply Z.mul_lt_mono_pos_r; lia).
  assert (Hc : 1 * (16 * P) <= c * (16 * P))
    by (apply Z.mul_le_mono_nonneg_r; lia).
  lia.
Qed.

Lemma TimeClip_ofZ (T : Z) : 0 < T <= maxTime -> TimeClip (ofZ T) = DateAt T.
Proof.
  intros HT.
  assert (Hmax : maxTime < 2 ^ 53) by (unfold maxTime; simpl; lia).
  destruct (ofZ_spec T ltac:(lia)) as (m & e & Hres & Hm & He & Hval).
  rewrite Hres. unfold TimeClip, truncate.
  assert (Hshift : Z.shiftl (Zpos m) e = T).
  { pose proof (pw_pos e ltac:(lia)) as HP.
    replace 0 with (e + (0 - e)) in Hval by lia.
    rewrite pw_shift in Hval by lia.
    assert (Hmt : Zpos m = T * 2 ^ (0 - e))
      by (apply (Z.mul_cancel_r _ _ (pw e)); lia).
    destruct (Z.eq_dec e 0) as [->|Hne].
    - change (2 ^ (0 - 0)) with 1 in Hmt. rewrite Z.shiftl_0_r. lia.
    - rewrite Z.shiftl_div_pow2 by lia.
      replace (- e) with (0 - e) by lia. rewrite Hmt.
      apply Z.div_mul. apply Z.pow_nonzero; lia. }
  rewrite Hshift. unfold inDateRange.
  destruct (Z.leb_spec (Z.abs T) maxTime); [reflexivity|lia].
Qed.

(** The end that the handlers compute for a new start [s] is [s] plus the
    number of milliseconds of the original interval. *)
Lemma shiftedEnd_exact (a b s : Z) :
  0 < a < b -> b <= maxTime -> b - a < 2 ^ 38 ->
  2 ^ 40 <= s -> s + (b - a) <= maxTime ->
  shiftedEnd (DateAt s) (durationMinutes (DateAt a) (DateAt b))
    = DateAt (s + (b - a)).
Proof.
  intros Hab Hb Hd Hs Hsd.
  assert (Hmax : maxTime + 1 < 2 ^ 53) by (unfold maxTime; simpl; lia).
  unfold shiftedEnd, durationMinutes, valueOf.
  rewrite nsub_exact by lia.
  destruct (minutes_round_trip (b - a) ltac:(lia))
    as (mz & ez & Hz & Hmz & Hez & Hnear).
  rewrite Hz.
  rewrite (nadd_near_integer s (b - a) mz ez) by (assumption || lia).
  assert (H40 : 0 < 2 ^ 40) by (apply Z.pow_pos_nonneg; lia).
  apply TimeClip_ofZ. lia.
Qed.

Lemma durationMinutes_shift (a b s : Z) :
  0 < a < b -> b <= maxTime -> 0 < s -> s + (b - a) <= maxTime ->
  durationMinutes (DateAt s) (DateAt (s + (b - a)))
    = durationMinutes (DateAt a) (DateAt b).
Proof.
  intros Hab Hb Hs Hsd.
  assert (Hmax : maxTime < 2 ^ 53) by (unfold maxTime; simpl; lia).
  unfold durationMinutes, valueOf.
  rewrite !nsub_exact by lia.
  replace (s + (b - a) - s) with (b - a) by lia. reflexivity.
Qed.

End Binary64.

Section Rescheduling.
Import DragDrop Samples.

(** The stand-in of the drag-and-drop module answers [has_overlap: false],
    without an error, for every schedule, interval and event id; it
    consults no bookings. *)
Lemma mock_checkEventOverlap_no_conflict {A B C D : Type}
    (scheduleId : A) (startTime : B) (endTime : C) (eventId : D) :
  get "has_overlap"
      (OverlapDetector.checkEventOverlap scheduleId startTime endTime eventId)
    = Some (JBool false) /\
  get "error"
      (OverlapDetector.checkEventOverlap scheduleId startTime endTime eventId)
    = None /\
  truthy (get "has_overlap"
              (OverlapDetector.checkEventOverlap scheduleId startTime endTime
                                                 eventId)) = false.
Proof. repeat split. Qed.

(** A one-hour lecture at 10:00 dropped on another day keeps its hour. *)
Example lecture_dropped_keeps_duration :
  sent (handleEventDroppedOnDate utcHost accepting (EventData lecture)
                                 (DateAt 1794182400000) freshPage)
    = [mkEventUpdate 8 (Iso 1794218400000) (Iso 1794222000000)] /\
  updateDuration (mkEventUpdate 8 (Iso 1794218400000) (Iso 1794222000000))
    = durationMinutes (start_time lecture) (end_time lecture).
Proof. split; vm_compute; reflexivity. Qed.

(** The same lecture moved to the 09:30 slot of the day [now] falls on. *)
Example lecture_rescheduled_keeps_duration :
  sent (rescheduleEvent utcHost accepting 1793620800123 (EventData lecture)
                        (Some 9) (Some 30) freshPage)
    = [mkEventUpdate 8 (Iso 1793611800123) (Iso 1793615400123)].
Proof. vm_compute. reflexivity. Qed.

(** C7: the handlers mean to keep the duration, and miss.  The new end is
    computed from the duration in minutes, a binary64 quotient, multiplied
    back by 60 and by 1000; the product can fall just below the number of
    milliseconds, and [new Date] truncates it.  A quiz of 123 seconds
    dropped on 1 January 1970 in a browser on UTC is sent with an interval
    of 122999 milliseconds, whose duration in minutes differs from the
    original. *)
Lemma drop_on_epoch_loses_a_millisecond :
  sent (handleEventDroppedOnDate utcHost accepting (EventData quiz)
                                 (DateAt 0) freshPage)
    = [mkEventUpdate 7 (Iso 0) (Iso 122999)] /\
  timeValue (Iso 122999) - timeValue (Iso 0) <> 1793577723000 - 1793577600000 /\
  SFeqb (updateDuration (mkEventUpdate 7 (Iso 0) (Iso 122999)))
        (durationMinutes (start_time quiz) (end_time quiz)) = false.
Proof.
  split; [vm_compute; reflexivity|].
  split; [simpl; lia|vm_compute; reflexivity].
Qed.

Lemma sent_putEvent (net : Network) (label okMsg : string) (u : EventUpdate)
    (p : Page) :
  sent (putEvent net label okMsg u p) = (sent p ++ [u])%list.
Proof. unfold putEvent. destruct (net u) as [[|]|msg]; reflexivity. Qed.

(** X28: where the duration is kept.  For every dragged event that starts
    after the epoch, ends after it starts and lasts less than [2^38]
    milliseconds (about 8.7 years), and every new start whose time value is
    at least [2^40] (3 November 2004) with the new end inside the range of
    [Date], both handlers send the interval that begins at the new start
    and has the original number of milliseconds, so that its duration in
    minutes equals that of the original interval. *)
Theorem reschedule_preserves_duration (host : Host) (net : Network)
    (event : DragEvent) (a b s : Z) (p : Page) :
  start_time event = DateAt a -> end_time event = DateAt b ->
  0 < a < b -> b <= maxTime -> b - a < 2 ^ 38 ->
  2 ^ 40 <= s -> s + (b - a) <= maxTime ->
  let u := mkEventUpdate (id event) (Iso s) (Iso (s + (b - a))) in
  (forall target,
      setHours host target
               ((getHours host a * 60 + getMinutes host a) / 60)
               (Z.rem (getHours host a * 60 + getMinutes host a) 60) None
        = DateAt s ->
      sent (handleEventDroppedOnDate host net (EventData event)
                                     (DateAt target) p)
        = (sent p ++ [u])%list) /\
  (forall now h m,
      setHours host now h m (Some 0) = DateAt s ->
      sent (rescheduleEvent host net now (EventData event) (Some h) (Some m) p)
        = (sent p ++ [u])%list) /\
  updateDuration u = durationMinutes (start_time event) (end_time event).
Proof.
  intros Hstart Hend Hab Hb Hd Hs Hsd u.
  assert (Hshift : shiftedEnd (DateAt s) (durationMinutes (DateAt a) (DateAt b))
                   = DateAt (s + (b - a)))
    by (apply shiftedEnd_exact; assumption).
  assert (H40 : 0 < 2 ^ 40) by (apply Z.pow_pos_nonneg; lia).
  split; [|split].
  - intros target Hset. unfold handleEventDroppedOnDate.
    rewrite Hstart, Hend, Hset, Hshift. cbn [toISOString].
    cbn [OverlapDetector.checkEventOverlap get assoc String.eqb truthy].
    apply sent_putEvent.
  - intros now h m Hset. unfold rescheduleEvent.
    rewrite Hstart, Hend, Hset, Hshift. cbn [toISOString].
    apply sent_putEvent.
  - rewrite Hstart, Hend. unfold u, updateDuration, parseISO. cbn [timeValue
      new_start_time new_end_time].
    apply durationMinutes_shift; lia.
Qed.

Lemma reschedule_preserves_duration_witness :
  (0 < 1793613600000 < 1793617200000 /\
   1793617200000 <= maxTime /\
   1793617200000 - 1793613600000 < 2 ^ 38 /\
   2 ^ 40 <= 1794218400000 /\
   1794218400000 + (1793617200000 - 1793613600000) <= maxTime) /\
  sent (handleEventDroppedOnDate utcHost accepting (EventData lecture)
                                 (DateAt 1794182400000) freshPage)
    = [mkEventUpdate 8 (Iso 1794218400000) (Iso 1794222000000)] /\
  updateDuration (mkEventUpdate 8 (Iso 1794218400000) (Iso 1794222000000))
    = durationMinutes (start_time lecture) (end_time lecture).
Proof.
  assert (Hrange : 0 < 1793613600000 < 1793617200000 /\
                   1793617200000 <= maxTime /\
                   1793617200000 - 1793613600000 < 2 ^ 38 /\
                   2 ^ 40 <= 1794218400000 /\
                   1794218400000 + (1793617200000 - 1793613600000) <= maxTime)
    by (unfold maxTime; simpl; lia).
  split; [exact Hrange|].
  destruct Hrange as (Hab & Hb & Hd & Hs & Hsd).
  destruct (reschedule_preserves_duration utcHost accepting lecture
              1793613600000 1793617200000 1794218400000 freshPage
              eq_refl eq_refl Hab Hb Hd Hs Hsd) as (Hdrop & _ & Hdur).
  split; [|exact Hdur].
  apply (Hdrop 1794182400000). reflexivity.
Defined.

End Rescheduling.

(** * Further properties of the code *)

(** ** The local application: approve, decline and the stored state *)

Section LocalMore.
Import LocalApp LocalPages Clicks Samples Cases.

(** X1: approve and decline change one status and nothing else.  Whatever
    the call does, the schedules and the user are as before, the events
    are the same up to their statuses, and every event other than the first
    one with the given id is untouched. *)
Theorem transition_changes_one_status (a : Action) (i : Z) (w : World) :
  schedules (app (stateOf (perform a i w))) = schedules (app w) /\
  currentUser (app (stateOf (perform a i w))) = currentUser (app w) /\
  map (setStatus "") (events (app (stateOf (perform a i w))))
    = map (setStatus "") (events (app w)) /\
  forall n : nat,
    fst <$> list_find (fun x => id x = i) (events (app w)) <> Some n ->
    events (app (stateOf (perform a i w))) !! n = events (app w) !! n.
Proof.
  split; [|split; [|split]].
  - destruct (perform_events a i w) as [[_ ->]|(k & e & _ & _ & Hs & _)];
      [reflexivity|exact Hs].
  - destruct (perform_events a i w) as [[_ ->]|(k & e & _ & _ & _ & Hu)];
      [reflexivity|exact Hu].
  - apply perform_same_up_to_status.
  - apply perform_lookup_other.
Qed.

Lemma transition_changes_one_status_witness :
  fst <$> list_find (fun x => id x = 2) (events (app (worldOf admin)))
    <> Some 0%nat /\
  events (app (stateOf (perform Decline 2 (worldOf admin)))) !! 0%nat
    = Some mathEvent.
Proof.
  assert (Hother : fst <$> list_find (fun x => id x = 2)
                                     (events (app (worldOf admin)))
                   <> Some 0%nat) by (vm_compute; discriminate).
  split; [exact Hother|].
  destruct (transition_changes_one_status Decline 2 (worldOf admin))
    as (_ & _ & _ & Hrest).
  rewrite (Hrest 0%nat Hother). reflexivity.
Defined.

(** X2: an event that stands behind another event with the same id is out
    of reach.  No sequence of approve and decline calls changes it: every
    call on its id lands on the earlier event. *)
Theorem shadowed_event_never_decided (steps : list (Action * Z))
    (w w' : World) (j' j : nat) (e' e : Event) :
  events (app w) !! j' = Some e' -> events (app w) !! j = Some e ->
  (j' < j)%nat -> id e' = id e ->
  performAll steps w = Done w' ->
  events (app w') !! j = Some e.
Proof.
  revert w e'. induction steps as [|[a i] rest IH]; intros w e' Hj' Hj Hlt Hid Hrun;
    simpl in Hrun.
  - injection Hrun as <-. exact Hj.
  - destruct (perform a i w) as [w1|err w1] eqn:Hstep; simpl in Hrun;
      [|discriminate].
    assert (Hw1 : w1 = stateOf (perform a i w)) by (rewrite Hstep; reflexivity).
    assert (Hkeep : events (app w1) !! j = Some e).
    { rewrite Hw1, perform_lookup_other; [exact Hj|].
      destruct (list_find (fun x => id x = i) (events (app w)))
        as [[k x]|] eqn:Hfind; simpl; [|discriminate].
      intros [= ->].
      apply list_find_Some in Hfind as (Hk & Hi & Hmin).
      rewrite Hj in Hk. injection Hk as <-.
      apply (Hmin j' e' Hj' Hlt). congruence. }
    pose proof (perform_lookup_id a i w j') as Hidj'.
    rewrite <- Hw1, Hj' in Hidj'.
    destruct (events (app w1) !! j') as [e1|] eqn:He1; [|discriminate].
    injection Hidj' as Hid1.
    apply (IH w1 e1 He1 Hkeep Hlt); [congruence|exact Hrun].
Qed.


Lemma shadowed_event_never_decided_witness :
  events (app twinWorld) !! 0%nat = Some firstTwin /\
  events (app twinWorld) !! 1%nat = Some secondTwin /\
  (0 < 1)%nat /\ id firstTwin = id secondTwin /\
  events (app (stateOf (performAll [(Approve, 1793620800000);
                                    (Decline, 1793620800000)] twinWorld)))
    !! 1%nat = Some secondTwin.
Proof.
  split; [reflexivity|]. split; [reflexivity|]. split; [lia|].
  split; [reflexivity|].
  apply (shadowed_event_never_decided
           [(Approve, 1793620800000); (Decline, 1793620800000)] twinWorld
           (stateOf (performAll [(Approve, 1793620800000);
                                 (Decline, 1793620800000)] twinWorld))
           0%nat 1%nat firstTwin secondTwin);
    reflexivity || lia.
Defined.

(** X3: with pairwise distinct event ids, a decided event leaves the list
    of pending approvals and no other button appears or disappears: after a
    successful approve or decline of [i], the buttons are those of before
    except the one for [i]. *)
Theorem decided_event_leaves_pending_list (a : Action) (i : Z) (w w' : World) :
  NoDup (map id (events (app w))) ->
  perform a i w = Done w' ->
  forall j, j ∈ adminApprovalButtons (app w') <->
            j ∈ adminApprovalButtons (app w) /\ j <> i.
Proof.
  intros Hnodup Hdone j.
  assert (Hw' : w' = stateOf (perform a i w)) by (rewrite Hdone; reflexivity).
  destruct (perform_events a i w) as [[Hnone Hsame]|(k & e & Hfind & Hev & _)].
  - destruct (perform_transitionTo a i w) as [msg Hmsg].
    rewrite Hmsg, (transitionTo_missing _ _ _ _ Hnone) in Hdone. discriminate.
  - rewrite <- Hw' in Hev.
    pose proof (proj1 (list_find_Some _ _ _ _) Hfind) as (Hk & Hi & _).
    assert (Hnotpending : isPending (setStatus (target a) e) = false)
      by (destruct a; reflexivity).
    assert (Hunique : forall n x, events (app w) !! n = Some x -> id x = i -> n = k).
    { intros n x Hn Hx.
      apply (NoDup_lookup (map id (events (app w))) n k i Hnodup).
      - rewrite list_lookup_fmap, Hn. simpl. congruence.
      - rewrite list_lookup_fmap, Hk. simpl. congruence. }
    unfold adminApprovalButtons. rewrite Hev. split.
    + intros Hj. apply list_elem_of_fmap in Hj as (x & -> & Hx).
      apply list_elem_of_filter in Hx as (Hpend & Hin).
      apply list_elem_of_lookup in Hin as (n & Hn).
      destruct (decide (n = k)) as [->|Hne].
      * rewrite list_lookup_insert_eq in Hn
          by (eapply lookup_lt_Some; eassumption).
        injection Hn as <-. congruence.
      * rewrite list_lookup_insert_ne in Hn by congruence. split.
        -- apply list_elem_of_fmap. exists x. split; [reflexivity|].
           apply list_elem_of_filter. split; [exact Hpend|].
           apply list_elem_of_lookup. eauto.
        -- intros Hx. apply Hne. eapply Hunique; eassumption.
    + intros [Hj Hji]. apply list_elem_of_fmap in Hj as (x & -> & Hx).
      apply list_elem_of_filter in Hx as (Hpend & Hin).
      apply list_elem_of_lookup in Hin as (n & Hn).
      apply list_elem_of_fmap. exists x. split; [reflexivity|].
      apply list_elem_of_filter. split; [exact Hpend|].
      apply list_elem_of_lookup. exists n.
      rewrite list_lookup_insert_ne; [exact Hn|].
      intros <-. rewrite Hk in Hn. injection Hn as <-. congruence.
Qed.

Lemma decided_event_leaves_pending_list_witness :
  NoDup (map id (events (app (worldOf admin)))) /\
  perform Approve 2 (worldOf admin)
    = Done (stateOf (perform Approve 2 (worldOf admin))) /\
  (2 ∈ adminApprovalButtons (app (stateOf (perform Approve 2 (worldOf admin))))
   <-> 2 ∈ adminApprovalButtons (app (worldOf admin)) /\ 2 <> 2).
Proof.
  assert (Hnodup : NoDup (map id (events (app (worldOf admin))))).
  { apply (bool_decide_unpack _). reflexivity. }
  split; [exact Hnodup|]. split; [reflexivity|].
  apply (decided_event_leaves_pending_list Approve 2 (worldOf admin)
           (stateOf (perform Approve 2 (worldOf admin))) Hnodup eq_refl).
Defined.

Lemma synced_saveUserData (w : World) : synced (saveUserData w).
Proof. reflexivity. Qed.

Lemma showDashboard_Done (w w' : World) : showDashboard w = Done w' -> w' = w.
Proof.
  unfold showDashboard. destruct (currentUser (app w)); [|discriminate].
  intros [= <-]. reflexivity.
Qed.

Lemma synced_alert (msg : string) (w : World) : synced w -> synced (alert msg w).
Proof. intros H. exact H. Qed.

(** X4: five operations leave localStorage in step with [APP]: after a
    successful [createSchedule], [createEvent], [approveEvent],
    [declineEvent] or [quickLogin], the four stored items are the four
    fields of [APP].  ([logout] is not one of them: it empties the storage
    and keeps schedules and events in memory, see X6.) *)
Theorem successful_operations_are_saved (w w' : World) :
  (exists now form, createSchedule now form w = Done w') \/
  (exists now form, createEvent now form w = Done w') \/
  (exists i, approveEvent i w = Done w') \/
  (exists i, declineEvent i w = Done w') \/
  (exists rnd c email role, quickLogin rnd c email role w = Done w') ->
  synced w'.
Proof.
  assert (Htrans : forall tgt msg i, transitionTo tgt msg i w = Done w' -> synced w').
  { intros tgt msg i Hdone. unfold transitionTo in Hdone.
    destruct (list_find _ _) as [[k e]|]; [|discriminate].
    apply showDashboard_Done in Hdone. subst w'. reflexivity. }
  intros [(now & form & Hdone)|[(now & form & Hdone)|[(i & Hdone)|[(i & Hdone)
          |(rnd & c & email & role & Hdone)]]]].
  - unfold createSchedule in Hdone.
    destruct (currentUser (app w)); [|discriminate].
    apply showDashboard_Done in Hdone. subst w'. reflexivity.
  - unfold createEvent in Hdone.
    destruct (toISOString (f_start_time form)); [discriminate|].
    destruct (toISOString (f_end_time form)); [discriminate|].
    destruct (currentUser (app w)); [|discriminate].
    apply showDashboard_Done in Hdone. subst w'. reflexivity.
  - exact (Htrans _ _ _ Hdone).
  - exact (Htrans _ _ _ Hdone).
  - unfold quickLogin in Hdone.
    match type of Hdone with
    | bind (loadSampleData c ?w1) _ = _ => set (w1' := w1) in *
    end.
    assert (Hs1 : synced w1') by reflexivity.
    unfold loadSampleData in Hdone.
    destruct (schedules (app w1')) eqn:Hsch.
    + destruct (currentUser (app w1')); [|discriminate].
      destruct (sampleEvents c); [discriminate|]. simpl in Hdone.
      apply showDashboard_Done in Hdone. subst w'. reflexivity.
    + simpl in Hdone. apply showDashboard_Done in Hdone. subst w'. exact Hs1.
Qed.

Lemma successful_operations_are_saved_witness :
  (exists i, approveEvent i (worldOf admin)
             = Done (stateOf (approveEvent 2 (worldOf admin)))) /\
  synced (stateOf (approveEvent 2 (worldOf admin))).
Proof.
  assert (Hdone : exists i, approveEvent i (worldOf admin)
                            = Done (stateOf (approveEvent 2 (worldOf admin))))
    by (exists 2; reflexivity).
  split; [exact Hdone|].
  apply (successful_operations_are_saved (worldOf admin)
           (stateOf (approveEvent 2 (worldOf admin)))).
  right. right. left. exact Hdone.
Defined.

(** X5: what was saved comes back.  A page opened over a storage that
    agrees with [APP] starts with that same [APP], on the dashboard when a
    user was logged in and on the login page otherwise.  (Stated for events
    whose [schedule_id] is a number: JSON does not keep NaN.) *)
Theorem reload_restores_app (w : World) :
  synced w ->
  Forall (fun e => is_Some (schedule_id e)) (events (app w)) ->
  initApp (mkWorld initialAPP (storage w) [])
    = (match currentUser (app w) with
       | Some _ => Dashboard
       | None => LoginPage
       end,
       mkWorld (app w) (storage w) []).
Proof.
  intros Hsync _. unfold initApp, loadUserData. rewrite Hsync.
  destruct w as [[u ss es aps] st al]. simpl. destruct u; reflexivity.
Qed.

Lemma reload_restores_app_witness :
  synced savedWorld /\
  Forall (fun e => is_Some (schedule_id e)) (events (app savedWorld)) /\
  initApp reopened = (Dashboard, mkWorld (app savedWorld) (storage savedWorld) []).
Proof.
  assert (Hnum : Forall (fun e => is_Some (schedule_id e))
                        (events (app savedWorld)))
    by (repeat constructor; eexists; reflexivity).
  split; [reflexivity|]. split; [exact Hnum|].
  apply (reload_restores_app savedWorld eq_refl Hnum).
Defined.

(** X6: [logout] empties the storage and forgets the user, but keeps
    [APP.schedules] and [APP.events] in memory; as the sample data is only
    loaded into an empty [APP.schedules], whoever logs in next on the same
    page gets the schedules and events of the user before, and they are
    stored again under the new login. *)
Theorem logout_keeps_data_for_next_login (w : World) (rnd : string)
    (c : Clock) (email role : string) :
  schedules (app w) <> [] ->
  let w1 := snd (logout w) in
  fst (logout w) = LoginPage /\
  currentUser (app w1) = None /\ storage w1 = emptyStorage /\
  exists w2,
    quickLogin rnd c email role w1 = Done w2 /\
    schedules (app w2) = schedules (app w) /\
    events (app w2) = events (app w) /\
    ls_schedules (storage w2) = Some (schedules (app w)) /\
    ls_events (storage w2) = Some (events (app w)).
Proof.
  intros Hne w1. unfold w1, logout, initApp, loadUserData. simpl.
  split; [reflexivity|]. split; [reflexivity|]. split; [reflexivity|].
  unfold quickLogin, loadSampleData. simpl.
  destruct (schedules (app w)) eqn:Hs; [congruence|]. simpl.
  eexists. split; [reflexivity|]. simpl. rewrite Hs. repeat split.
Qed.

Lemma logout_keeps_data_for_next_login_witness :
  schedules (app (worldOf admin)) <> [] /\
  exists w2,
    quickLogin "z1y2x3w4v" noon "student@campus.edu" "student"
               (snd (logout (worldOf admin))) = Done w2 /\
    events (app w2) = [mathEvent; labEvent].
Proof.
  assert (Hne : schedules (app (worldOf admin)) <> []) by discriminate.
  split; [exact Hne|].
  destruct (logout_keeps_data_for_next_login (worldOf admin) "z1y2x3w4v" noon
              "student@campus.edu" "student" Hne)
    as (_ & _ & _ & w2 & Hlogin & _ & Hevents & _).
  exists w2. split; [exact Hlogin|exact Hevents].
Defined.

End LocalMore.

Section LocalPagesFacts.
Import LocalApp LocalPages Samples Cases.

(** A [createEvent] that returns had a user and two valid dates, and
    appended one event. *)
Lemma createEvent_Done_inv (now : Z) (form : EventForm) (w w' : World) :
  createEvent now form w = Done w' ->
  exists ev,
    id ev = now /\ schedule_id ev = f_schedule_id form /\
    app w' = setEvents (events (app w) ++ [ev])%list (app w).
Proof.
  unfold createEvent. intros Hdone.
  destruct (toISOString (f_start_time form)) as [|s]; [discriminate|].
  destruct (toISOString (f_end_time form)) as [|e]; [discriminate|].
  destruct (currentUser (app w)) as [u|]; [|discriminate].
  apply showDashboard_Done in Hdone. subst w'.
  eexists (mkEvent _ _ _ _ _ _ _). split; [|split]; reflexivity.
Qed.

(** X7: "Upcoming Events" lists the first five events in the order of
    their creation, whatever their times: once five events exist, an event
    created later is never listed there. *)
Theorem upcoming_events_ignore_later_events (now : Z) (form : EventForm)
    (w w' : World) :
  (5 <= length (events (app w)))%nat ->
  createEvent now form w = Done w' ->
  upcomingEvents (app w') = upcomingEvents (app w).
Proof.
  intros Hlen Hdone.
  destruct (createEvent_Done_inv _ _ _ _ Hdone) as (ev & _ & _ & Happ).
  unfold upcomingEvents. rewrite Happ. simpl.
  apply take_app_le. exact Hlen.
Qed.

Lemma upcoming_events_ignore_later_events_witness :
  (5 <= length (events (app busyWorld)))%nat /\
  upcomingEvents (app (stateOf (createEvent 1793620800000 seminarForm busyWorld)))
    = upcomingEvents (app busyWorld).
Proof.
  assert (Hlen : (5 <= length (events (app busyWorld)))%nat) by (simpl; lia).
  split; [exact Hlen|].
  apply (upcoming_events_ignore_later_events 1793620800000 seminarForm
           busyWorld _ Hlen eq_refl).
Defined.

(** X8: [createEvent] does not check that the chosen schedule exists.  An
    event created for no schedule of [APP.schedules] (an unparsable choice
    is NaN) is stored and counted among the events, but no schedule page
    lists it: every [viewSchedule] that succeeds shows what it showed
    before. *)
Theorem event_without_schedule_is_listed_nowhere (now : Z) (form : EventForm)
    (w w' : World) :
  (forall s, s ∈ schedules (app w) -> f_schedule_id form <> Some (s_id s)) ->
  createEvent now form w = Done w' ->
  length (events (app w')) = S (length (events (app w))) /\
  forall i s evs, viewSchedule i (app w') = inr (s, evs) ->
                  viewSchedule i (app w) = inr (s, evs).
Proof.
  intros Hfresh Hdone.
  destruct (createEvent_Done_inv _ _ _ _ Hdone) as (ev & _ & Hsid & Happ).
  rewrite Happ. simpl. split.
  - rewrite length_app. simpl. lia.
  - intros i s evs. unfold viewSchedule, eventsOfSchedule. simpl.
    destruct (list_find (fun s0 => s_id s0 = i) (schedules (app w)))
      as [[k s0]|] eqn:Hfind; [|discriminate].
    intros [= <- <-]. f_equal. f_equal.
    rewrite filter_app.
    pose proof (proj1 (list_find_Some _ _ _ _) Hfind) as (Hk & Hi & _).
    assert (Hno : schedule_id ev <> Some i).
    { rewrite Hsid, <- Hi. apply Hfresh.
      apply list_elem_of_lookup. eauto. }
    rewrite (filter_cons_False _ ev []) by exact Hno.
    rewrite filter_nil. symmetry. apply app_nil_r.
Qed.

Lemma event_without_schedule_is_listed_nowhere_witness :
  (forall s, s ∈ schedules (app (worldOf teacher)) ->
             f_schedule_id orphanForm <> Some (s_id s)) /\
  length (events (app (stateOf (createEvent 1793620800000 orphanForm
                                            (worldOf teacher))))) = 3%nat.
Proof.
  assert (Hfresh : forall s, s ∈ schedules (app (worldOf teacher)) ->
                             f_schedule_id orphanForm <> Some (s_id s))
    by (intros s _; discriminate).
  split; [exact Hfresh|].
  destruct (event_without_schedule_is_listed_nowhere 1793620800000 orphanForm
              (worldOf teacher) _ Hfresh eq_refl) as [Hlen _].
  exact Hlen.
Defined.

(** A [createSchedule] that returns appended one schedule with the id
    [now]. *)
Lemma createSchedule_Done_inv (now : Z) (form : ScheduleForm) (w w' : World) :
  createSchedule now form w = Done w' ->
  exists s,
    s_id s = now /\ s_title s = sf_title form /\
    app w' = setSchedules (schedules (app w) ++ [s])%list (app w).
Proof.
  unfold createSchedule. intros Hdone.
  destruct (currentUser (app w)) as [u|]; [|discriminate].
  apply showDashboard_Done in Hdone. subst w'.
  eexists (mkSchedule _ _ _ _ _ _). split; [|split]; reflexivity.
Qed.

(** X9: the page of a schedule after [createSchedule].  The pages of the
    schedules that existed are unchanged; the new schedule has a page,
    without events... unless its id, the millisecond of its creation, is
    that of an older schedule, in which case [find] goes on returning the
    older one and the new schedule has no page of its own. *)
Theorem viewSchedule_after_createSchedule (now : Z) (form : ScheduleForm)
    (w w' : World) (i : Z) :
  createSchedule now form w = Done w' ->
  match viewSchedule i (app w) with
  | inr page => viewSchedule i (app w') = inr page
  | inl _ =>
      if bool_decide (i = now)
      then exists s, viewSchedule i (app w') = inr (s, eventsOfSchedule i (app w))
                     /\ s_id s = now /\ s_title s = sf_title form
      else viewSchedule i (app w') = inl TypeError
  end.
Proof.
  intros Hdone.
  destruct (createSchedule_Done_inv _ _ _ _ Hdone) as (s & Hid & Htitle & Happ).
  unfold viewSchedule, eventsOfSchedule. rewrite Happ. simpl.
  destruct (list_find (fun s0 => s_id s0 = i) (schedules (app w)))
    as [[k s0]|] eqn:Hfind.
  - rewrite (list_find_app_l _ _ _ _ _ Hfind). reflexivity.
  - rewrite (list_find_app_r _ _ _ Hfind). simpl.
    case_bool_decide as Hi.
    + rewrite decide_True by congruence. simpl. exists s. auto.
    + rewrite decide_False by congruence. reflexivity.
Qed.

Lemma viewSchedule_after_createSchedule_witness :
  createSchedule 1793620800000 labForm (worldOf teacher)
    = Done (stateOf (createSchedule 1793620800000 labForm (worldOf teacher))) /\
  exists s,
    viewSchedule 1793620800000
      (app (stateOf (createSchedule 1793620800000 labForm (worldOf teacher))))
      = inr (s, []) /\ s_id s = 1793620800000 /\ s_title s = "Robotics".
Proof.
  split; [reflexivity|].
  exact (viewSchedule_after_createSchedule 1793620800000 labForm
           (worldOf teacher) _ 1793620800000 eq_refl).
Defined.

End LocalPagesFacts.

(** ** The status lines after a check *)

Section StatusLines.
Import Api OverlapPage Checks Samples.

Lemma post_failure (net : Network) (path label : string) (payload : json)
    (fallback : string -> json) (b : Browser) (msg : string) :
  (forall req, failure (net req) = Some msg) ->
  fst (OverlapDetector.post net path label payload fallback b) = fallback msg.
Proof.
  intros Hfail. unfold OverlapDetector.post.
  specialize (Hfail (mkRequest (OverlapDetector.API_BASE +:+ path) POST payload)).
  destruct (net _) as [ok [j|m]|m]; simpl in *; congruence.
Qed.


(** X10: the facility check fails open.  When the request fails, whatever
    the reason, the form shows "Room available"; and the facility line never
    has the class of an error. *)
Theorem failed_facility_check_shows_available (net : Network)
    (building roomNumber startTime endTime : json) (b : Browser)
    (msg : string) :
  (forall req, failure (net req) = Some msg) ->
  facilityStatusAfterCheck net building roomNumber startTime endTime b
    = inr (mkStatusEl "status-success" "Room available") /\
  forall result el, updateFacilityStatus result = inr el ->
                    className el <> "status-error".
Proof.
  intros Hfail. split.
  - unfold facilityStatusAfterCheck, OverlapDetector.checkFacilityAvailability.
    rewrite (post_failure _ _ _ _ _ _ msg Hfail). reflexivity.
  - intros result el. unfold updateFacilityStatus.
    destruct result; try discriminate;
      destruct (DragDrop.truthy _); intros [= <-]; discriminate.
Qed.

Lemma failed_facility_check_shows_available_witness :
  (forall req, failure (offline req) = Some "Failed to fetch") /\
  facilityStatusAfterCheck offline (JStr "Main") (JStr "101")
      (JStr "2026-11-03T09:00:00.000Z") (JStr "2026-11-03T10:00:00.000Z")
      freshBrowser
    = inr (mkStatusEl "status-success" "Room available").
Proof.
  assert (Hfail : forall req, failure (offline req) = Some "Failed to fetch")
    by (intros req; reflexivity).
  split; [exact Hfail|].
  destruct (failed_facility_check_shows_available offline (JStr "Main")
              (JStr "101") (JStr "2026-11-03T09:00:00.000Z")
              (JStr "2026-11-03T10:00:00.000Z") freshBrowser "Failed to fetch"
              Hfail) as [Hshown _].
  exact Hshown.
Defined.

(** X11: a failed overlap check is shown as an error exactly when the
    exception has a message: the status line tests the truthiness of
    [error], which holds the message, so a failure with an empty message
    reads "No conflicts".  A failed check is never shown as a conflict. *)
Theorem failed_overlap_check_status (net : Network)
    (scheduleId startTime endTime : json) (b : Browser) (msg : string) :
  (forall req, failure (net req) = Some msg) ->
  overlapStatusAfterCheck net scheduleId startTime endTime b
    = inr (if String.eqb msg ""
           then mkStatusEl "status-success" "No conflicts"
           else mkStatusEl "status-error" "Error checking availability").
Proof.
  intros Hfail.
  unfold overlapStatusAfterCheck, OverlapDetector.checkEventOverlap.
  rewrite (post_failure _ _ _ _ _ _ msg Hfail).
  unfold updateOverlapStatus. simpl. destruct (String.eqb msg ""); reflexivity.
Qed.

Lemma failed_overlap_check_status_witness :
  (forall req, failure (offline req) = Some "Failed to fetch") /\
  overlapStatusAfterCheck offline (JNum 1) (JStr "2026-11-03T09:00:00.000Z")
      (JStr "2026-11-03T10:00:00.000Z") freshBrowser
    = inr (mkStatusEl "status-error" "Error checking availability").
Proof.
  assert (Hfail : forall req, failure (offline req) = Some "Failed to fetch")
    by (intros req; reflexivity).
  split; [exact Hfail|].
  exact (failed_overlap_check_status offline (JNum 1)
           (JStr "2026-11-03T09:00:00.000Z") (JStr "2026-11-03T10:00:00.000Z")
           freshBrowser "Failed to fetch" Hfail).
Defined.



End StatusLines.

(** ** The actions of [ApprovalManager] *)

Section ApprovalActions.
Import Api Approvals Checks.

(** X13: each of [requestApproval], [approveEvent], [requestChanges] and
    [resubmitForApproval] sends exactly one request, a POST under
    [/approvals/], and its result is truthy exactly when the server answered
    that request with an ok status; in that case exactly one alert is
    shown. *)
Theorem approval_actions_send_one_request (net : Network) (a : Action)
    (b : Browser) :
  exists req,
    sent (snd (run net a b)) = (sent b ++ [req])%list /\
    method req = POST /\
    startsWith (API_BASE +:+ "/approvals/") (url req) = true /\
    truthyResult (fst (run net a b)) = accepted (net req) /\
    (accepted (net req) = true ->
     exists msg, alerts (snd (run net a b)) = (alerts b ++ [msg])%list).
Proof.
  destruct a as [i r|i r|i r|i]; cbn [run];
    unfold requestApproval, approveEvent, requestChanges, resubmitForApproval;
    match goal with
    | |- context [net ?r] => exists r; destruct (net r) as [[|] p|m]
    end;
    (split; [reflexivity|]); (split; [reflexivity|]);
    (split; [apply (proj2 (startsWith_spec _ _)); eexists; reflexivity|]);
    (split; [reflexivity|]);
    cbn [accepted]; intros Hacc; try discriminate; eexists; reflexivity.
Qed.

(** X14: an answer that is not ok is reported by two of the four actions
    only.  [requestApproval] and [approveEvent] alert and return [false];
    [requestChanges] and [resubmitForApproval] show nothing, log nothing and
    return [undefined]. *)
Theorem refused_change_request_is_silent (net : Network) (a : Action)
    (b : Browser) :
  (forall req, exists payload, net req = Resolved false payload) ->
  match a with
  | RequestApproval _ _ | ApproveEvent _ _ =>
      fst (run net a b) = Some false /\
      exists msg, alerts (snd (run net a b)) = (alerts b ++ [msg])%list
  | RequestChanges _ _ | Resubmit _ =>
      fst (run net a b) = None /\
      alerts (snd (run net a b)) = alerts b /\
      consoleErrors (snd (run net a b)) = consoleErrors b
  end.
Proof.
  intros Hnet.
  destruct a as [i r|i r|i r|i]; simpl;
    unfold requestApproval, approveEvent, requestChanges, resubmitForApproval;
    match goal with
    | |- context [net ?req] => destruct (Hnet req) as [payload ->]
    end; simpl; repeat split; eexists; reflexivity.
Qed.

Lemma refused_change_request_is_silent_witness :
  (forall req, exists payload, unauthorized req = Resolved false payload) /\
  fst (run unauthorized (RequestChanges 12 (Some "Room is too small"))
           freshBrowser) = None /\
  alerts (snd (run unauthorized (RequestChanges 12 (Some "Room is too small"))
                   freshBrowser)) = [] /\
  consoleErrors (snd (run unauthorized
                          (RequestChanges 12 (Some "Room is too small"))
                          freshBrowser)) = [].
Proof.
  assert (Hnet : forall req, exists payload,
                   unauthorized req = Resolved false payload)
    by (intros req; eexists; reflexivity).
  split; [exact Hnet|].
  exact (refused_change_request_is_silent unauthorized
           (RequestChanges 12 (Some "Room is too small")) freshBrowser Hnet).
Defined.

End ApprovalActions.

(** ** The two drop handlers *)

Section Drops.
Import DragDrop Samples Drags.

Lemma putEvent_outcome (net : Network) (label okMsg : string) (u : EventUpdate)
    (p : Page) :
  sent (putEvent net label okMsg u p) = (sent p ++ [u])%list /\
  alerts (putEvent net label okMsg u p)
    = (alerts p ++ match net u with
                   | Responded true => [okMsg]
                   | _ => []
                   end)%list /\
  (net u = Responded false ->
   consoleErrors (putEvent net label okMsg u p) = consoleErrors p /\
   unhandledRejections (putEvent net label okMsg u p) = unhandledRejections p).
Proof.
  unfold putEvent. destruct (net u) as [[|]|msg]; simpl;
    rewrite ?app_nil_r; repeat split; discriminate.
Qed.

(** X15: what a drop can do.  Each handler sends at most one request, a PUT
    for the dragged event, and alerts nothing but the success of that
    request; in particular a drop on the calendar is never refused for a
    conflict.  When the server refuses the update, the page shows and logs
    nothing. *)
Theorem drop_sends_at_most_one_update (host : Host) (net : Network)
    (data : DragData) (p : Page) :
  let outcome (okMsg : string) (p' : Page) :=
    (sent p' = sent p /\ alerts p' = alerts p) \/
    (exists ev u,
        data = EventData ev /\ eventId u = id ev /\
        sent p' = (sent p ++ [u])%list /\
        alerts p' = (alerts p ++ match net u with
                                 | Responded true => [okMsg]
                                 | _ => []
                                 end)%list /\
        (net u = Responded false ->
         consoleErrors p' = consoleErrors p /\
         unhandledRejections p' = unhandledRejections p)) in
  (forall newDate,
      outcome "Event moved successfully"
              (handleEventDroppedOnDate host net data newDate p)) /\
  (forall now hours minutes,
      outcome "Event rescheduled successfully"
              (rescheduleEvent host net now data hours minutes p)).
Proof.
  intros outcome. split.
  - intros newDate. unfold outcome, handleEventDroppedOnDate.
    destruct data as [|msg|ev]; [left; split; reflexivity..|].
    destruct (toISOString _) as [|start]; [left; split; reflexivity|].
    destruct (toISOString _) as [|stop]; [left; split; reflexivity|].
    cbn [OverlapDetector.checkEventOverlap get assoc String.eqb Ascii.eqb
         Bool.eqb truthy].
    right. exists ev, (mkEventUpdate (id ev) start stop).
    split; [reflexivity|]. split; [reflexivity|]. apply putEvent_outcome.
  - intros now hours minutes. unfold outcome, rescheduleEvent.
    destruct data as [|msg|ev]; [left; split; reflexivity..|].
    destruct (toISOString _) as [|start]; [left; split; reflexivity|].
    destruct (toISOString _) as [|stop]; [left; split; reflexivity|].
    right. exists ev, (mkEventUpdate (id ev) start stop).
    split; [reflexivity|]. split; [reflexivity|]. apply putEvent_outcome.
Qed.

Lemma shiftedEnd_of_invalid (newStartTime start stop : JSDate) :
  start = InvalidDate \/ stop = InvalidDate ->
  shiftedEnd newStartTime (durationMinutes start stop) = InvalidDate.
Proof.
  intros Hinv.
  assert (Hnan : durationMinutes start stop = S754_nan).
  { unfold durationMinutes, nsub, ndiv.
    destruct Hinv as [-> | ->]; simpl.
    - destruct (valueOf stop); reflexivity.
    - reflexivity. }
  rewrite Hnan. unfold shiftedEnd, nmul, nadd. simpl.
  destruct (valueOf newStartTime); reflexivity.
Qed.

(** X16: an event whose start or end is not a date is not moved.  Both
    handlers then send nothing and alert nothing; the exception of
    [toISOString] is logged, once. *)
Theorem invalid_event_times_send_nothing (host : Host) (net : Network)
    (ev : DragEvent) (p : Page) :
  start_time ev = InvalidDate \/ end_time ev = InvalidDate ->
  let unmoved (p' : Page) :=
    sent p' = sent p /\ alerts p' = alerts p /\
    length (consoleErrors p') = S (length (consoleErrors p)) in
  (forall newDate,
      unmoved (handleEventDroppedOnDate host net (EventData ev) newDate p)) /\
  (forall now hours minutes,
      unmoved (rescheduleEvent host net now (EventData ev) hours minutes p)).
Proof.
  intros Hinv unmoved. split.
  - intros newDate. unfold unmoved, handleEventDroppedOnDate.
    rewrite (shiftedEnd_of_invalid _ _ _ Hinv). cbn [toISOString].
    destruct (toISOString _); simpl; rewrite length_app; simpl;
      repeat split; lia.
  - intros now hours minutes. unfold unmoved, rescheduleEvent.
    rewrite (shiftedEnd_of_invalid _ _ _ Hinv). cbn [toISOString].
    destruct (toISOString _); simpl; rewrite length_app; simpl;
      repeat split; lia.
Qed.

Lemma invalid_event_times_send_nothing_witness :
  (start_time undated = InvalidDate \/ end_time undated = InvalidDate) /\
  sent (handleEventDroppedOnDate utcHost accepting (EventData undated)
                                 (DateAt 1794182400000) freshPage) = [] /\
  sent (rescheduleEvent utcHost accepting 1793620800123 (EventData undated)
                        (Some 9) (Some 30) freshPage) = [].
Proof.
  assert (Hinv : start_time undated = InvalidDate \/
                 end_time undated = InvalidDate) by (left; reflexivity).
  split; [exact Hinv|].
  destruct (invalid_event_times_send_nothing utcHost accepting undated
              freshPage Hinv) as [Hdrop Hslot].
  split.
  - exact (proj1 (Hdrop (DateAt 1794182400000))).
  - exact (proj1 (Hslot 1793620800123 (Some 9) (Some 30))).
Defined.

End Drops.

Section DropTimes.
Import DragDrop Samples.

(** Hours and minutes, packed into minutes and unpacked again. *)
Lemma timeDiff_unpacked (h m : Z) :
  0 <= h -> 0 <= m < 60 ->
  (h * 60 + m) / 60 = h /\ Z.rem (h * 60 + m) 60 = m.
Proof.
  intros Hh Hm. split.
  - symmetry. apply (Z.div_unique (h * 60 + m) 60 h m); lia.
  - rewrite Z.rem_mod_nonneg by lia.
    symmetry. apply (Z.mod_unique (h * 60 + m) 60 h m); lia.
Qed.

(** The fields of a time value assembled from its parts. *)
Lemma assembled_fields (day h m sec ms : Z) :
  0 <= h < 24 -> 0 <= m < 60 -> 0 <= sec < 60 -> 0 <= ms < 1000 ->
  let tv := day * 86400000 + h * 3600000 + m * 60000 + sec * 1000 + ms in
  tv / 86400000 = day /\ (tv / 3600000) mod 24 = h /\
  (tv / 60000) mod 60 = m /\ tv mod 60000 = sec * 1000 + ms.
Proof.
  intros Hh Hm Hs Hms tv. unfold tv. repeat split.
  - symmetry.
    apply (Z.div_unique _ 86400000 day (h * 3600000 + m * 60000 + sec * 1000 + ms));
      lia.
  - assert (Hq : (day * 86400000 + h * 3600000 + m * 60000 + sec * 1000 + ms)
                 / 3600000 = day * 24 + h).
    { symmetry.
      apply (Z.div_unique _ 3600000 (day * 24 + h) (m * 60000 + sec * 1000 + ms));
        lia. }
    rewrite Hq. symmetry. apply (Z.mod_unique _ 24 day h); lia.
  - assert (Hq : (day * 86400000 + h * 3600000 + m * 60000 + sec * 1000 + ms)
                 / 60000 = (day * 24 + h) * 60 + m).
    { symmetry.
      apply (Z.div_unique _ 60000 ((day * 24 + h) * 60 + m) (sec * 1000 + ms));
        lia. }
    rewrite Hq. symmetry. apply (Z.mod_unique _ 60 (day * 24 + h) m); lia.
  - symmetry.
    apply (Z.mod_unique _ 60000 ((day * 24 + h) * 60 + m) (sec * 1000 + ms)); lia.
Qed.

Lemma sent_one_more {A : Type} (l : list A) (u v : A) :
  (l ++ [u])%list = (l ++ [v])%list -> u = v.
Proof. intros H. apply app_inv_head in H. congruence. Qed.

Lemma sent_not_same {A : Type} (l : list A) (u : A) : l <> (l ++ [u])%list.
Proof.
  intros H. apply (f_equal length) in H. rewrite length_app in H. simpl in H. lia.
Qed.

(** X17: in a browser on UTC, an event dropped on a calendar day is sent
    with a start on that day at the hour and minute of its old start; the
    seconds and milliseconds are those of the date it was dropped on, not
    those of the old start. *)
Theorem drop_keeps_hour_and_minute (net : Network) (ev : DragEvent)
    (old target : Z) (p : Page) (u : EventUpdate) :
  start_time ev = DateAt old ->
  sent (handleEventDroppedOnDate utcHost net (EventData ev) (DateAt target) p)
    = (sent p ++ [u])%list ->
  let s := timeValue (new_start_time u) in
  s / 86400000 = target / 86400000 /\
  getHours utcHost s = getHours utcHost old /\
  getMinutes utcHost s = getMinutes utcHost old /\
  s mod 60000 = target mod 60000.
Proof.
  intros Hold Hsent.
  unfold handleEventDroppedOnDate in Hsent. rewrite Hold in Hsent.
  set (h := getHours utcHost old) in *.
  set (m := getMinutes utcHost old) in *.
  assert (Hh : 0 <= h < 24) by (apply Z.mod_pos_bound; lia).
  assert (Hm : 0 <= m < 60) by (apply Z.mod_pos_bound; lia).
  destruct (timeDiff_unpacked h m) as [Hdiv Hrem]; [lia|lia|].
  rewrite Hdiv, Hrem in Hsent.
  assert (Hsec : 0 <= (target / 1000) mod 60 < 60) by (apply Z.mod_pos_bound; lia).
  assert (Hms : 0 <= target mod 1000 < 1000) by (apply Z.mod_pos_bound; lia).
  pose proof (assembled_fields (target / 86400000) h m ((target / 1000) mod 60)
                (target mod 1000) Hh Hm Hsec Hms) as Hfields.
  cbv zeta in Hfields.
  cbn [setHours utcHost] in Hsent.
  destruct (inDateRange _) in Hsent.
  - cbn [toISOString] in Hsent.
    destruct (shiftedEnd _ _) as [|stop] in Hsent; cbn [toISOString] in Hsent.
    + simpl in Hsent. exfalso. eapply sent_not_same; exact Hsent.
    + cbn [OverlapDetector.checkEventOverlap get assoc String.eqb Ascii.eqb
           Bool.eqb truthy] in Hsent.
      rewrite sent_putEvent in Hsent. apply sent_one_more in Hsent. subst u.
      cbn [new_start_time timeValue].
      destruct Hfields as (Hday & Hhour & Hmin & Hrest).
      split; [exact Hday|]. split; [exact Hhour|]. split; [exact Hmin|].
      rewrite Hrest.
      assert (Hq : target mod 60000 = (target / 1000) mod 60 * 1000 + target mod 1000).
      { pose proof (Z.div_mod target 1000 ltac:(lia)) as H1.
        pose proof (Z.div_mod (target / 1000) 60 ltac:(lia)) as H2.
        symmetry.
        apply (Z.mod_unique target 60000 (target / 1000 / 60)); lia. }
      lia.
  - simpl in Hsent. exfalso. eapply sent_not_same; exact Hsent.
Qed.

Lemma drop_keeps_hour_and_minute_witness :
  start_time lecture = DateAt 1793613600000 /\
  sent (handleEventDroppedOnDate utcHost accepting (EventData lecture)
                                 (DateAt 1794182400000) freshPage)
    = (sent freshPage ++ [mkEventUpdate 8 (Iso 1794218400000)
                                        (Iso 1794222000000)])%list /\
  getHours utcHost 1794218400000 = getHours utcHost 1793613600000.
Proof.
  assert (Hsent : sent (handleEventDroppedOnDate utcHost accepting
                          (EventData lecture) (DateAt 1794182400000) freshPage)
                  = (sent freshPage ++ [mkEventUpdate 8 (Iso 1794218400000)
                                          (Iso 1794222000000)])%list)
    by (vm_compute; reflexivity).
  split; [reflexivity|]. split; [exact Hsent|].
  destruct (drop_keeps_hour_and_minute accepting lecture 1793613600000
              1794182400000 freshPage _ eq_refl Hsent) as (_ & Hhour & _).
  exact Hhour.
Defined.

(** X18: a drop on a time slot moves the event to the current day.  The
    start that [rescheduleEvent] sends is built from the clock and the slot
    alone: any two events dropped on the same slot at the same moment are
    sent with the same start, wherever they were before. *)
Theorem reschedule_start_ignores_event_date (host : Host) (net : Network)
    (now : Z) (ev1 ev2 : DragEvent) (hours minutes : option Z)
    (p1 p2 : Page) (u1 u2 : EventUpdate) :
  sent (rescheduleEvent host net now (EventData ev1) hours minutes p1)
    = (sent p1 ++ [u1])%list ->
  sent (rescheduleEvent host net now (EventData ev2) hours minutes p2)
    = (sent p2 ++ [u2])%list ->
  new_start_time u1 = new_start_time u2 /\
  exists h m, hours = Some h /\ minutes = Some m /\
              setHours host now h m (Some 0) = parseISO (new_start_time u1).
Proof.
  unfold rescheduleEvent. intros H1 H2.
  destruct hours as [h|], minutes as [m|];
    try (simpl in H1; exfalso; eapply sent_not_same; exact H1).
  destruct (setHours host now h m (Some 0)) as [|s] eqn:Hset;
    try (simpl in H1; exfalso; eapply sent_not_same; exact H1).
  cbn [toISOString] in H1, H2.
  destruct (toISOString (shiftedEnd (DateAt s) (durationMinutes (start_time ev1) _)))
    as [|stop1];
    try (simpl in H1; exfalso; eapply sent_not_same; exact H1).
  destruct (toISOString (shiftedEnd (DateAt s) (durationMinutes (start_time ev2) _)))
    as [|stop2];
    try (simpl in H2; exfalso; eapply sent_not_same; exact H2).
  rewrite sent_putEvent in H1, H2.
  apply sent_one_more in H1. apply sent_one_more in H2. subst u1 u2.
  split; [reflexivity|]. exists h, m.
  split; [reflexivity|]. split; [reflexivity|]. exact Hset.
Qed.

Lemma reschedule_start_ignores_event_date_witness :
  sent (rescheduleEvent utcHost accepting 1793620800123 (EventData lecture)
                        (Some 9) (Some 30) freshPage)
    = (sent freshPage ++ [mkEventUpdate 8 (Iso 1793611800123)
                                        (Iso 1793615400123)])%list /\
  sent (rescheduleEvent utcHost accepting 1793620800123 (EventData quiz)
                        (Some 9) (Some 30) freshPage)
    = (sent freshPage ++ [mkEventUpdate 7 (Iso 1793611800123)
                                        (Iso 1793611923123)])%list /\
  new_start_time (mkEventUpdate 8 (Iso 1793611800123) (Iso 1793615400123))
    = new_start_time (mkEventUpdate 7 (Iso 1793611800123) (Iso 1793611923123)).
Proof.
  assert (H1 : sent (rescheduleEvent utcHost accepting 1793620800123
                       (EventData lecture) (Some 9) (Some 30) freshPage)
               = (sent freshPage ++ [mkEventUpdate 8 (Iso 1793611800123)
                                       (Iso 1793615400123)])%list)
    by (vm_compute; reflexivity).
  assert (H2 : sent (rescheduleEvent utcHost accepting 1793620800123
                       (EventData quiz) (Some 9) (Some 30) freshPage)
               = (sent freshPage ++ [mkEventUpdate 7 (Iso 1793611800123)
                                       (Iso 1793611923123)])%list)
    by (vm_compute; reflexivity).
  split; [exact H1|]. split; [exact H2|].
  destruct (reschedule_start_ignores_event_date utcHost accepting 1793620800123
              lecture quiz (Some 9) (Some 30) freshPage freshPage _ _ H1 H2)
    as [Hsame _].
  exact Hsame.
Defined.

End DropTimes.


(** ** The colour system *)

Section ColorFacts.
Import Colors.

(** X19: [getColor] always answers with a colour of the palette: the one
    with the given hex code when there is one, Blue otherwise; and every
    colour of the palette is found under its own code. *)
Theorem getColor_in_palette (h : string) :
  getColor h ∈ colors /\
  (hex (getColor h) = h \/
   (getColor h = blue /\ forall c, c ∈ colors -> hex c <> h)) /\
  forall c, c ∈ colors -> getColor (hex c) = c.
Proof.
  split; [|split].
  - unfold getColor.
    destruct (list_find _ colors) as [[k c]|] eqn:Hfind.
    + apply list_find_Some in Hfind as (Hk & _ & _).
      apply list_elem_of_lookup. eauto.
    + apply list_elem_of_here.
  - unfold getColor.
    destruct (list_find _ colors) as [[k c]|] eqn:Hfind.
    + left. apply list_find_Some in Hfind as (_ & Hc & _). exact Hc.
    + right. split; [reflexivity|].
      intros c Hc. apply list_find_None in Hfind.
      exact (proj1 (Forall_forall _ _) Hfind c Hc).
  - intros c Hc. unfold colors in Hc.
    repeat (apply elem_of_cons in Hc as [-> | Hc]; [reflexivity|]).
    apply elem_of_nil in Hc. contradiction.
Qed.

(** X20: the colour of a schedule is never empty.  After
    [setScheduleColor i h], schedule [i] has the colour [h], or the default
    when [h] is the empty string, and the other schedules have the colour
    they had; a schedule never set has the default. *)
Theorem getScheduleColor_after_set (i j : Z) (h : string) (m : ScheduleColors) :
  getScheduleColor j (setScheduleColor i h m)
    = (if bool_decide (j = i)
       then if String.eqb h "" then "#3b82f6" else h
       else getScheduleColor j m) /\
  getScheduleColor j (∅ : ScheduleColors) = "#3b82f6" /\
  getScheduleColor j m <> "".
Proof.
  unfold getScheduleColor, setScheduleColor, ScheduleColors in *.
  split; [|split].
  - case_bool_decide as Hji.
    + subst j. rewrite lookup_insert_eq. reflexivity.
    + rewrite lookup_insert_ne by congruence. reflexivity.
  - rewrite lookup_empty. reflexivity.
  - destruct (m !! j) as [c|]; [|discriminate].
    destruct (String.eqb c "") eqn:Hc; [discriminate|].
    apply String.eqb_neq. exact Hc.
Qed.

Lemma loadScheduleColors_snoc (l : list (Z * string)) (s : Z * string)
    (m : ScheduleColors) :
  loadScheduleColors (l ++ [s]) m
    = setScheduleColor (fst s) (snd s) (loadScheduleColors l m).
Proof. unfold loadScheduleColors. rewrite foldl_snoc. reflexivity. Qed.

(** X21: [loadScheduleColors] lets the last schedule of the response win:
    afterwards an id has the colour of the last schedule listed with that
    id, and what it had before when no schedule of the response has it. *)
Theorem loadScheduleColors_last_wins (l : list (Z * string))
    (m : ScheduleColors) (i : Z) :
  loadScheduleColors l m !! i
    = match list_find (fun s => fst s = i) (reverse l) with
      | Some (_, s) => Some (snd s)
      | None => m !! i
      end.
Proof.
  induction l as [|s l IH] using rev_ind.
  - reflexivity.
  - rewrite loadScheduleColors_snoc, reverse_snoc.
    unfold setScheduleColor, ScheduleColors in *.
    cbn [list_find]. destruct (decide (fst s = i)) as [Hs|Hs].
    + rewrite Hs, lookup_insert_eq. reflexivity.
    + rewrite lookup_insert_ne by exact Hs. rewrite IH.
      destruct (list_find _ (reverse l)) as [[k x]|]; reflexivity.
Qed.

End ColorFacts.

(** ** The pages behind a login *)

Section PageLoads.
Import Visitors.

(** X22: the guard of the admin panel does not stop the page.  For every
    stored user other than [null], admin or not, loading the page sends the
    request for the platform statistics; a user who is not an admin is
    redirected to the login page as well. *)
Theorem admin_guard_does_not_stop_loading (currentUser : json)
    (net : Api.Network) (pg : AdminPanel.Page) :
  currentUser <> JNull ->
  exists pg',
    AdminPanel.onDOMContentLoaded currentUser net pg = inr pg' /\
    Api.sent (AdminPanel.browser pg')
      = (Api.sent (AdminPanel.browser pg) ++
         [Api.mkRequest (AdminPanel.API_BASE +:+ "/admin/statistics")
                        Api.GET JNull])%list /\
    AdminPanel.location pg'
      = if AdminPanel.isAdmin currentUser then AdminPanel.location pg
        else Some "/login.html".
Proof.
  intros Hnull. unfold AdminPanel.onDOMContentLoaded, AdminPanel.initializeAdmin.
  assert (Hsent : forall b,
            Api.sent (AdminPanel.loadDashboardData net b)
            = (Api.sent b ++
               [Api.mkRequest (AdminPanel.API_BASE +:+ "/admin/statistics")
                              Api.GET JNull])%list).
  { intros b. unfold AdminPanel.loadDashboardData.
    destruct (net _) as [ok [data|msg]|msg]; try reflexivity.
    destruct (AdminPanel.statisticsReadable data); reflexivity. }
  destruct currentUser; try congruence;
    destruct (AdminPanel.isAdmin _); eexists;
    (split; [reflexivity|]); (split; [apply Hsent|reflexivity]).
Qed.

Lemma admin_guard_does_not_stop_loading_witness :
  studentUser <> JNull /\
  exists pg',
    AdminPanel.onDOMContentLoaded studentUser Samples.offline
      (AdminPanel.mkPage None Api.freshBrowser) = inr pg' /\
    Api.sent (AdminPanel.browser pg')
      = [Api.mkRequest "http://localhost:5000/api/admin/statistics"
                       Api.GET JNull] /\
    AdminPanel.location pg' = Some "/login.html".
Proof.
  assert (Hnull : studentUser <> JNull) by discriminate.
  split; [exact Hnull|].
  exact (admin_guard_does_not_stop_loading studentUser Samples.offline
           (AdminPanel.mkPage None Api.freshBrowser) Hnull).
Defined.

Lemma sent_loadMySchedules (currentUser : json) (net : Dashboard.Network)
    (pg : Dashboard.Page) :
  Dashboard.sent (Dashboard.loadMySchedules currentUser net pg)
    = (Dashboard.sent pg ++ [Dashboard.GetSchedules])%list /\
  Dashboard.alerts (Dashboard.loadMySchedules currentUser net pg)
    = Dashboard.alerts pg /\
  Dashboard.address (Dashboard.loadMySchedules currentUser net pg)
    = Dashboard.address pg.
Proof.
  unfold Dashboard.loadMySchedules.
  destruct (net _) as [status [data|msg]|msg]; [|repeat split..].
  destruct data; try (repeat split; fail);
    match goal with
    | |- context [if ?c then _ else _] => destruct c
    end; repeat split.
Qed.

(** X23: without a token the dashboard redirects to the login page, and
    goes on to request the schedules all the same. *)
Theorem dashboard_without_token_still_loads (currentToken : option string)
    (currentUser : json) (net : Dashboard.Network) (pg : Dashboard.Page) :
  currentToken = None \/ currentToken = Some "" ->
  exists pg',
    Dashboard.onDOMContentLoaded currentToken currentUser net pg = inr pg' /\
    Dashboard.address pg' = Some "/login.html" /\
    Dashboard.sent pg' = (Dashboard.sent pg ++ [Dashboard.GetSchedules])%list.
Proof.
  intros [-> | ->]; unfold Dashboard.onDOMContentLoaded; simpl;
    eexists; (split; [reflexivity|]);
    destruct (sent_loadMySchedules currentUser net
                (Dashboard.redirect "/login.html" pg)) as (Hs & _ & Ha);
    unfold Dashboard.loadDashboardData; rewrite Hs, Ha; split; reflexivity.
Qed.

Lemma dashboard_without_token_still_loads_witness :
  ((None : option string) = None \/ (None : option string) = Some "") /\
  exists pg',
    Dashboard.onDOMContentLoaded None studentUser serving Dashboard.freshPage
      = inr pg' /\
    Dashboard.address pg' = Some "/login.html" /\
    Dashboard.sent pg' = [Dashboard.GetSchedules].
Proof.
  assert (Htoken : (None : option string) = None \/
                   (None : option string) = Some "") by (left; reflexivity).
  split; [exact Htoken|].
  exact (dashboard_without_token_still_loads None studentUser serving
           Dashboard.freshPage Htoken).
Defined.



End PageLoads.

(** ** Creating an event through the server *)

Section ServerSide.
Import Dashboard Visitors.

(** X25: the dashboard's [createEvent] leaves every check to the server.
    For two valid dates, in whatever order, it posts the event with those
    two times and with [requires_approval] as ticked in the form; a
    conflict is announced exactly when the server answers 409 with a JSON
    body, and the schedules are reloaded exactly when it answers with an ok
    status.  An invalid date makes the handler throw before anything is
    sent. *)
Theorem dashboard_createEvent_defers_to_server (currentUser : json)
    (net : Network) (form : EventForm) (pg : Page) :
  match f_start_time form, f_end_time form with
  | DateAt s, DateAt e =>
      exists data pg',
        createEvent currentUser net form pg = inr pg' /\
        start_time data = Iso s /\ end_time data = Iso e /\
        requires_approval data = isOn (f_requires_approval form) /\
        match net (PostEvent data) with
        | Answered status payload =>
            sent pg' = (sent pg ++ PostEvent data ::
                          (if ok status then [GetSchedules] else []))%list /\
            alerts pg'
              = (alerts pg ++
                 (if status =? 409
                  then match payload with
                       | Api.Json _ =>
                           ["Overlap detected! This event conflicts with another event."]
                       | Api.NotJson _ => []
                       end
                  else if ok status then ["Event created successfully"]
                       else ["Error creating event"]))%list
        | Unreachable _ =>
            sent pg' = (sent pg ++ [PostEvent data])%list /\
            alerts pg' = alerts pg
        end
  | _, _ => createEvent currentUser net form pg = inl RangeError
  end.
Proof.
  unfold createEvent.
  destruct (f_start_time form) as [|s]; [destruct (f_end_time form); reflexivity|].
  destruct (f_end_time form) as [|e]; [reflexivity|].
  cbn [toISOString].
  match goal with
  | |- context [net (PostEvent ?d)] => exists d; set (request := PostEvent d)
  end.
  eexists. split; [reflexivity|]. split; [reflexivity|]. split; [reflexivity|].
  split; [reflexivity|].
  destruct (net request) as [status payload|msg].
  - destruct (status =? 409) eqn:H409.
    + apply Z.eqb_eq in H409. subst status. cbn [ok Z.leb Z.compare andb].
      destruct payload; simpl; rewrite ?app_nil_r; split; reflexivity.
    + destruct (ok status).
      * unfold loadDashboardData.
        match goal with
        | |- context [loadMySchedules ?u ?n ?q] =>
            destruct (sent_loadMySchedules u n q) as (Hs & Ha & _)
        end.
        rewrite Hs, Ha. simpl. rewrite <- app_assoc. split; reflexivity.
      * split; reflexivity.
  - simpl. split; reflexivity.
Qed.

End ServerSide.

(** ** Browsing the public schedules *)

Section Browsing.
Import Dashboard Visitors.

Variable toLowerCase : string -> string.

Hypothesis toLowerCase_idempotent :
  forall s, toLowerCase (toLowerCase s) = toLowerCase s.

Hypothesis toLowerCase_empty : forall s, toLowerCase s = "" <-> s = "".






End Browsing.

Section BrowsingInAscii.
Import Dashboard Visitors.




End BrowsingInAscii.

(** ** The user list of the admin panel *)

Section UserList.
Import AdminPanel.

(** X27: the text of the search box is read but never sent.  The query of
    [loadUsers] holds the role filter exactly when it is set, the active
    filter exactly when it is set, always the first page of twenty users,
    and nothing else; whatever is typed into the search box, the query is
    the same. *)
Theorem loadUsers_ignores_search (role active search : string) :
  loadUsersParams role active search = loadUsersParams role active "" /\
  forall key value,
    (key, value) ∈ loadUsersParams role active search <->
    (key, value) = ("role", role) /\ role <> "" \/
    (key, value) = ("is_active", active) /\ active <> "" \/
    (key, value) = ("page", "1") \/ (key, value) = ("per_page", "20").
Proof.
  split; [reflexivity|]. intros key value. unfold loadUsersParams.
  destruct (String.eqb_spec role "") as [Hrole|Hrole],
           (String.eqb_spec active "") as [Hactive|Hactive];
    (split;
     [ simpl; intros Hin;
       repeat (apply elem_of_cons in Hin as [Hin|Hin]);
       try (apply elem_of_nil in Hin; contradiction); auto
     | intros [[Heq Hne]|[[Heq Hne]|[Heq|Heq]]];
       try contradiction; rewrite Heq; simpl;
       repeat first [apply list_elem_of_here | apply list_elem_of_further] ]).
Qed.

End UserList.
